(** * WellMixedTank: a verification development for
    metachem/templates/WellMixedTank.py

    The Python module assembles a control-flow graph of stateful nodes (a
    loader, samplers, observers, a three-way decision) around an opaque
    bonding subgraph, and records every reaction in a ledger.  The classes of
    the module are embedded as Rocq modules of the same name; node-local
    attributes are record fields, the four lifecycle phases are functions that
    pass the node and the containers explicitly, and a raised exception is the
    left summand of [result]. *)

From stdpp Require Import base gmap list strings pretty.
From Stdlib Require Import ZArith Lia Ascii.

Set Warnings "-register-all".
Local Open Scope Z_scope.

(** ** Python values, exceptions *)

(** A particle's [id] attribute: the source never constrains its type, it is
    only stored and formatted, so both integers and strings are allowed. *)
Inductive ident :=
| IdInt (n : Z)
| IdStr (s : string).

(** [WatsonSpike]: the two attributes the module reads. *)
Record WatsonSpike := { spikeNumber : Z; intensity : Z }.

(** An element of [part.open_spikes] or [part.bonds]: a sequence of which the
    module reads position 0 only. *)
Record spike_entry := { entry_head : WatsonSpike; entry_rest : list Z }.

(** The bond/spike structure of an [RBNParticle]. *)
Record RBNData := {
  atoms : list Z;
  open_spikes : list spike_entry;
  bonds : list spike_entry
}.

(** A [Particle]; [rbn p = Some d] when the object is an [RBNParticle]. *)
Record Particle := { id : ident; rbn : option RBNData }.

Inductive pyval :=
| VInt (n : Z)
| VStr (s : string)
| VObj (p : Particle)
| VTuple (l : list pyval)
| VList (l : list pyval).

Definition of_ident (i : ident) : pyval :=
  match i with IdInt n => VInt n | IdStr s => VStr s end.

(** [str(x)] for an identifier, as an f-string formats it. *)
Definition str_ident (i : ident) : string :=
  match i with IdInt n => pretty n | IdStr s => s end.

(** [isinstance(x, Particle)] *)
Definition isinstance_Particle (x : pyval) : bool :=
  match x with VObj _ => true | _ => false end.

(** [isinstance(x, RBNParticle)] *)
Definition isinstance_RBNParticle (x : pyval) : bool :=
  match x with VObj p => bool_decide (is_Some (rbn p)) | _ => false end.

(** Exceptions, by class.  The built-in ones carry their message; the
    errors of the operating system carry the file name they are about
    (their attribute [filename]).  [Exception cls msg] is an exception of
    any other class, named [cls]: the code that is not in the source tree
    may raise what it likes. *)
Inductive exn :=
| ValueError (msg : string)
| IndexError (msg : string)
| TypeError (msg : string)
| FileNotFoundError (filename : string)
| IsADirectoryError (filename : string)
| NotADirectoryError (filename : string)
| AttributeError (msg : string)
| InsufficientPopulationError
| Exception (cls msg : string).

Definition class_name (e : exn) : string :=
  match e with
  | ValueError _ => "ValueError"
  | IndexError _ => "IndexError"
  | TypeError _ => "TypeError"
  | FileNotFoundError _ => "FileNotFoundError"
  | IsADirectoryError _ => "IsADirectoryError"
  | NotADirectoryError _ => "NotADirectoryError"
  | AttributeError _ => "AttributeError"
  | InsufficientPopulationError => "InsufficientPopulationError"
  | Exception cls _ => cls
  end.

Definition result (A : Type) : Type := exn + A.
Definition Ok {A} (a : A) : result A := inr a.
Definition Raise {A} (e : exn) : result A := inl e.

Definition bind {A B} (m : result A) (k : A → result B) : result B :=
  match m with inl e => inl e | inr a => k a end.

Notation "'try!' x := m 'in' k" := (bind m (λ x, k))
  (at level 10, x pattern, m at level 100, k at level 200, only parsing).

(** [seq[0]], [seq[1]], ... on a Python list. *)
Definition getitem {A} (l : list A) (i : nat) : result A :=
  match l !! i with
  | Some a => Ok a
  | None => Raise (IndexError "list index out of range")
  end.

(** ** Containers *)

(** Modelled from the spec: the counter containers
    ([CoreContainer.StackEnvironment] is not in the source tree).  The spec
    describes a counter as a named integer register, initialised to 0, that is
    read, ticked and reset; [read()[0]] is the register's current value. *)
Module StackEnvironment.
Record t := { value : Z }.
Definition init : t := {| value := 0 |}.
Definition read0 (c : t) : Z := value c.
Definition tick (c : t) : t := {| value := value c + 1 |}.
Definition reset (c : t) : t := {| value := 0 |}.
End StackEnvironment.

(** ** TimingsDecision *)

Module TimingsDecision.

Record t := {
  time_thresh : Z;
  gen_thresh : Z;
  sample_size : Z;
  time : Z;
  gen : Z;
  tank_size : Z
}.

(** [__init__(graph, readcontainers, time_thresh, gen_thresh, sample_size)] *)
Definition init (time_thresh gen_thresh sample_size : Z) : t :=
  {| time_thresh := time_thresh; gen_thresh := gen_thresh;
     sample_size := sample_size; time := 0; gen := 0; tank_size := 0 |}.

(** [read]: [readcontainers] is [[VGen, VTime, TTank]]. *)
Definition read (self : t) (VGen VTime : StackEnvironment.t)
    (TTank : list pyval) : t :=
  {| time_thresh := time_thresh self; gen_thresh := gen_thresh self;
     sample_size := sample_size self;
     time := StackEnvironment.read0 VTime;
     gen := StackEnvironment.read0 VGen;
     tank_size := Z.of_nat (length TTank) |}.

Definition process (self : t) : Z :=
  if (gen self <? gen_thresh self) && (tank_size self >=? sample_size self)
  then 0
  else if time self <? time_thresh self then 1
  else 2.

(** One visit of the node: [read] then [process]. *)
Definition visit (self : t) (VGen VTime : StackEnvironment.t)
    (TTank : list pyval) : t * Z :=
  let self' := read self VGen VTime TTank in (self', process self').

End TimingsDecision.

(** Modelled from the spec: the keyed scalar store
    ([CoreContainer.DictionaryEnvironment] is not in the source tree), a
    mapping from string key to value: [read] hands out the dictionary,
    [remove] clears the given keys, [add] writes the given record into it. *)
Module DictionaryEnvironment.
Definition remove (keys : list string) (d : gmap string pyval)
    : gmap string pyval :=
  foldr delete d keys.
Definition add (record d : gmap string pyval) : gmap string pyval :=
  record ∪ d.
End DictionaryEnvironment.

(** Modelled from the spec: the reaction ledger
    ([CoreContainer.DataFrameEnvironment] is not in the source tree), a
    tabular store with the columns it was created with; [add] appends the
    given record as a new last row, [read] returns the table. *)
Module DataFrameEnvironment.
Record t := { columns : list string; rows : list (gmap string pyval) }.
Definition init (columns : list string) : t :=
  {| columns := columns; rows := [] |}.
Definition add (record : gmap string pyval) (df : t) : t :=
  {| columns := columns df; rows := rows df ++ [record] |}.
Definition read (df : t) : t := df.
End DataFrameEnvironment.

(** ** SampleObserver *)

Module SampleObserver.

Record t := { sample : list pyval; dict : gmap string pyval }.

Definition init : t := {| sample := []; dict := ∅ |}.

(** [read]: [readcontainers] is the sample buffer. *)
Definition read (self : t) (SComposite : list pyval) : t :=
  {| sample := SComposite; dict := dict self |}.

(** [pull]: [containersout] is the keyed store. *)
Definition pull (VBond : gmap string pyval) : gmap string pyval :=
  DictionaryEnvironment.remove ["id1"; "id2"; "obj1"; "obj2"] VBond.

(** [x.id if isinstance(x, Particle) else 'n/a'] *)
Definition id_or_na (x : pyval) : pyval :=
  match x with
  | VObj p => of_ident (id p)
  | _ => VStr "n/a"
  end.

Definition process (self : t) : result t :=
  try! s0 := getitem (sample self) 0 in
  let id1 := id_or_na s0 in
  try! second :=
    (if bool_decide (1 < length (sample self))%nat then
       try! s1 := getitem (sample self) 1 in
       Ok (id_or_na s1, s1)
     else Ok (VStr "None", VStr "None")) in
  let '(id2, obj2) := second in
  try! obj1 := getitem (sample self) 0 in
  Ok {| sample := sample self;
        dict := <["id1" := id1]> (<["id2" := id2]>
                  (<["obj1" := obj1]> (<["obj2" := obj2]> ∅))) |}.

Definition push (self : t) (VBond : gmap string pyval)
    : gmap string pyval :=
  DictionaryEnvironment.add (dict self) VBond.

(** One visit: read, pull, process, push. *)
Definition visit (self : t) (SComposite : list pyval)
    (VBond : gmap string pyval) : result (t * gmap string pyval) :=
  let self1 := read self SComposite in
  let VBond1 := pull VBond in
  try! self2 := process self1 in
  Ok (self2, push self2 VBond1).

End SampleObserver.

(** ** ReturnObserver *)

Module ReturnObserver.

Record t := { sample : list pyval; dict : gmap string pyval }.

Definition init : t := {| sample := []; dict := ∅ |}.

(** [read]: [readcontainers] is the sample buffer and [containersin] the
    keyed store, whose dictionary the node keeps a reference to. *)
Definition read (SComposite : list pyval) (VBond : gmap string pyval) : t :=
  {| sample := SComposite; dict := VBond |}.

(** [sum(...)]: left to right from 0. *)
Definition py_sum (l : list Z) : Z := foldl Z.add 0 l.

Definition spike_pairs (l : list spike_entry) : list (Z * Z) :=
  map (λ spike, (spikeNumber (entry_head spike),
                 intensity (entry_head spike))) l.

Definition total_intensity (d : RBNData) : Z :=
  py_sum (map snd (spike_pairs (open_spikes d) ++ spike_pairs (bonds d))).

(** The f-string built for one product. *)
Definition part_info (p : Particle) (d : RBNData) : string :=
  "RBNParticle(ID=" +:+ str_ident (id p) +:+
  ", Atoms=" +:+ pretty (length (atoms d)) +:+
  ", Open=" +:+ pretty (length (open_spikes d)) +:+
  ", Bonded=" +:+ pretty (length (bonds d)) +:+ ")".

Definition pairs_val (l : list (Z * Z)) : pyval :=
  VList (map (λ '(n, i), VTuple [VInt n; VInt i]) l).

(** The four lists the loop body appends to. *)
Record infos := {
  extended_prods : list pyval;
  open_spikes_info : list pyval;
  bonded_spikes_info : list pyval;
  intensities : list pyval
}.

(** The attributes of an [RBNParticle]; on any other object the access
    fails. *)
Definition as_RBNParticle (x : pyval) : result (Particle * RBNData) :=
  match x with
  | VObj p =>
      match rbn p with
      | Some d => Ok (p, d)
      | None => Raise (AttributeError "open_spikes")
      end
  | _ => Raise (AttributeError "id")
  end.

(** [for part in self.sample: ...] *)
Fixpoint loop (parts : list pyval) (acc : infos) : result infos :=
  match parts with
  | [] => Ok acc
  | part :: rest =>
      try! pd := as_RBNParticle part in
      let '(p, d) := pd in
      let open := spike_pairs (open_spikes d) in
      let bonded := spike_pairs (bonds d) in
      let total := py_sum (map snd (open ++ bonded)) in
      loop rest
        {| extended_prods := extended_prods acc ++ [VStr (part_info p d)];
           open_spikes_info := open_spikes_info acc ++ [pairs_val open];
           bonded_spikes_info := bonded_spikes_info acc ++ [pairs_val bonded];
           intensities := intensities acc ++ [VInt total] |}
  end.

(** The branch taken when every product is an [RBNParticle]. *)
Definition process_rbn (self : t) (current_generation : Z) : result t :=
  try! acc := loop (sample self)
    {| extended_prods := []; open_spikes_info := [];
       bonded_spikes_info := []; intensities := [] |} in
  Ok {| sample := sample self;
        dict := <["Generation" := VInt current_generation]>
                (<["Intensity" := VList (intensities acc)]>
                (<["Bonded_Spikes" := VList (bonded_spikes_info acc)]>
                (<["Open_Spikes" := VList (open_spikes_info acc)]>
                (<["Prods" := VList (extended_prods acc)]> (dict self))))) |}.

(** [["N/A"] * len(self.sample)] *)
Definition na_list (self : t) : pyval :=
  VList (replicate (length (sample self)) (VStr "N/A")).

(** The other branch. *)
Definition process_na (self : t) (current_generation : Z) : result t :=
  Ok {| sample := sample self;
        dict := <["Generation" := VInt current_generation]>
                (<["Intensity" := na_list self]>
                (<["Bonded_Spikes" := na_list self]>
                (<["Open_Spikes" := na_list self]>
                (<["Prods" := na_list self]> (dict self))))) |}.

Definition process (self : t) (VGen : StackEnvironment.t) : result t :=
  let current_generation := StackEnvironment.read0 VGen in
  if forallb isinstance_RBNParticle (sample self)
  then process_rbn self current_generation
  else process_na self current_generation.

Definition push (self : t) (VReaction : DataFrameEnvironment.t)
    : DataFrameEnvironment.t :=
  DataFrameEnvironment.add (dict self) VReaction.

(** One visit: read, process, push.  The dictionary mutated by [process]
    is the keyed store's own, so the store is returned updated too. *)
Definition visit (SComposite : list pyval) (VBond : gmap string pyval)
    (VGen : StackEnvironment.t) (VReaction : DataFrameEnvironment.t)
    : result (t * gmap string pyval * DataFrameEnvironment.t) :=
  let self1 := read SComposite VBond in
  try! self2 := process self1 VGen in
  Ok (self2, dict self2, push self2 VReaction).

End ReturnObserver.

(** ** The outside world: files and randomness *)

(** A POSIX file system, as the paths the program uses see it: [files]
    maps the paths that lead to a regular file to its content, [dirs] holds
    the paths that lead to a directory (no path is both); any other path
    leads nowhere.  A path is taken as it is written: two spellings of a
    path are two entries.  A file is a text file in the
    default encoding and is kept as the table of cells [csv.reader] makes of
    it.  Every file and directory may be read and written, there are no
    links, and names stay within the length limits of the system. *)
Record filesystem := {
  files : gmap string (list (list pyval));
  dirs : gset string
}.

(** [os.path.exists] *)
Definition path_exists (fs : filesystem) (path : string) : bool :=
  bool_decide (is_Some (files fs !! path)) || bool_decide (path ∈ dirs fs).

(** NAME_MAX of Linux, in bytes: a path no longer than this is within the
    limits on the length of a path and of each name in it. *)
Definition NAME_MAX : nat := 255.

(** Does the path hold the character NUL? *)
Fixpoint has_nul (p : string) : bool :=
  match p with
  | EmptyString => false
  | String a p' => bool_decide (a = "000"%char) || has_nul p'
  end.

(** The directories a path goes through: its proper prefixes that a "/"
    follows, the shortest first. *)
Fixpoint ancestors_from (pre p : string) : list string :=
  match p with
  | EmptyString => []
  | String a p' =>
      (if bool_decide (a = "/"%char) then [pre] else [])
      ++ ancestors_from (pre +:+ String a EmptyString) p'
  end.
Definition ancestors (p : string) : list string :=
  ancestors_from EmptyString p.

(** Does the path go through a regular file? *)
Definition under_file (fs : filesystem) (p : string) : bool :=
  existsb (λ q, bool_decide (is_Some (files fs !! q))) (ancestors p).

(** The exception of [open(p, ...)] for a path that cannot be opened.
    [open] refuses a path with a NUL before it asks the operating system;
    the operating system answers EISDIR for a directory, ENOTDIR for a path
    that goes through a regular file and ENOENT for a path that leads
    nowhere. *)
Definition open_error (fs : filesystem) (p : string) : exn :=
  if has_nul p then ValueError "embedded null byte"
  else if bool_decide (p ∈ dirs fs) then IsADirectoryError p
  else if under_file fs p then NotADirectoryError p
  else FileNotFoundError p.

(** A [ParticleFactory]: only [createParticles] is used. *)
Record ParticleFactory := { createParticles : Z → list pyval }.

Record world := {
  fs : filesystem;
  (** the stream behind [random.choice] and [random.randint] *)
  rand : nat → nat;
  (** [WatsonRBNParticleFactory(8, 2)] *)
  watson_factory : ParticleFactory
}.

(** ** LoadSampler *)

Module LoadSampler.

(** The [load_type] argument: [None], a string, or a factory object. *)
Inductive mode :=
| ModeNone
| ModeStr (s : string)
| ModeFactory (f : ParticleFactory).

Record t := {
  load_file : option string;
  load_type : mode;
  tank_size : Z;
  sample : list pyval
}.

(** [__init__].  The attribute [sample] is created by the constructor of
    [CoreNode.Sampler], which is not in the source tree; it is taken to start
    as the empty list. *)
Definition init (tank_size : Z) (load_type : mode)
    (load_file : option string) : t :=
  {| load_file := load_file; load_type := load_type;
     tank_size := tank_size; sample := [] |}.

Definition is_mode (m : mode) (s : string) : bool :=
  match m with ModeStr s' => bool_decide (s' = s) | _ => false end.

Definition set_sample (self : t) (l : list pyval) : t :=
  {| load_file := load_file self; load_type := load_type self;
     tank_size := tank_size self; sample := l |}.

(** [open(self.load_file, "r")], and the table [csv.reader] makes of the
    file.  [load_file] is [None] or a string. *)
Definition open_r (fs : filesystem) (path : option string)
    : result (list (list pyval)) :=
  match path with
  | None => Raise (TypeError "expected str, bytes or os.PathLike object, not NoneType")
  | Some p =>
      match files fs !! p with
      | Some table => Ok table
      | None => Raise (open_error fs p)
      end
  end.

Definition read (w : world) (self : t) : result t :=
  if is_mode (load_type self) "csv" then
    try! table := open_r (fs w) (load_file self) in
    try! row := getitem table 0 in
    Ok (set_sample self row)
  else Ok self.

(** [string.ascii_uppercase[k]] as a one-character string *)
Definition ascii_uppercase (k : nat) : string :=
  String (Ascii.ascii_of_nat (65 + k `mod` 26)) EmptyString.

(** [range(0, self.tank_size)] *)
Definition range (n : Z) : list nat := seq 0 (Z.to_nat n).

Definition pull (w : world) (self : t) : t :=
  if is_mode (load_type self) "scc" then
    set_sample self
      (map (λ i, VStr (ascii_uppercase (rand w i))) (range (tank_size self)))
  else if is_mode (load_type self) "int" then
    set_sample self
      (map (λ i, VInt (Z.of_nat (rand w i `mod` 101)))
           (range (tank_size self)))
  else if is_mode (load_type self) "RBN" then
    set_sample self (createParticles (watson_factory w) (tank_size self))
  else match load_type self with
       | ModeFactory f => set_sample self (createParticles f (tank_size self))
       | _ => self
       end.

(** [push]: [containersout.add(self.sample)], a batch added to the pool. *)
Definition push (self : t) (TTank : list pyval) : list pyval :=
  TTank ++ sample self.

Definition visit (w : world) (self : t) (TTank : list pyval)
    : result (t * list pyval) :=
  try! self1 := read w self in
  let self2 := pull w self1 in
  Ok (self2, push self2 TTank).

End LoadSampler.

(** ** The generic samplers *)

(** Modelled from the spec: [CoreControl.SimpleSampler] is not in the source
    tree.  It moves exactly [size] particles, selected arbitrarily, from the
    source to the destination and fails when the source holds fewer.  The
    selection is driven by a list of indices. *)
Module SimpleSampler.

Fixpoint draw (n : nat) (picks : list nat) (src : list pyval)
    : list pyval * list pyval :=
  match n with
  | O => ([], src)
  | S n' =>
      let i := (hd 0 picks `mod` length src)%nat in
      match src !! i with
      | Some x =>
          let '(got, rest) := draw n' (tl picks) (delete i src) in
          (x :: got, rest)
      | None => ([], src)
      end
  end.

Definition visit (size : Z) (picks : list nat) (src dst : list pyval)
    : result (list pyval * list pyval) :=
  if Z.of_nat (length src) <? size then Raise InsufficientPopulationError
  else
    let '(got, rest) := draw (Z.to_nat size) picks src in
    Ok (rest, dst ++ got).

End SimpleSampler.

(** Modelled from the spec: [CoreControl.BruteSampler] is not in the source
    tree.  It moves all particles from the source to the destination. *)
Module BruteSampler.
Definition visit (src dst : list pyval) : list pyval * list pyval :=
  ([], dst ++ src).
End BruteSampler.

(** ** os.path.splitext *)

Module ospath.

(** [p.rfind(c)], [-1] when absent. *)
Fixpoint rfind_from (c : Ascii.ascii) (p : string) (i last : Z) : Z :=
  match p with
  | EmptyString => last
  | String a p' =>
      rfind_from c p' (i + 1) (if bool_decide (a = c) then i else last)
  end.
Definition rfind (c : Ascii.ascii) (p : string) : Z := rfind_from c p 0 (-1).

(** [p[i:j]] for [0 <= i <= j]. *)
Definition slice (p : string) (i j : Z) : string :=
  String.substring (Z.to_nat i) (Z.to_nat (j - i)) p.

(** Is there a character other than the dot in [p[i:j]]? *)
Definition has_non_dot (p : string) (i j : Z) : bool :=
  negb (forallb (λ a, bool_decide (a = "."%char))
                (String.list_ascii_of_string (slice p i j))).

Definition splitext (p : string) : string * string :=
  let sepIndex := rfind "/"%char p in
  let dotIndex := rfind "."%char p in
  let len := Z.of_nat (String.length p) in
  if (sepIndex <? dotIndex) && has_non_dot p (sepIndex + 1) dotIndex
  then (slice p 0 dotIndex, slice p dotIndex len)
  else (p, EmptyString).

(** [os.path.dirname] for a relative path with one directory level. *)
Definition dirname (p : string) : string := slice p 0 (rfind "/"%char p).

End ospath.

(** ** WellMixedTank *)

Module WellMixedTank.

(** The bonding subgraph as the assembler sees it. *)
Record Subgraph := {
  count_control_in : Z;
  count_control_out : Z;
  count_links : Z
}.

(** The vertices of the assembled graph.  The bonding subgraph is opaque
    and stands as the single vertex [bondgraph] between its control-in and
    control-out. *)
Inductive node :=
| sload | otime | oreset | ssample | osample | bondgraph | oreturn
| sreturn | ogen | dgen | sgeneration | olog | ssimulation | tterm.

Global Instance node_eq_dec : EqDecision node.
Proof. solve_decision. Defined.

(** The stable edges, in the order they are added, then the two edges
    that splice the bonding subgraph in. *)
Definition edges : list (node * node) :=
  [(sload, otime); (otime, oreset); (oreset, ssample); (ssample, osample);
   (oreturn, sreturn); (sreturn, ogen); (ogen, dgen); (dgen, ssample);
   (dgen, sgeneration); (sgeneration, olog); (olog, otime);
   (dgen, ssimulation); (ssimulation, tterm);
   (osample, bondgraph); (bondgraph, oreturn)].

Definition ledger_columns : list string :=
  ["id1"; "id2"; "obj1"; "obj2"; "Prods"; "Open_Spikes"; "Bonded_Spikes";
   "Intensity"; "Generation"].

(** The node objects that carry constructor arguments.  Every node writes
    its other attributes in [read], [pull] or [process] before it uses
    them, on every visit, so nothing else of a node outlives a visit. *)
Record t := {
  sample_size : Z;
  load : LoadSampler.t;
  decision : TimingsDecision.t
}.

(** The containers of one tank.  [loaded], [handed] and [returned] are
    ghost counters that are not in the source: the particles the loader put
    in the pool, the participants handed to the bonding subgraph and the
    products it gave back, summed over the run. *)
Record state := {
  TTank : list pyval;
  TNew : list pyval;
  SComposite : list pyval;
  VTime : StackEnvironment.t;
  VGen : StackEnvironment.t;
  VBond : gmap string pyval;
  VReaction : DataFrameEnvironment.t;
  loaded : nat;
  handed : nat;
  returned : nat
}.

Definition shape_error : exn :=
  ValueError ("WellMixedTank requires the bond graph have a single link container and a single in and " +:+ "a single out control node").

Definition initial_state : state :=
  {| TTank := []; TNew := []; SComposite := [];
     VTime := StackEnvironment.init; VGen := StackEnvironment.init;
     VBond := ∅;
     VReaction := DataFrameEnvironment.init ledger_columns;
     loaded := 0; handed := 0; returned := 0 |}.

(** [__init__]: the shape check, then containers and nodes.  The optional
    [log_node] is left out: the default logger is used. *)
Definition init (bond : Subgraph) (sample_size reactions generations
    tank_size : Z) (load_type : LoadSampler.mode)
    (load_file : option string) : result (t * state) :=
  if negb ((count_control_in bond =? 1) && (count_control_out bond =? 1)
           && (count_links bond =? 1))
  then Raise shape_error
  else Ok ({| sample_size := sample_size;
              load := LoadSampler.init tank_size load_type load_file;
              decision :=
                TimingsDecision.init generations reactions sample_size |},
           initial_state).

(** What one visit takes from outside: the indices behind the sampler's
    selection, and what the bonding subgraph does: the products it leaves in
    the sample buffer, or the exception it raises. *)
Record oracle := {
  picks : list nat;
  products : list pyval;
  failure : option exn
}.

Definition set_tanks (s : state) (tank new composite : list pyval) : state :=
  {| TTank := tank; TNew := new; SComposite := composite;
     VTime := VTime s; VGen := VGen s; VBond := VBond s;
     VReaction := VReaction s;
     loaded := loaded s; handed := handed s; returned := returned s |}.

Definition set_clocks (s : state) (time gen : StackEnvironment.t) : state :=
  {| TTank := TTank s; TNew := TNew s; SComposite := SComposite s;
     VTime := time; VGen := gen; VBond := VBond s;
     VReaction := VReaction s;
     loaded := loaded s; handed := handed s; returned := returned s |}.

Definition set_records (s : state) (bond : gmap string pyval)
    (reaction : DataFrameEnvironment.t) : state :=
  {| TTank := TTank s; TNew := TNew s; SComposite := SComposite s;
     VTime := VTime s; VGen := VGen s; VBond := bond;
     VReaction := reaction;
     loaded := loaded s; handed := handed s; returned := returned s |}.

Definition set_ghost (s : state) (l h r : nat) : state :=
  {| TTank := TTank s; TNew := TNew s; SComposite := SComposite s;
     VTime := VTime s; VGen := VGen s; VBond := VBond s;
     VReaction := VReaction s;
     loaded := l; handed := h; returned := r |}.

(** One visit of node [n]: the new containers and the index of the
    out-edge to follow (0 for every node but the decision).  [olog] is the
    default [TimeLoggerObserver], which reads the two clocks and prints; the
    bonding subgraph is visited in one step, in which it raises or replaces
    the content of the sample buffer it is linked to by its products.  A
    subgraph that does not return is a run whose step budget ends at
    [bondgraph]. *)
Definition visit (w : world) (self : t) (o : oracle) (n : node) (s : state)
    : result (state * Z) :=
  match n with
  | sload =>
      try! r := LoadSampler.visit w (load self) (TTank s) in
      let '(l, tank) := r in
      Ok (set_ghost (set_tanks s tank (TNew s) (SComposite s))
            (loaded s + length (LoadSampler.sample l)) (handed s)
            (returned s), 0)
  | otime =>
      Ok (set_clocks s (StackEnvironment.tick (VTime s)) (VGen s), 0)
  | oreset =>
      Ok (set_clocks s (VTime s) (StackEnvironment.reset (VGen s)), 0)
  | ssample =>
      try! r := SimpleSampler.visit (sample_size self) (picks o)
                  (TTank s) (SComposite s) in
      let '(tank, composite) := r in
      Ok (set_tanks s tank (TNew s) composite, 0)
  | osample =>
      try! r := SampleObserver.visit SampleObserver.init (SComposite s)
                  (VBond s) in
      let '(_, bond) := r in
      Ok (set_records s bond (VReaction s), 0)
  | bondgraph =>
      match failure o with
      | Some e => Raise e
      | None =>
          Ok (set_ghost (set_tanks s (TTank s) (TNew s) (products o))
                (loaded s) (handed s + length (SComposite s))
                (returned s + length (products o)), 0)
      end
  | oreturn =>
      try! r := ReturnObserver.visit (SComposite s) (VBond s) (VGen s)
                  (VReaction s) in
      let '(_, bond, reaction) := r in
      Ok (set_records s bond reaction, 0)
  | sreturn =>
      let '(composite, new) := BruteSampler.visit (SComposite s) (TNew s) in
      Ok (set_tanks s (TTank s) new composite, 0)
  | ogen =>
      Ok (set_clocks s (VTime s) (StackEnvironment.tick (VGen s)), 0)
  | dgen =>
      Ok (s, (TimingsDecision.visit (decision self) (VGen s) (VTime s)
                (TTank s)).2)
  | sgeneration | ssimulation =>
      let '(new, tank) := BruteSampler.visit (TNew s) (TTank s) in
      Ok (set_tanks s tank new (SComposite s), 0)
  | olog => Ok (s, 0)
  | tterm => Ok (s, 0)
  end.

(** Modelled from the spec: the driver ([Simulate] is not in the source
    tree) follows, after a visit, the out-edge whose index is the decision's
    result, and the only out-edge of any other node; out-edges are ordered
    as they were added.  It stops at a node without out-edges, at an
    exception, and when the step budget (one oracle per step) is used up.
    The result is the list of the nodes reached, each with the containers
    as they were on arrival. *)
Definition out_edges (n : node) : list node :=
  map snd (filter (λ e, e.1 = n) edges).
Definition follow (n : node) (k : Z) : option node :=
  if k <? 0 then None else out_edges n !! Z.to_nat k.

Fixpoint run_graph (w : world) (self : t) (os : list oracle) (n : node)
    (s : state) : list (node * state) :=
  (n, s) ::
  match os with
  | [] => []
  | o :: os' =>
      match visit w self o n s with
      | inr (s', k) =>
          match follow n k with
          | Some n' => run_graph w self os' n' s'
          | None => []
          end
      | inl _ => []
      end
  end.

(** *** results_to_csv *)

Definition default_path : string := "Outputs/output.csv".

(** The candidate for a given [suffix]. *)
Definition file_path (suffix : nat) : string :=
  if bool_decide (suffix = 0%nat) then default_path
  else
    let '(base_name, extension) := ospath.splitext default_path in
    base_name +:+ "_" +:+ pretty suffix +:+ extension.

(** The [while True] loop, with a bound on its iterations. *)
Fixpoint choose_path (fuel : nat) (fs : filesystem) (suffix : nat)
    : option string :=
  match fuel with
  | O => None
  | S fuel' =>
      if negb (path_exists fs (file_path suffix)) then Some (file_path suffix)
      else choose_path fuel' fs (S suffix)
  end.

(** Modelled from the spec: [DataFrame.to_csv(file, index=False)] is
    pandas', outside the source tree.  It writes a header row with the
    column names, then one row per record, a cell for each column. *)
Definition to_csv (df : DataFrameEnvironment.t) : list (list pyval) :=
  map VStr (DataFrameEnvironment.columns df) ::
  map (λ r, map (λ c, default (VStr EmptyString) (r !! c))
                (DataFrameEnvironment.columns df))
      (DataFrameEnvironment.rows df).

(** [open(file_path, mode='w')] and the write that follows, for a path
    made of a directory and a name in it, as the candidates are: the file is
    written when the directory exists and the path is not itself a
    directory; [open] creates no directory. *)
Definition open_w (fs : filesystem) (path : string)
    (table : list (list pyval)) : result filesystem :=
  if negb (has_nul path) && negb (bool_decide (path ∈ dirs fs))
     && bool_decide (ospath.dirname path ∈ dirs fs)
  then Ok {| files := <[path := table]> (files fs); dirs := dirs fs |}
  else Raise (open_error fs path).

(** [None] when the loop has not ended within [fuel] iterations. *)
Definition results_to_csv_within (fuel : nat) (reactions : DataFrameEnvironment.t)
    (fs : filesystem) : option (result (filesystem * string)) :=
  match choose_path fuel fs 0 with
  | None => None
  | Some path =>
      Some (try! fs' := open_w fs path
                          (to_csv (DataFrameEnvironment.read reactions)) in
            Ok (fs', path))
  end.

(** The names present in the file system. *)
Definition names (fs : filesystem) : gset string :=
  dom (files fs) ∪ dirs fs.

(** One more iteration than there are names in the file system is
    enough (see [choose_path_total]). *)
Definition results_to_csv (reactions : DataFrameEnvironment.t)
    (fs : filesystem) : option (result (filesystem * string)) :=
  results_to_csv_within (S (size (names fs))) reactions fs.

(** *** print_tank *)

(** [part.id]: defined on particles only. *)
Definition getattr_id (x : pyval) : result pyval :=
  match x with
  | VObj p => Ok (of_ident (id p))
  | _ => Raise (AttributeError "id")
  end.

(** [[part.id for part in stuff]] *)
Fixpoint ids_of (stuff : list pyval) : result (list pyval) :=
  match stuff with
  | [] => Ok []
  | part :: rest =>
      try! i := getattr_id part in
      try! others := ids_of rest in
      Ok (i :: others)
  end.

(** [print_tank]: the value handed to [print], for the content [stuff] of
    the main tank. *)
Definition print_tank (stuff : list pyval) : result pyval :=
  try! first := getitem stuff 0 in
  if isinstance_Particle first then
    try! ids := ids_of stuff in
    Ok (VList ids)
  else Ok (VList stuff).

End WellMixedTank.

(** * Vocabulary of the statements *)

(** Membership of a literal in a literal list, and its refutation. *)
Ltac in_list := cbn; repeat first [apply list_elem_of_here | apply list_elem_of_further].
Ltac not_in_list H :=
  repeat (apply elem_of_cons in H as [H|H]; [discriminate H|]);
  apply elem_of_nil in H; contradiction.

(** What the observer stores as the identity of item [x]. *)
Definition records_identity (x : pyval) (v : option pyval) : Prop :=
  (∀ p, x = VObj p → v = Some (of_ident (id p))) ∧
  (isinstance_Particle x = false → v = Some (VStr "n/a")).

(** The sum of the intensities of a list of spikes. *)
Definition intensity_sum (l : list spike_entry) : Z :=
  foldr (λ e acc, intensity (entry_head e) + acc) 0 l.

(** [p] is an [RBNParticle] with bond/spike structure [d]. *)
Definition exposes (p : Particle) (d : RBNData) : Prop := rbn p = Some d.

Definition derived_keys : list string :=
  ["Prods"; "Open_Spikes"; "Bonded_Spikes"; "Intensity"].

(** Two products with bond/spike structure, and two without. *)
Definition spike (n i : Z) : spike_entry :=
  {| entry_head := {| spikeNumber := n; intensity := i |}; entry_rest := [] |}.

Definition rbn_sample : list pyval :=
  [VObj {| id := IdInt 11;
           rbn := Some {| atoms := [1; 2]; open_spikes := [spike 0 3; spike 1 (-1)];
                          bonds := [spike 2 4] |} |};
   VObj {| id := IdInt 12;
           rbn := Some {| atoms := [3]; open_spikes := []; bonds := [spike 0 2] |} |}].

Definition plain_sample : list pyval := [VInt 40; VStr "Q"].

Definition single_in_out_link (bond : WellMixedTank.Subgraph) : Prop :=
  WellMixedTank.count_control_in bond = 1 ∧
  WellMixedTank.count_control_out bond = 1 ∧
  WellMixedTank.count_links bond = 1.

Definition two_inputs : WellMixedTank.Subgraph :=
  {| WellMixedTank.count_control_in := 2;
     WellMixedTank.count_control_out := 1;
     WellMixedTank.count_links := 1 |}.

Definition well_shaped : WellMixedTank.Subgraph :=
  {| WellMixedTank.count_control_in := 1;
     WellMixedTank.count_control_out := 1;
     WellMixedTank.count_links := 1 |}.

(** A world with a directory [Outputs], no files, and a counting random
    stream. *)
Definition bare_world : world :=
  {| fs := {| files := ∅; dirs := {["Outputs"]} |};
     rand := λ i, i;
     watson_factory := {| createParticles := λ _, [] |} |}.

Definition named_modes : list string := ["csv"; "scc"; "int"; "RBN"].

(** Consecutive elements of a list are related by [R]. *)
Inductive chain {A} (R : A → A → Prop) : list A → Prop :=
| chain_nil : chain R []
| chain_one x : chain R [x]
| chain_cons x y l : R x y → chain R (y :: l) → chain R (x :: y :: l).

(** One step of the driver: a visit of the node of [c] that returns
    normally, and the out-edge it selects. *)
Definition step (w : world) (self : WellMixedTank.t)
    (c c' : WellMixedTank.node * WellMixedTank.state) : Prop :=
  ∃ o k, WellMixedTank.visit w self o c.1 c.2 = Ok (c'.2, k) ∧
         WellMixedTank.follow c.1 k = Some c'.1.

Definition edge (n n' : WellMixedTank.node) : Prop :=
  (n, n') ∈ WellMixedTank.edges.

(** The number of visits of the reset node in a stretch of a run. *)
Definition resets (l : list (WellMixedTank.node * WellMixedTank.state)) : nat :=
  length (filter (λ c, c.1 = WellMixedTank.oreset) l).

(** The ledger of [s'] has the columns of the ledger of [s], and its rows
    are those of [s], followed by [extra]. *)
Definition ledger_extends (s s' : WellMixedTank.state)
    (extra : list (gmap string pyval)) : Prop :=
  DataFrameEnvironment.columns (WellMixedTank.VReaction s')
    = DataFrameEnvironment.columns (WellMixedTank.VReaction s) ∧
  DataFrameEnvironment.rows (WellMixedTank.VReaction s')
    = DataFrameEnvironment.rows (WellMixedTank.VReaction s) ++ extra.

Definition small_tank : WellMixedTank.t :=
  {| WellMixedTank.sample_size := 2;
     WellMixedTank.load := LoadSampler.init 5 (LoadSampler.ModeStr "int") None;
     WellMixedTank.decision := TimingsDecision.init 1 1 2 |}.

(** The number of resets still ahead before the next sample. *)
Definition pending_reset (n : WellMixedTank.node) : nat :=
  match n with
  | WellMixedTank.sload | WellMixedTank.otime | WellMixedTank.oreset
  | WellMixedTank.sgeneration | WellMixedTank.olog => 1
  | _ => 0
  end.

Definition is_reset (n : WellMixedTank.node) : nat :=
  if decide (n = WellMixedTank.oreset) then 1%nat else 0%nat.

(** The nodes a run goes through before its first sample. *)
Definition before_sampling (n : WellMixedTank.node) : Prop :=
  n = WellMixedTank.sload ∨ n = WellMixedTank.otime ∨ n = WellMixedTank.oreset.

Abbreviation config := (WellMixedTank.node * WellMixedTank.state)%type.

Definition linked (c c' : config) : Prop := edge c.1 c'.1.

Ltac edge_cases H :=
  unfold edge, WellMixedTank.edges in H;
  repeat (apply elem_of_cons in H as [H|H];
          [injection H as ?; subst|]);
  [..|by apply elem_of_nil in H].

(** The oracle of a reaction that returns the two particles it was handed
    when the pool holds the integers 0 to 4 in order. *)
Definition identity_oracle : WellMixedTank.oracle :=
  {| WellMixedTank.picks := [0%nat; 0%nat];
     WellMixedTank.products := [VInt 0; VInt 1];
     WellMixedTank.failure := None |}.

Definition small_run : list config :=
  WellMixedTank.run_graph bare_world small_tank (replicate 20 identity_oracle)
    WellMixedTank.sload WellMixedTank.initial_state.

(** A tank that runs three generations of two reactions each. *)
Definition three_generations : WellMixedTank.t :=
  {| WellMixedTank.sample_size := 2;
     WellMixedTank.load := LoadSampler.init 5 (LoadSampler.ModeStr "int") None;
     WellMixedTank.decision := TimingsDecision.init 3 2 2 |}.

Definition long_run : list config :=
  WellMixedTank.run_graph bare_world three_generations
    (replicate 80 identity_oracle)
    WellMixedTank.sload WellMixedTank.initial_state.

(** The particles accounted for: those the loader created, plus the
    products the bonding subgraph returned, minus the participants it was
    handed. *)
Definition population (s : WellMixedTank.state) : Z :=
  Z.of_nat (WellMixedTank.loaded s) + Z.of_nat (WellMixedTank.returned s)
  - Z.of_nat (WellMixedTank.handed s).

(** The particles held in the pool, the holding tank and the sample
    buffer. *)
Definition held (s : WellMixedTank.state) : Z :=
  Z.of_nat (length (WellMixedTank.TTank s)) +
  Z.of_nat (length (WellMixedTank.TNew s)) +
  Z.of_nat (length (WellMixedTank.SComposite s)).















(** A string without the path separator. *)
Fixpoint slashless (s : string) : Prop :=
  match s with
  | EmptyString => True
  | String a s' => a ≠ "/"%char ∧ slashless s'
  end.

(** A file system in which a first export already exists. *)
Definition exported_once : filesystem :=
  {| files := {["Outputs/output.csv" := [[VStr "id1"]]]};
     dirs := {["Outputs"]} |}.

(** * Vocabulary of the further properties *)

(** An integer drawn by [random.randint(0, 100)]. *)
Definition is_percent (v : pyval) : Prop :=
  ∃ n, v = VInt n ∧ 0 ≤ n ≤ 100.

(** A one-character string holding an uppercase letter. *)
Definition is_uppercase_letter (v : pyval) : Prop :=
  ∃ a, v = VStr (String a EmptyString) ∧
       (65 ≤ nat_of_ascii a ≤ 90)%nat.

(** A loader in mode "int", one in mode "scc", and one that reads a file
    of two rows. *)
Definition int_loader : LoadSampler.t :=
  LoadSampler.init 3 (LoadSampler.ModeStr "int") None.

Definition scc_loader : LoadSampler.t :=
  LoadSampler.init 3 (LoadSampler.ModeStr "scc") None.

Definition csv_world : world :=
  {| fs := {| files := {["tank.csv" := [[VStr "a"; VStr "b"]; [VStr "c"]]]};
              dirs := ∅ |};
     rand := λ i, i;
     watson_factory := {| createParticles := λ _, [] |} |}.

Definition csv_loader : LoadSampler.t :=
  LoadSampler.init 1000 (LoadSampler.ModeStr "csv") (Some "tank.csv").

Definition plain_particle (i : Z) : pyval :=
  VObj {| id := IdInt i; rbn := None |}.

(** Exports in a row, one per ledger of the list: the file system after
    the last one and the paths written, [None] as soon as one fails. *)
Fixpoint exports (ledgers : list DataFrameEnvironment.t) (fs : filesystem)
    : option (filesystem * list string) :=
  match ledgers with
  | [] => Some (fs, [])
  | reactions :: rest =>
      match WellMixedTank.results_to_csv reactions fs with
      | Some (inr (fs', path)) =>
          match exports rest fs' with
          | Some (fs'', paths) => Some (fs'', path :: paths)
          | None => None
          end
      | _ => None
      end
  end.

(** A ledger with one row. *)
Definition one_row_ledger : DataFrameEnvironment.t :=
  DataFrameEnvironment.add {["id1" := VInt 1]}
    (DataFrameEnvironment.init WellMixedTank.ledger_columns).

(** What one step of the driver does, node by node. *)
Definition step_effect (w : world) (self : WellMixedTank.t)
    (n : WellMixedTank.node) (s : WellMixedTank.state)
    (n' : WellMixedTank.node) (s' : WellMixedTank.state) : Prop :=
  match n with
  | WellMixedTank.sload =>
      n' = WellMixedTank.otime ∧
      ∃ l tank,
        LoadSampler.visit w (WellMixedTank.load self) (WellMixedTank.TTank s)
          = Ok (l, tank) ∧
        s' = WellMixedTank.set_ghost
               (WellMixedTank.set_tanks s tank (WellMixedTank.TNew s)
                  (WellMixedTank.SComposite s))
               (WellMixedTank.loaded s + length (LoadSampler.sample l))
               (WellMixedTank.handed s) (WellMixedTank.returned s)
  | WellMixedTank.otime =>
      n' = WellMixedTank.oreset ∧
      s' = WellMixedTank.set_clocks s
             (StackEnvironment.tick (WellMixedTank.VTime s))
             (WellMixedTank.VGen s)
  | WellMixedTank.oreset =>
      n' = WellMixedTank.ssample ∧
      s' = WellMixedTank.set_clocks s (WellMixedTank.VTime s)
             (StackEnvironment.reset (WellMixedTank.VGen s))
  | WellMixedTank.ssample =>
      n' = WellMixedTank.osample ∧
      ∃ picks got rest,
        (WellMixedTank.sample_size self
           ≤ Z.of_nat (length (WellMixedTank.TTank s))) ∧
        SimpleSampler.draw (Z.to_nat (WellMixedTank.sample_size self)) picks
          (WellMixedTank.TTank s) = (got, rest) ∧
        s' = WellMixedTank.set_tanks s rest (WellMixedTank.TNew s)
               (WellMixedTank.SComposite s ++ got)
  | WellMixedTank.osample =>
      n' = WellMixedTank.bondgraph ∧
      ∃ so,
        SampleObserver.process
          (SampleObserver.read SampleObserver.init (WellMixedTank.SComposite s))
          = Ok so ∧
        s' = WellMixedTank.set_records s
               (SampleObserver.push so (SampleObserver.pull (WellMixedTank.VBond s)))
               (WellMixedTank.VReaction s)
  | WellMixedTank.bondgraph =>
      n' = WellMixedTank.oreturn ∧
      ∃ products,
        s' = WellMixedTank.set_ghost
               (WellMixedTank.set_tanks s (WellMixedTank.TTank s)
                  (WellMixedTank.TNew s) products)
               (WellMixedTank.loaded s)
               (WellMixedTank.handed s + length (WellMixedTank.SComposite s))
               (WellMixedTank.returned s + length products)
  | WellMixedTank.oreturn =>
      n' = WellMixedTank.sreturn ∧
      ∃ ro,
        ReturnObserver.process
          (ReturnObserver.read (WellMixedTank.SComposite s) (WellMixedTank.VBond s))
          (WellMixedTank.VGen s) = Ok ro ∧
        s' = WellMixedTank.set_records s (ReturnObserver.dict ro)
               (DataFrameEnvironment.add (ReturnObserver.dict ro)
                  (WellMixedTank.VReaction s))
  | WellMixedTank.sreturn =>
      n' = WellMixedTank.ogen ∧
      s' = WellMixedTank.set_tanks s (WellMixedTank.TTank s)
             (WellMixedTank.TNew s ++ WellMixedTank.SComposite s) []
  | WellMixedTank.ogen =>
      n' = WellMixedTank.dgen ∧
      s' = WellMixedTank.set_clocks s (WellMixedTank.VTime s)
             (StackEnvironment.tick (WellMixedTank.VGen s))
  | WellMixedTank.dgen =>
      s' = s ∧
      let d := TimingsDecision.read (WellMixedTank.decision self)
                 (WellMixedTank.VGen s) (WellMixedTank.VTime s)
                 (WellMixedTank.TTank s) in
      (TimingsDecision.process d = 0 ∧ n' = WellMixedTank.ssample) ∨
      (TimingsDecision.process d = 1 ∧ n' = WellMixedTank.sgeneration) ∨
      (TimingsDecision.process d = 2 ∧ n' = WellMixedTank.ssimulation)
  | WellMixedTank.sgeneration =>
      n' = WellMixedTank.olog ∧
      s' = WellMixedTank.set_tanks s
             (WellMixedTank.TTank s ++ WellMixedTank.TNew s) []
             (WellMixedTank.SComposite s)
  | WellMixedTank.olog => n' = WellMixedTank.otime ∧ s' = s
  | WellMixedTank.ssimulation =>
      n' = WellMixedTank.tterm ∧
      s' = WellMixedTank.set_tanks s
             (WellMixedTank.TTank s ++ WellMixedTank.TNew s) []
             (WellMixedTank.SComposite s)
  | WellMixedTank.tterm => False
  end.

(** The node the decision's conditions lead to. *)
Definition decided (d : TimingsDecision.t) : WellMixedTank.node :=
  if decide (TimingsDecision.gen d < TimingsDecision.gen_thresh d ∧
             TimingsDecision.sample_size d ≤ TimingsDecision.tank_size d)
  then WellMixedTank.ssample
  else if decide (TimingsDecision.time d < TimingsDecision.time_thresh d)
       then WellMixedTank.sgeneration
       else WellMixedTank.ssimulation.

(** The per-generation counter against the bound [b], by the node the run
    has arrived at: below the bound while a reaction is under way, at least
    1 once the reaction has been counted. *)
Definition reactions_bounded (b : Z) (c : config) : Prop :=
  let g := StackEnvironment.value (WellMixedTank.VGen c.2) in
  match c.1 with
  | WellMixedTank.ssample | WellMixedTank.osample | WellMixedTank.bondgraph
  | WellMixedTank.oreturn | WellMixedTank.sreturn | WellMixedTank.ogen =>
      0 ≤ g < b
  | WellMixedTank.dgen | WellMixedTank.sgeneration | WellMixedTank.olog
  | WellMixedTank.ssimulation | WellMixedTank.tterm => 1 ≤ g ≤ b
  | _ => 0 ≤ g ≤ b
  end.

(** The elapsed-time counter against the number [G] of generations asked
    for, by the node the run has arrived at. *)
Definition generations_gate (G : Z) (c : config) : Prop :=
  let t := StackEnvironment.value (WellMixedTank.VTime c.2) in
  match c.1 with
  | WellMixedTank.sload => t = 0
  | WellMixedTank.otime => 0 ≤ t < Z.max 1 G
  | WellMixedTank.sgeneration | WellMixedTank.olog => 1 ≤ t < G
  | WellMixedTank.ssimulation | WellMixedTank.tterm => t = Z.max 1 G
  | _ => 1 ≤ t ≤ Z.max 1 G
  end.

(** What the sample buffer and the holding tank hold, by the node the run
    has arrived at. *)
Definition buffers_by_node (size : Z) (c : config) : Prop :=
  match c.1 with
  | WellMixedTank.sload | WellMixedTank.otime | WellMixedTank.oreset
  | WellMixedTank.olog | WellMixedTank.tterm =>
      WellMixedTank.SComposite c.2 = [] ∧ WellMixedTank.TNew c.2 = []
  | WellMixedTank.ssample | WellMixedTank.ogen | WellMixedTank.dgen
  | WellMixedTank.sgeneration | WellMixedTank.ssimulation =>
      WellMixedTank.SComposite c.2 = []
  | WellMixedTank.osample =>
      length (WellMixedTank.SComposite c.2) = Z.to_nat size
  | _ => True
  end.

(** The visits of the post-reaction observer in a stretch of a run. *)
Definition reactions_recorded (l : list config) : nat :=
  length (filter (λ c : config, c.1 = WellMixedTank.oreturn) l).

(** The keys the pre-reaction observer stages, and those of a full row. *)
Definition staged_keys : gset string := {["id1"; "id2"; "obj1"; "obj2"]}.
Definition column_keys : gset string :=
  list_to_set WellMixedTank.ledger_columns.

(** The keys of the keyed store and of the rows of the ledger, by the node
    the run has arrived at. *)
Definition keys_by_node (c : config) : Prop :=
  dom (WellMixedTank.VBond c.2) ⊆ column_keys ∧
  Forall (λ row : gmap string pyval, dom row = column_keys)
         (DataFrameEnvironment.rows (WellMixedTank.VReaction c.2)) ∧
  match c.1 with
  | WellMixedTank.bondgraph | WellMixedTank.oreturn =>
      staged_keys ⊆ dom (WellMixedTank.VBond c.2)
  | _ => True
  end.

(** A tank asked for no reaction and no generation. *)
Definition zero_tank : WellMixedTank.t :=
  {| WellMixedTank.sample_size := 2;
     WellMixedTank.load := LoadSampler.init 5 (LoadSampler.ModeStr "int") None;
     WellMixedTank.decision := TimingsDecision.init 0 0 2 |}.

Definition zero_run : list config :=
  WellMixedTank.run_graph bare_world zero_tank (replicate 20 identity_oracle)
    WellMixedTank.sload WellMixedTank.initial_state.

(** ** TimeLoggerObserver *)

Module TimeLoggerObserver.

Record t := { rewrite : bool; clock : Z; reactions : Z }.

(** [__init__]: [rewrite] defaults to [True]. *)
Definition init : t := {| rewrite := true; clock := 0; reactions := 0 |}.

(** [read]: [containersin] is [[VTime, VGen]], so the clock is the
    elapsed-time counter and the reactions are the per-generation counter. *)
Definition read (self : t) (clock_container reactions_container
    : StackEnvironment.t) : t :=
  {| rewrite := rewrite self;
     clock := StackEnvironment.read0 clock_container;
     reactions := StackEnvironment.read0 reactions_container |}.

(** [process]: the line handed to [print]. *)
Definition process (self : t) : string :=
  "Currently in generation: " +:+ pretty (clock self) +:+
  " and completed " +:+ pretty (reactions self) +:+ " reactions.".

(** The line printed by a visit on the containers of [s]. *)
Definition visit (s : WellMixedTank.state) : string :=
  process (read init (WellMixedTank.VTime s) (WellMixedTank.VGen s)).

End TimeLoggerObserver.

(** A string without the space character. *)
Fixpoint spaceless (s : string) : Prop :=
  match s with
  | EmptyString => True
  | String a s' => a ≠ " "%char ∧ spaceless s'
  end.

(** * Properties *)

(** ** The decision node *)

Lemma TimingsDecision_process_cases (self : TimingsDecision.t) :
  TimingsDecision.process self =
    if decide (TimingsDecision.gen self < TimingsDecision.gen_thresh self ∧
               TimingsDecision.sample_size self ≤ TimingsDecision.tank_size self)
    then 0
    else if decide (TimingsDecision.time self < TimingsDecision.time_thresh self)
         then 1 else 2.
Proof.
  unfold TimingsDecision.process.
  destruct (Z.ltb_spec (TimingsDecision.gen self) (TimingsDecision.gen_thresh self)),
    (Z.geb_spec (TimingsDecision.tank_size self) (TimingsDecision.sample_size self)),
    (Z.ltb_spec (TimingsDecision.time self) (TimingsDecision.time_thresh self));
    simpl; repeat case_decide; lia.
Qed.

(** C1. On every visit the decision node reads the per-generation counter,
    the elapsed-time counter and the pool size, and its result is 0 exactly
    when the per-generation counter is below the reactions threshold and the
    pool holds at least a sample; failing that it is 1 exactly when the
    elapsed time is below the generations threshold; failing that it is 2.
    With a reactions threshold of 3 and a large enough pool, a counter of 2
    gives 0, a counter of 3 gives 1 while the elapsed time is below its
    threshold and 2 when it equals it. *)
Theorem TimingsDecision_visit_priority
    (self : TimingsDecision.t) (VGen VTime : StackEnvironment.t)
    (TTank : list pyval) :
  let k := (TimingsDecision.visit self VGen VTime TTank).2 in
  let gen := StackEnvironment.value VGen in
  let time := StackEnvironment.value VTime in
  let pool := Z.of_nat (length TTank) in
  let keep := gen < TimingsDecision.gen_thresh self ∧
              TimingsDecision.sample_size self ≤ pool in
  let advance := time < TimingsDecision.time_thresh self in
  (k = 0 ↔ keep) ∧
  (k = 1 ↔ ¬ keep ∧ advance) ∧
  (k = 2 ↔ ¬ keep ∧ ¬ advance) ∧
  (TimingsDecision.gen_thresh self = 3 →
   TimingsDecision.sample_size self ≤ pool →
   (gen = 2 → k = 0) ∧
   (gen = 3 → time < TimingsDecision.time_thresh self → k = 1) ∧
   (gen = 3 → time = TimingsDecision.time_thresh self → k = 2)).
Proof.
  cbn zeta. unfold TimingsDecision.visit. cbn [snd].
  rewrite TimingsDecision_process_cases.
  unfold TimingsDecision.read, StackEnvironment.read0. cbn.
  repeat case_decide; repeat split; intros; try lia; tauto.
Qed.

Lemma TimingsDecision_visit_priority_witness :
  let self := TimingsDecision.init 10 3 2 in
  let pool := [VInt 1; VInt 2] in
  (TimingsDecision.visit self {| StackEnvironment.value := 2 |}
     {| StackEnvironment.value := 4 |} pool).2 = 0 ∧
  (TimingsDecision.visit self {| StackEnvironment.value := 3 |}
     {| StackEnvironment.value := 4 |} pool).2 = 1 ∧
  (TimingsDecision.visit self {| StackEnvironment.value := 3 |}
     {| StackEnvironment.value := 10 |} pool).2 = 2.
Proof.
  cbn zeta. split; [|split].
  - refine (proj1 (proj2 (proj2 (proj2 (TimingsDecision_visit_priority
      (TimingsDecision.init 10 3 2) {| StackEnvironment.value := 2 |}
      {| StackEnvironment.value := 4 |} [VInt 1; VInt 2]))) _ _) _);
      [reflexivity | simpl; lia | reflexivity].
  - refine (proj1 (proj2 (proj2 (proj2 (proj2 (TimingsDecision_visit_priority
      (TimingsDecision.init 10 3 2) {| StackEnvironment.value := 3 |}
      {| StackEnvironment.value := 4 |} [VInt 1; VInt 2]))) _ _)) _ _);
      [reflexivity | simpl; lia | reflexivity | simpl; lia].
  - refine (proj2 (proj2 (proj2 (proj2 (proj2 (TimingsDecision_visit_priority
      (TimingsDecision.init 10 3 2) {| StackEnvironment.value := 3 |}
      {| StackEnvironment.value := 10 |} [VInt 1; VInt 2]))) _ _)) _ _);
      [reflexivity | simpl; lia | reflexivity | reflexivity].
Defined.

(** ** The pre-reaction observer *)

Lemma id_or_na_records (x : pyval) :
  records_identity x (Some (SampleObserver.id_or_na x)).
Proof.
  split.
  - intros p ->. reflexivity.
  - destruct x; simpl; intros; congruence.
Qed.

(** C4. For a sample of one or two items the pre-reaction observer's
    [process] returns normally; it records for each item the item's id when
    the item is a particle and "n/a" otherwise, next to the raw item; when
    only one item was sampled it records "None" as second id and second
    object. *)
Theorem SampleObserver_process_records
    (self : SampleObserver.t) (x : pyval) (rest : list pyval) :
  SampleObserver.sample self = x :: rest →
  (length rest ≤ 1)%nat →
  ∃ self',
    SampleObserver.process self = Ok self' ∧
    dom (SampleObserver.dict self') = {["id1"; "id2"; "obj1"; "obj2"]} ∧
    records_identity x (SampleObserver.dict self' !! "id1") ∧
    SampleObserver.dict self' !! "obj1" = Some x ∧
    (∀ y, rest = [y] →
       records_identity y (SampleObserver.dict self' !! "id2") ∧
       SampleObserver.dict self' !! "obj2" = Some y) ∧
    (rest = [] →
       SampleObserver.dict self' !! "id2" = Some (VStr "None") ∧
       SampleObserver.dict self' !! "obj2" = Some (VStr "None")).
Proof.
  intros Hs Hlen. unfold SampleObserver.process. rewrite Hs.
  destruct rest as [|y [|z rest]]; cbn in *; [| |lia].
  - eexists; split; [reflexivity|]. cbn.
    repeat split; try (intros; discriminate); apply id_or_na_records.
  - eexists; split; [reflexivity|]. cbn.
    split; [reflexivity|]. split; [apply id_or_na_records|].
    split; [reflexivity|]. split; [|intros; discriminate].
    intros y0 [= <-]. split; [apply id_or_na_records | reflexivity].
Qed.

Lemma SampleObserver_process_records_witness :
  ∃ self',
    SampleObserver.process
      {| SampleObserver.sample := [VInt 7]; SampleObserver.dict := ∅ |}
      = Ok self' ∧
    SampleObserver.dict self' !! "id2" = Some (VStr "None") ∧
    SampleObserver.dict self' !! "obj2" = Some (VStr "None").
Proof.
  destruct (SampleObserver_process_records
    {| SampleObserver.sample := [VInt 7]; SampleObserver.dict := ∅ |}
    (VInt 7) [] eq_refl (le_0_n 1)) as (self' & Hp & _ & _ & _ & _ & Hnone).
  exists self'. split; [exact Hp | exact (Hnone eq_refl)].
Defined.

(** ** The post-reaction observer *)

Lemma foldl_add_shift (l : list Z) (a : Z) :
  foldl Z.add a l = a + foldl Z.add 0 l.
Proof.
  revert a. induction l as [|x l IH]; intros a; simpl; [lia|].
  rewrite (IH (a + x)), (IH (0 + x)). lia.
Qed.

Lemma py_sum_app (l1 l2 : list Z) :
  ReturnObserver.py_sum (l1 ++ l2) =
  ReturnObserver.py_sum l1 + ReturnObserver.py_sum l2.
Proof.
  unfold ReturnObserver.py_sum. rewrite foldl_app.
  apply foldl_add_shift.
Qed.

Lemma py_sum_spike_pairs (l : list spike_entry) :
  ReturnObserver.py_sum (map snd (ReturnObserver.spike_pairs l)) =
  intensity_sum l.
Proof.
  induction l as [|e l IH]; [reflexivity|].
  change (ReturnObserver.spike_pairs (e :: l))
    with ((spikeNumber (entry_head e), intensity (entry_head e))
            :: ReturnObserver.spike_pairs l).
  cbn [map snd intensity_sum foldr]. fold (intensity_sum l). rewrite <- IH.
  unfold ReturnObserver.py_sum. cbn [foldl].
  rewrite foldl_add_shift. lia.
Qed.

Lemma total_intensity_sum (d : RBNData) :
  ReturnObserver.total_intensity d =
  intensity_sum (open_spikes d) + intensity_sum (bonds d).
Proof.
  unfold ReturnObserver.total_intensity.
  rewrite map_app, py_sum_app, !py_sum_spike_pairs. reflexivity.
Qed.

Lemma all_RBN_inv (sample : list pyval) :
  forallb isinstance_RBNParticle sample = true →
  ∃ ps ds, sample = map VObj ps ∧ Forall2 exposes ps ds.
Proof.
  induction sample as [|x sample IH]; cbn [forallb].
  - intros _. exists [], []. split; [reflexivity | constructor].
  - intros [Hx Hrest]%andb_true_iff.
    destruct (IH Hrest) as (ps & ds & -> & Hall).
    destruct x as [| |p| |]; try discriminate Hx.
    cbn in Hx. apply bool_decide_eq_true in Hx as [d Hd].
    exists (p :: ps), (d :: ds). split; [reflexivity|].
    constructor; assumption.
Qed.

Lemma loop_all_RBN (ps : list Particle) (ds : list RBNData)
    (acc : ReturnObserver.infos) :
  Forall2 exposes ps ds →
  ReturnObserver.loop (map VObj ps) acc = Ok
    {| ReturnObserver.extended_prods :=
         ReturnObserver.extended_prods acc ++
         map VStr (zip_with ReturnObserver.part_info ps ds);
       ReturnObserver.open_spikes_info :=
         ReturnObserver.open_spikes_info acc ++
         map (λ d, ReturnObserver.pairs_val
                     (ReturnObserver.spike_pairs (open_spikes d))) ds;
       ReturnObserver.bonded_spikes_info :=
         ReturnObserver.bonded_spikes_info acc ++
         map (λ d, ReturnObserver.pairs_val
                     (ReturnObserver.spike_pairs (bonds d))) ds;
       ReturnObserver.intensities :=
         ReturnObserver.intensities acc ++
         map (λ d, VInt (intensity_sum (open_spikes d) + intensity_sum (bonds d)))
             ds |}.
Proof.
  intros Hall. revert acc.
  induction Hall as [|p d ps ds Hpd Hall IH]; intros acc.
  - cbn. rewrite !app_nil_r. destruct acc; reflexivity.
  - cbn [map ReturnObserver.loop ReturnObserver.as_RBNParticle].
    unfold exposes in Hpd. rewrite Hpd. cbn [bind Ok].
    rewrite IH. cbn [ReturnObserver.extended_prods
      ReturnObserver.open_spikes_info ReturnObserver.bonded_spikes_info
      ReturnObserver.intensities zip_with map].
    fold (ReturnObserver.total_intensity d).
    rewrite total_intensity_sum, <- !app_assoc. reflexivity.
Qed.

Lemma part_info_bears_identity (p : Particle) (d : RBNData) :
  ∃ tail, ReturnObserver.part_info p d =
          "RBNParticle(ID=" +:+ str_ident (id p) +:+ tail.
Proof. eexists. reflexivity. Qed.

(** C2. On every visit the post-reaction observer's [process] returns
    normally and sets Generation to the value of the generation counter.  If
    every product of the sample is an RBNParticle, then Prods holds for each
    product a description string that carries its id, Open_Spikes and
    Bonded_Spikes hold its lists of (spike number, intensity) pairs of the
    open and of the bonded spikes, and Intensity holds the sum of the
    intensities over both lists.  Otherwise each of the four fields is a list
    with one "N/A" per sampled slot.  The other keys of the record are left
    as they were. *)
Theorem ReturnObserver_process_fields
    (self : ReturnObserver.t) (VGen : StackEnvironment.t) :
  ∃ self',
    ReturnObserver.process self VGen = Ok self' ∧
    ReturnObserver.dict self' !! "Generation"
      = Some (VInt (StackEnvironment.value VGen)) ∧
    (∀ k, k ∉ "Generation" :: derived_keys →
       ReturnObserver.dict self' !! k = ReturnObserver.dict self !! k) ∧
    (forallb isinstance_RBNParticle (ReturnObserver.sample self) = true →
     ∃ ps ds,
       ReturnObserver.sample self = map VObj ps ∧ Forall2 exposes ps ds ∧
       ReturnObserver.dict self' !! "Prods"
         = Some (VList (map VStr (zip_with ReturnObserver.part_info ps ds))) ∧
       (∀ p d, ∃ tail, ReturnObserver.part_info p d
                       = "RBNParticle(ID=" +:+ str_ident (id p) +:+ tail) ∧
       ReturnObserver.dict self' !! "Open_Spikes"
         = Some (VList (map (λ d, ReturnObserver.pairs_val
               (map (λ e, (spikeNumber (entry_head e), intensity (entry_head e)))
                    (open_spikes d))) ds)) ∧
       ReturnObserver.dict self' !! "Bonded_Spikes"
         = Some (VList (map (λ d, ReturnObserver.pairs_val
               (map (λ e, (spikeNumber (entry_head e), intensity (entry_head e)))
                    (bonds d))) ds)) ∧
       ReturnObserver.dict self' !! "Intensity"
         = Some (VList (map (λ d, VInt (intensity_sum (open_spikes d)
                                         + intensity_sum (bonds d))) ds))) ∧
    (forallb isinstance_RBNParticle (ReturnObserver.sample self) = false →
     ∀ k, k ∈ derived_keys →
       ReturnObserver.dict self' !! k
         = Some (VList (replicate (length (ReturnObserver.sample self))
                                  (VStr "N/A")))).
Proof.
  unfold ReturnObserver.process, StackEnvironment.read0.
  destruct (forallb isinstance_RBNParticle (ReturnObserver.sample self))
    eqn:Hall.
  - destruct (all_RBN_inv _ Hall) as (ps & ds & Hs & Hexp).
    unfold ReturnObserver.process_rbn. rewrite Hs.
    rewrite (loop_all_RBN ps ds _ Hexp). cbn [bind Ok].
    eexists. split; [reflexivity|].
    cbn [ReturnObserver.dict ReturnObserver.extended_prods
         ReturnObserver.open_spikes_info ReturnObserver.bonded_spikes_info
         ReturnObserver.intensities app].
    split; [apply lookup_insert_eq|].
    split.
    { intros k Hk. unfold derived_keys in Hk.
      rewrite !lookup_insert_ne; [reflexivity|..]; set_solver. }
    split; [|discriminate].
    intros _. exists ps, ds.
    split; [reflexivity|]. split; [assumption|].
    split; [by simplify_map_eq|].
    split; [intros; apply part_info_bears_identity|].
    split; [by simplify_map_eq|].
    split; by simplify_map_eq.
  - unfold ReturnObserver.process_na.
    eexists. split; [reflexivity|]. cbn [ReturnObserver.dict].
    split; [apply lookup_insert_eq|].
    split.
    { intros k Hk. unfold derived_keys in Hk.
      rewrite !lookup_insert_ne; [reflexivity|..]; set_solver. }
    split; [discriminate|].
    intros _ k Hk. unfold derived_keys in Hk. unfold ReturnObserver.na_list.
    repeat (apply elem_of_cons in Hk as [->|Hk]); [by simplify_map_eq..|].
    by apply elem_of_nil in Hk.
Qed.

Example ReturnObserver_rbn_sample_fields :
  ∃ self',
    ReturnObserver.process (ReturnObserver.read rbn_sample ∅)
      {| StackEnvironment.value := 5 |} = Ok self' ∧
    ReturnObserver.dict self' !! "Prods" = Some (VList
      [VStr "RBNParticle(ID=11, Atoms=2, Open=2, Bonded=1)";
       VStr "RBNParticle(ID=12, Atoms=1, Open=0, Bonded=1)"]) ∧
    ReturnObserver.dict self' !! "Open_Spikes" = Some (VList
      [VList [VTuple [VInt 0; VInt 3]; VTuple [VInt 1; VInt (-1)]]; VList []]) ∧
    ReturnObserver.dict self' !! "Bonded_Spikes" = Some (VList
      [VList [VTuple [VInt 2; VInt 4]]; VList [VTuple [VInt 0; VInt 2]]]) ∧
    ReturnObserver.dict self' !! "Intensity" = Some (VList [VInt 6; VInt 2]) ∧
    ReturnObserver.dict self' !! "Generation" = Some (VInt 5).
Proof. eexists. repeat split; vm_compute; reflexivity. Qed.

Example ReturnObserver_plain_sample_fields :
  ∃ self',
    ReturnObserver.process (ReturnObserver.read plain_sample ∅)
      {| StackEnvironment.value := 5 |} = Ok self' ∧
    ReturnObserver.dict self' !! "Prods"
      = Some (VList [VStr "N/A"; VStr "N/A"]) ∧
    ReturnObserver.dict self' !! "Open_Spikes"
      = Some (VList [VStr "N/A"; VStr "N/A"]) ∧
    ReturnObserver.dict self' !! "Bonded_Spikes"
      = Some (VList [VStr "N/A"; VStr "N/A"]) ∧
    ReturnObserver.dict self' !! "Intensity"
      = Some (VList [VStr "N/A"; VStr "N/A"]) ∧
    ReturnObserver.dict self' !! "Generation" = Some (VInt 5).
Proof. eexists. repeat split; vm_compute; reflexivity. Qed.

Lemma ReturnObserver_process_fields_witness :
  (∃ self',
     ReturnObserver.process (ReturnObserver.read rbn_sample ∅)
       {| StackEnvironment.value := 5 |} = Ok self' ∧
     ∃ ps ds,
       rbn_sample = map VObj ps ∧ Forall2 exposes ps ds ∧
       ReturnObserver.dict self' !! "Intensity"
         = Some (VList (map (λ d, VInt (intensity_sum (open_spikes d)
                                         + intensity_sum (bonds d))) ds))) ∧
  (∃ self',
     ReturnObserver.process (ReturnObserver.read plain_sample ∅)
       {| StackEnvironment.value := 5 |} = Ok self' ∧
     ReturnObserver.dict self' !! "Intensity"
       = Some (VList [VStr "N/A"; VStr "N/A"])).
Proof.
  split.
  - destruct (ReturnObserver_process_fields
      (ReturnObserver.read rbn_sample ∅) {| StackEnvironment.value := 5 |})
      as (self' & Hp & _ & _ & Hrbn & _).
    exists self'. split; [exact Hp|].
    destruct (Hrbn eq_refl) as (ps & ds & Hs & Hexp & _ & _ & _ & _ & Hint).
    exists ps, ds. auto.
  - destruct (ReturnObserver_process_fields
      (ReturnObserver.read plain_sample ∅) {| StackEnvironment.value := 5 |})
      as (self' & Hp & _ & _ & _ & Hna).
    exists self'. split; [exact Hp|].
    apply (Hna eq_refl "Intensity"). unfold derived_keys. set_solver.
Defined.

(** C10. With an empty sample the post-reaction observer takes the
    RBNParticle branch, and the row it appends to the ledger has empty lists,
    no "N/A", under Prods, Open_Spikes, Bonded_Spikes and Intensity, and the
    value of the generation counter under Generation. *)
Theorem ReturnObserver_empty_sample
    (VBond : gmap string pyval) (VGen : StackEnvironment.t)
    (VReaction : DataFrameEnvironment.t) :
  let self := ReturnObserver.read [] VBond in
  ReturnObserver.process self VGen
    = ReturnObserver.process_rbn self (StackEnvironment.read0 VGen) ∧
  ∃ self' row,
    ReturnObserver.visit [] VBond VGen VReaction
      = Ok (self', row,
            {| DataFrameEnvironment.columns := DataFrameEnvironment.columns VReaction;
               DataFrameEnvironment.rows :=
                 DataFrameEnvironment.rows VReaction ++ [row] |}) ∧
    Forall (λ k, row !! k = Some (VList [])) derived_keys ∧
    row !! "Generation" = Some (VInt (StackEnvironment.value VGen)).
Proof.
  cbn zeta. split; [reflexivity|].
  eexists _, _. split; [reflexivity|]. cbn.
  split; [|by simplify_map_eq].
  unfold derived_keys. repeat constructor; by simplify_map_eq.
Qed.

(** ** Assembly: the shape check *)

Lemma init_shape_cases (bond : WellMixedTank.Subgraph)
    (sample_size reactions generations tank_size : Z)
    (load_type : LoadSampler.mode) (load_file : option string) :
  (single_in_out_link bond ∧
   ∃ self, WellMixedTank.init bond sample_size reactions generations
             tank_size load_type load_file
           = Ok (self, WellMixedTank.initial_state)) ∨
  (¬ single_in_out_link bond ∧
   WellMixedTank.init bond sample_size reactions generations tank_size
     load_type load_file = Raise WellMixedTank.shape_error).
Proof.
  unfold WellMixedTank.init, single_in_out_link.
  destruct (Z.eqb_spec (WellMixedTank.count_control_in bond) 1),
    (Z.eqb_spec (WellMixedTank.count_control_out bond) 1),
    (Z.eqb_spec (WellMixedTank.count_links bond) 1); cbn;
    first [ left; split; [tauto | eexists; reflexivity]
          | right; split; [tauto | reflexivity] ].
Qed.

Lemma bind_raise {A B} (m : result A) (k : A → result B) (e : exn) :
  bind m k = Raise e →
  m = Raise e ∨ ∃ a, m = Ok a ∧ k a = Raise e.
Proof.
  destruct m as [e'|a]; cbn; intros H.
  - left. injection H as ->. reflexivity.
  - right. exists a. split; [reflexivity | exact H].
Qed.

Lemma getitem_raise {A} (l : list A) (i : nat) (e : exn) :
  getitem l i = Raise e → class_name e = "IndexError".
Proof.
  unfold getitem. destruct (l !! i); intros [= <-]. reflexivity.
Qed.

Lemma open_error_class (fs : filesystem) (p : string) :
  class_name (open_error fs p)
  ∈ ["ValueError"; "IsADirectoryError"; "NotADirectoryError";
     "FileNotFoundError"].
Proof.
  unfold open_error.
  destruct (has_nul p); [in_list|].
  destruct (bool_decide _); [in_list|].
  destruct (under_file fs p); in_list.
Qed.

(** The exceptions a visit of the loader can raise: those of [open] and
    the IndexError of the first row. *)
Lemma LoadSampler_visit_raise (w : world) (self : LoadSampler.t)
    (TTank : list pyval) (e : exn) :
  LoadSampler.visit w self TTank = Raise e →
  class_name e ∈ ["TypeError"; "ValueError"; "IsADirectoryError";
                  "NotADirectoryError"; "FileNotFoundError"; "IndexError"].
Proof.
  unfold LoadSampler.visit, LoadSampler.read.
  intros [H|(a & _ & H)]%bind_raise; [|discriminate H].
  destruct (LoadSampler.is_mode _ _); [|discriminate H].
  apply bind_raise in H as [H|(table & _ & H)].
  - unfold LoadSampler.open_r in H.
    destruct (LoadSampler.load_file self) as [p|].
    + destruct (files (fs w) !! p); [discriminate H|].
      injection H as <-. pose proof (open_error_class (fs w) p) as H.
      repeat (apply elem_of_cons in H as [->|H]; [in_list|]).
      by apply elem_of_nil in H.
    + injection H as <-. in_list.
  - apply bind_raise in H as [H|(row & _ & H)]; [|discriminate H].
    rewrite (getitem_raise _ _ _ H). in_list.
Qed.

Lemma ReturnObserver_process_total (self : ReturnObserver.t)
    (VGen : StackEnvironment.t) :
  ∃ self', ReturnObserver.process self VGen = Ok self'.
Proof.
  unfold ReturnObserver.process.
  destruct (forallb isinstance_RBNParticle (ReturnObserver.sample self))
    eqn:Hall; [|eexists; reflexivity].
  destruct (all_RBN_inv _ Hall) as (ps & ds & Hs & Hexp).
  unfold ReturnObserver.process_rbn.
  rewrite Hs, (loop_all_RBN ps ds _ Hexp). eexists. reflexivity.
Qed.

Lemma ReturnObserver_visit_ok (SComposite : list pyval)
    (VBond : gmap string pyval) (VGen : StackEnvironment.t)
    (VReaction : DataFrameEnvironment.t) :
  ∃ self', ReturnObserver.visit SComposite VBond VGen VReaction
    = Ok (self', ReturnObserver.dict self',
          DataFrameEnvironment.add (ReturnObserver.dict self') VReaction).
Proof.
  unfold ReturnObserver.visit.
  destruct (ReturnObserver_process_total
              (ReturnObserver.read SComposite VBond) VGen) as (self' & ->).
  exists self'. reflexivity.
Qed.

(** C5, as stated, fails: a subgraph with two control-in vertices makes
    the assembler raise, but no exception of a class GraphShapeError. *)
Lemma init_shape_error_class_counterexample :
  ¬ ∃ e, WellMixedTank.init two_inputs 2 100 10000 1000
           LoadSampler.ModeNone None = Raise e ∧
         class_name e = "GraphShapeError".
Proof.
  intros (e & He & Hclass). vm_compute in He.
  injection He as <-. discriminate Hclass.
Qed.

(** C5, amended.  If the bonding subgraph does not have exactly one
    control-in vertex, one control-out vertex and one link container, the
    constructor raises ValueError, whatever its other arguments are.  It
    does so at assembly, before it makes any container or node of the tank:
    it returns no tank, so that no node is executed, and the failure never
    shows at run time, since a tank that can be run has passed the check.
    When the three counts are one the constructor raises nothing and returns
    the tank with its initial containers. *)
Theorem init_shape_check (bond : WellMixedTank.Subgraph)
    (sample_size reactions generations tank_size : Z)
    (load_type : LoadSampler.mode) (load_file : option string) :
  (¬ single_in_out_link bond →
   WellMixedTank.init bond sample_size reactions generations tank_size
     load_type load_file = Raise WellMixedTank.shape_error) ∧
  (single_in_out_link bond →
   ∃ self, WellMixedTank.init bond sample_size reactions generations
             tank_size load_type load_file
           = Ok (self, WellMixedTank.initial_state)) ∧
  class_name WellMixedTank.shape_error = "ValueError" ∧
  (∀ self s0,
     WellMixedTank.init bond sample_size reactions generations tank_size
       load_type load_file = Ok (self, s0) →
     single_in_out_link bond ∧ s0 = WellMixedTank.initial_state).
Proof.
  destruct (init_shape_cases bond sample_size reactions generations tank_size
              load_type load_file) as [[Hok [self Hinit]]|[Hbad Hinit]].
  - split; [tauto|]. split; [eauto|]. split; [reflexivity|].
    intros self' s0 H. rewrite Hinit in H. injection H as _ <-. by split.
  - split; [auto|]. split; [tauto|]. split; [reflexivity|].
    intros self' s0 H. rewrite Hinit in H. discriminate H.
Qed.

Lemma init_shape_check_witness :
  WellMixedTank.init two_inputs 2 100 10000 1000 LoadSampler.ModeNone None
    = Raise WellMixedTank.shape_error ∧
  ∃ self, WellMixedTank.init well_shaped 2 100 10000 1000
            LoadSampler.ModeNone None
          = Ok (self, WellMixedTank.initial_state).
Proof.
  split.
  - apply (init_shape_check two_inputs 2 100 10000 1000
             LoadSampler.ModeNone None).
    unfold single_in_out_link. cbn. lia.
  - apply (init_shape_check well_shaped 2 100 10000 1000
             LoadSampler.ModeNone None).
    unfold single_in_out_link. cbn. lia.
Defined.

(** ** The loader *)

Lemma is_mode_other (s m : string) :
  s ≠ m → LoadSampler.is_mode (LoadSampler.ModeStr s) m = false.
Proof. intros H. cbn. by apply bool_decide_eq_false. Qed.

(** C6, as stated, fails: with the mode string "xyz" the loader's [read]
    and [pull] return normally without touching the node and the visit leaves
    the pool as it was; and in mode "csv" without a file the exception is
    the TypeError of [open]. *)
Lemma LoadSampler_unknown_mode_counterexample :
  let unknown := LoadSampler.init 3 (LoadSampler.ModeStr "xyz") None in
  let no_file := LoadSampler.init 3 (LoadSampler.ModeStr "csv") None in
  LoadSampler.read bare_world unknown = Ok unknown ∧
  LoadSampler.pull bare_world unknown = unknown ∧
  LoadSampler.visit bare_world unknown [VInt 1] = Ok (unknown, [VInt 1]) ∧
  ¬ ∃ e, LoadSampler.visit bare_world no_file [VInt 1] = Raise e ∧
         class_name e = "ConfigurationError".
Proof.
  cbn zeta. repeat (split; [reflexivity|]).
  intros (e & He & Hclass). vm_compute in He.
  injection He as <-. discriminate Hclass.
Qed.

(** C6, amended.  A loader whose mode is a string other than "csv", "scc",
    "int" and "RBN" raises nothing: [read] and [pull] leave the node as it
    is and the visit adds the sample the node already held to the pool.  In
    mode "csv" a missing source makes [read] fail with the error of [open],
    which the loader neither catches nor replaces: TypeError when no path
    was given; for a path of at most NAME_MAX bytes that leads to no file,
    ValueError when the path holds a NUL, IsADirectoryError when it leads to
    a directory, NotADirectoryError when it goes through a regular file, and
    FileNotFoundError when it leads nowhere.  No visit of the loader raises
    a ConfigurationError. *)
Theorem LoadSampler_mode_errors (w : world) (self : LoadSampler.t) :
  (∀ s, LoadSampler.load_type self = LoadSampler.ModeStr s →
        s ∉ named_modes →
        LoadSampler.read w self = Ok self ∧
        LoadSampler.pull w self = self ∧
        ∀ TTank, LoadSampler.visit w self TTank
                 = Ok (self, TTank ++ LoadSampler.sample self)) ∧
  (LoadSampler.load_type self = LoadSampler.ModeStr "csv" →
   (LoadSampler.load_file self = None →
    ∃ e, LoadSampler.read w self = Raise e ∧ class_name e = "TypeError") ∧
   (∀ p, LoadSampler.load_file self = Some p →
         (String.length p ≤ NAME_MAX)%nat →
         files (fs w) !! p = None →
      (has_nul p = true →
       ∃ e, LoadSampler.read w self = Raise e ∧
            class_name e = "ValueError") ∧
      (has_nul p = false → p ∈ dirs (fs w) →
       LoadSampler.read w self = Raise (IsADirectoryError p)) ∧
      (has_nul p = false → p ∉ dirs (fs w) → under_file (fs w) p = true →
       LoadSampler.read w self = Raise (NotADirectoryError p)) ∧
      (has_nul p = false → p ∉ dirs (fs w) → under_file (fs w) p = false →
       LoadSampler.read w self = Raise (FileNotFoundError p)))) ∧
  (∀ TTank e, LoadSampler.visit w self TTank = Raise e →
              class_name e ≠ "ConfigurationError").
Proof.
  split; [|split].
  - intros s Hmode Hs. unfold named_modes in Hs.
    assert (s ≠ "csv" ∧ s ≠ "scc" ∧ s ≠ "int" ∧ s ≠ "RBN")
      as (Hcsv & Hscc & Hint & Hrbn).
    { repeat split; intros ->; apply Hs; in_list. }
    assert (LoadSampler.read w self = Ok self) as Hread.
    { unfold LoadSampler.read. rewrite Hmode, is_mode_other; done. }
    assert (LoadSampler.pull w self = self) as Hpull.
    { unfold LoadSampler.pull. rewrite Hmode, !is_mode_other; done. }
    split; [exact Hread|]. split; [exact Hpull|].
    intros TTank. unfold LoadSampler.visit. rewrite Hread. cbn [bind Ok].
    rewrite Hpull. reflexivity.
  - intros Hmode. unfold LoadSampler.read. rewrite Hmode. cbn [LoadSampler.is_mode].
    rewrite bool_decide_eq_true_2 by reflexivity. split.
    + intros ->. eexists. split; reflexivity.
    + intros p -> _ Hp. cbn. rewrite Hp. cbn. unfold open_error.
      repeat split.
      * intros ->. eexists. split; reflexivity.
      * intros -> Hd. by rewrite bool_decide_eq_true_2.
      * intros -> Hd ->. by rewrite bool_decide_eq_false_2.
      * intros -> Hd ->. by rewrite bool_decide_eq_false_2.
  - intros TTank e H%LoadSampler_visit_raise Hc. rewrite Hc in H.
    not_in_list H.
Qed.

Lemma LoadSampler_mode_errors_witness :
  LoadSampler.visit bare_world
    (LoadSampler.init 3 (LoadSampler.ModeStr "xyz") None) [VInt 1]
    = Ok (LoadSampler.init 3 (LoadSampler.ModeStr "xyz") None, [VInt 1]) ∧
  (∃ e, LoadSampler.read bare_world
          (LoadSampler.init 3 (LoadSampler.ModeStr "csv") None) = Raise e ∧
        class_name e = "TypeError") ∧
  LoadSampler.read bare_world
    (LoadSampler.init 3 (LoadSampler.ModeStr "csv") (Some "tank.csv"))
    = Raise (FileNotFoundError "tank.csv") ∧
  LoadSampler.read bare_world
    (LoadSampler.init 3 (LoadSampler.ModeStr "csv") (Some "Outputs"))
    = Raise (IsADirectoryError "Outputs") ∧
  LoadSampler.read csv_world
    (LoadSampler.init 3 (LoadSampler.ModeStr "csv") (Some "tank.csv/row"))
    = Raise (NotADirectoryError "tank.csv/row").
Proof.
  split; [|split; [|split; [|split]]].
  - apply (proj1 (LoadSampler_mode_errors bare_world
      (LoadSampler.init 3 (LoadSampler.ModeStr "xyz") None)) "xyz" eq_refl).
    unfold named_modes. intros H. not_in_list H.
  - apply (proj1 (proj2 (LoadSampler_mode_errors bare_world
      (LoadSampler.init 3 (LoadSampler.ModeStr "csv") None))) eq_refl).
    reflexivity.
  - apply (proj2 (proj1 (proj2 (LoadSampler_mode_errors bare_world
      (LoadSampler.init 3 (LoadSampler.ModeStr "csv") (Some "tank.csv"))))
      eq_refl) "tank.csv" eq_refl);
      [vm_compute; lia | reflexivity | reflexivity
      | vm_compute; set_solver | reflexivity].
  - apply (proj2 (proj1 (proj2 (LoadSampler_mode_errors bare_world
      (LoadSampler.init 3 (LoadSampler.ModeStr "csv") (Some "Outputs"))))
      eq_refl) "Outputs" eq_refl);
      [vm_compute; lia | reflexivity | reflexivity | cbn; set_solver].
  - apply (proj2 (proj1 (proj2 (LoadSampler_mode_errors csv_world
      (LoadSampler.init 3 (LoadSampler.ModeStr "csv") (Some "tank.csv/row"))))
      eq_refl) "tank.csv/row" eq_refl);
      [vm_compute; lia | reflexivity | reflexivity | cbn; set_solver
      | vm_compute; reflexivity].
Defined.

(** ** Runs of the assembled graph *)

Section Chain.
Context {A : Type} (R : A → A → Prop).

Lemma chain_tail x l : chain R (x :: l) → chain R l.
Proof. inversion 1; subst; [constructor | assumption]. Qed.

Lemma chain_app_r l1 l2 : chain R (l1 ++ l2) → chain R l2.
Proof.
  induction l1 as [|x l1 IH]; [done|].
  intros H. apply IH. by apply chain_tail in H.
Qed.

Lemma chain_app_l l1 l2 : chain R (l1 ++ l2) → chain R l1.
Proof.
  induction l1 as [|x l1 IH]; [constructor|].
  destruct l1 as [|y l1]; [constructor|].
  cbn. inversion 1; subst. constructor; [assumption|]. by apply IH.
Qed.

Lemma chain_Forall (P : A → Prop) x l :
  (∀ a b, P a → R a b → P b) →
  chain R (x :: l) → P x → Forall P (x :: l).
Proof.
  intros Hstep. revert x. induction l as [|y l IH]; intros x Hc Hx.
  - by constructor.
  - inversion Hc; subst. constructor; [assumption|].
    apply IH; [assumption|]. by eapply Hstep.
Qed.

(** Along a chain a preorder that contains [R] relates earlier to later
    elements. *)
Lemma chain_lookup_le (Q : A → A → Prop) l i j a b :
  (∀ x, Q x x) → (∀ x y z, Q x y → Q y z → Q x z) →
  (∀ x y, R x y → Q x y) →
  chain R l → (i ≤ j)%nat → l !! i = Some a → l !! j = Some b → Q a b.
Proof.
  intros Hrefl Htrans Hsub. revert i j a.
  induction l as [|x l IH]; intros i j a Hc Hij Ha Hb; [done|].
  destruct i as [|i].
  - cbn in Ha. injection Ha as ->.
    clear Hij. revert a l IH Hc Hb.
    induction j as [|j IHj]; intros a l IH Hc Hb.
    + cbn in Hb. injection Hb as ->. apply Hrefl.
    + cbn in Hb. destruct l as [|y l]; [done|].
      inversion Hc; subst. eapply Htrans; [by apply Hsub|].
      apply (IH 0%nat j y); [assumption | lia | reflexivity | assumption].
  - destruct j as [|j]; [lia|]. cbn in Ha, Hb.
    apply (IH i j a); [by eapply chain_tail | lia | assumption..].
Qed.
End Chain.

Lemma chain_impl {A} (R Q : A → A → Prop) (l : list A) :
  (∀ x y, R x y → Q x y) → chain R l → chain Q l.
Proof. intros H. induction 1; constructor; auto. Qed.

Lemma chain_map {A B} (f : A → B) (R : A → A → Prop) (Q : B → B → Prop)
    (l : list A) :
  (∀ x y, R x y → Q (f x) (f y)) → chain R l → chain Q (map f l).
Proof. intros H. induction 1; cbn; constructor; auto. Qed.

Lemma run_graph_head w self os n s :
  ∃ l, WellMixedTank.run_graph w self os n s = (n, s) :: l.
Proof. destruct os; cbn; eauto. Qed.

Lemma run_graph_chain w self os n s :
  chain (step w self) (WellMixedTank.run_graph w self os n s).
Proof.
  revert n s. induction os as [|o os IH]; intros n s; cbn; [constructor|].
  destruct (WellMixedTank.visit w self o n s) as [e|[s' k]] eqn:Hv;
    [constructor|].
  destruct (WellMixedTank.follow n k) as [n'|] eqn:Hf; [|constructor].
  destruct (run_graph_head w self os n' s') as [l Hl].
  specialize (IH n' s'). rewrite Hl in *.
  constructor; [|assumption].
  exists o, k. split; assumption.
Qed.

Lemma follow_edge n k n' : WellMixedTank.follow n k = Some n' → edge n n'.
Proof.
  unfold WellMixedTank.follow, WellMixedTank.out_edges, edge.
  destruct (k <? 0); [discriminate|].
  intros H%list_elem_of_lookup_2.
  apply list_elem_of_fmap in H as ([a b] & -> & H).
  apply list_elem_of_filter in H as [Ha H]. cbn in Ha. by subst.
Qed.

Lemma step_edge w self c c' : step w self c c' → edge c.1 c'.1.
Proof. intros (o & k & _ & H). by eapply follow_edge. Qed.

(** ** The reaction ledger *)

Lemma ledger_extends_refl s : ledger_extends s s [].
Proof. split; [reflexivity | by rewrite app_nil_r]. Qed.

Lemma visit_ledger w self o n s s' k :
  WellMixedTank.visit w self o n s = Ok (s', k) →
  ledger_extends s s' [] ∨ ∃ row, ledger_extends s s' [row].
Proof.
  destruct n; cbn [WellMixedTank.visit].
  - destruct (LoadSampler.visit _ _ _) as [e|[l tank]]; [discriminate|].
    intros [= <- <-]. left. split; cbn; [reflexivity | by rewrite app_nil_r].
  - intros [= <- <-]. left. split; cbn; [reflexivity | by rewrite app_nil_r].
  - intros [= <- <-]. left. split; cbn; [reflexivity | by rewrite app_nil_r].
  - destruct (SimpleSampler.visit _ _ _ _) as [e|[tank composite]];
      [discriminate|].
    intros [= <- <-]. left. split; cbn; [reflexivity | by rewrite app_nil_r].
  - destruct (SampleObserver.visit _ _ _) as [e|[so bond]]; [discriminate|].
    intros [= <- <-]. left. split; cbn; [reflexivity | by rewrite app_nil_r].
  - destruct (WellMixedTank.failure o); [discriminate|].
    intros [= <- <-]. left. split; cbn; [reflexivity | by rewrite app_nil_r].
  - destruct (ReturnObserver_visit_ok (WellMixedTank.SComposite s)
      (WellMixedTank.VBond s) (WellMixedTank.VGen s)
      (WellMixedTank.VReaction s)) as (self' & ->).
    intros [= <- <-]. right. exists (ReturnObserver.dict self').
    split; reflexivity.
  - intros [= <- <-]. left. split; cbn; [reflexivity | by rewrite app_nil_r].
  - intros [= <- <-]. left. split; cbn; [reflexivity | by rewrite app_nil_r].
  - intros [= <- <-]. left. split; cbn; [reflexivity | by rewrite app_nil_r].
  - intros [= <- <-]. left. split; cbn; [reflexivity | by rewrite app_nil_r].
  - intros [= <- <-]. left. split; cbn; [reflexivity | by rewrite app_nil_r].
  - intros [= <- <-]. left. split; cbn; [reflexivity | by rewrite app_nil_r].
  - intros [= <- <-]. left. split; cbn; [reflexivity | by rewrite app_nil_r].
Qed.

Lemma ledger_extends_trans s1 s2 s3 l1 l2 :
  ledger_extends s1 s2 l1 → ledger_extends s2 s3 l2 →
  ledger_extends s1 s3 (l1 ++ l2).
Proof.
  intros [Hc1 Hr1] [Hc2 Hr2]. split; [congruence|].
  rewrite Hr2, Hr1, app_assoc. reflexivity.
Qed.

(** C3. Whatever the bonding subgraph and the kind of particles loaded,
    the ledger of an assembled tank has the columns id1, id2, obj1, obj2,
    Prods, Open_Spikes, Bonded_Spikes, Intensity, Generation, in this order,
    and starts without rows.  A visit of any node leaves the ledger as it is
    or adds one row at its end; so along a run the columns never change and
    the rows present at one point are, unchanged and in place, the first rows
    at every later point. *)
Theorem ledger_schema_append_only (bond : WellMixedTank.Subgraph)
    (sample_size reactions generations tank_size : Z)
    (load_type : LoadSampler.mode) (load_file : option string)
    (self : WellMixedTank.t) (s0 : WellMixedTank.state) :
  WellMixedTank.init bond sample_size reactions generations tank_size
    load_type load_file = Ok (self, s0) →
  DataFrameEnvironment.columns (WellMixedTank.VReaction s0)
    = ["id1"; "id2"; "obj1"; "obj2"; "Prods"; "Open_Spikes"; "Bonded_Spikes";
       "Intensity"; "Generation"] ∧
  DataFrameEnvironment.rows (WellMixedTank.VReaction s0) = [] ∧
  (∀ w o n s s' k,
     WellMixedTank.visit w self o n s = Ok (s', k) →
     ledger_extends s s' [] ∨ ∃ row, ledger_extends s s' [row]) ∧
  (∀ w os i j c c',
     (i ≤ j)%nat →
     WellMixedTank.run_graph w self os WellMixedTank.sload s0 !! i = Some c →
     WellMixedTank.run_graph w self os WellMixedTank.sload s0 !! j = Some c' →
     DataFrameEnvironment.columns (WellMixedTank.VReaction c'.2)
       = WellMixedTank.ledger_columns ∧
     ∃ extra, ledger_extends c.2 c'.2 extra).
Proof.
  intros Hinit.
  destruct (init_shape_cases bond sample_size reactions generations tank_size
              load_type load_file) as [[_ [self' Hok]]|[_ Hbad]];
    [|rewrite Hbad in Hinit; discriminate Hinit].
  assert (s0 = WellMixedTank.initial_state) as ->.
  { rewrite Hok in Hinit. by injection Hinit. }
  split; [reflexivity|]. split; [reflexivity|].
  split; [intros; by eapply visit_ledger|].
  intros w os i j c c' Hij Hc Hc'.
  pose (Q := λ a b : WellMixedTank.node * WellMixedTank.state,
               ∃ extra, ledger_extends a.2 b.2 extra).
  assert (∀ a b, (a ≤ b)%nat → ∀ x y,
    WellMixedTank.run_graph w self os WellMixedTank.sload
      WellMixedTank.initial_state !! a = Some x →
    WellMixedTank.run_graph w self os WellMixedTank.sload
      WellMixedTank.initial_state !! b = Some y → Q x y) as Hall.
  { intros a b Hab x y Hx Hy.
    eapply (chain_lookup_le (step w self) Q); [| | |apply run_graph_chain|..];
      [| | |exact Hab|exact Hx|exact Hy].
    - intros z. exists []. apply ledger_extends_refl.
    - intros x1 x2 x3 [l1 H1] [l2 H2]. exists (l1 ++ l2).
      by eapply ledger_extends_trans.
    - intros x1 x2 (o & k & Hv & _).
      destruct (visit_ledger _ _ _ _ _ _ _ Hv) as [H|[row H]]; eexists; eauto. }
  split; [|by apply (Hall i j Hij)].
  destruct (run_graph_head w self os WellMixedTank.sload
              WellMixedTank.initial_state) as [l Hl].
  destruct (Hall 0%nat j) with
    (x := (WellMixedTank.sload, WellMixedTank.initial_state)) (y := c')
    as [extra [Hcols _]]; [lia | by rewrite Hl | assumption |].
  rewrite Hcols. reflexivity.
Qed.

Lemma ledger_schema_append_only_witness :
  DataFrameEnvironment.columns
    (WellMixedTank.VReaction WellMixedTank.initial_state)
    = ["id1"; "id2"; "obj1"; "obj2"; "Prods"; "Open_Spikes"; "Bonded_Spikes";
       "Intensity"; "Generation"] ∧
  DataFrameEnvironment.rows
    (WellMixedTank.VReaction WellMixedTank.initial_state) = [].
Proof.
  pose proof (ledger_schema_append_only well_shaped 2 1 1 5
    (LoadSampler.ModeStr "int") None small_tank WellMixedTank.initial_state
    eq_refl) as (Hcols & Hrows & _).
  split; assumption.
Defined.

(** ** The per-generation counter *)

Lemma edge_pending n n' :
  edge n n' → n' ≠ WellMixedTank.sgeneration →
  (is_reset n + pending_reset n' = pending_reset n)%nat.
Proof. intros H Hn'. edge_cases H; try reflexivity; congruence. Qed.

Lemma edge_into_sgeneration n :
  edge n WellMixedTank.sgeneration → n = WellMixedTank.dgen.
Proof. intros H. edge_cases H; congruence. Qed.

Lemma edge_before_sampling n n' :
  edge n n' → before_sampling n → n' ≠ WellMixedTank.ssample →
  before_sampling n'.
Proof.
  unfold before_sampling. intros H Hn Hn'.
  edge_cases H; try congruence; try tauto;
    destruct Hn as [Hn|[Hn|Hn]]; congruence.
Qed.

Lemma resets_cons (c : config) l :
  resets (c :: l) = (is_reset c.1 + resets l)%nat.
Proof.
  unfold resets, is_reset. rewrite filter_cons.
  destruct (decide (c.1 = WellMixedTank.oreset)); reflexivity.
Qed.

Lemma resets_app (l1 l2 : list config) :
  resets (l1 ++ l2) = (resets l1 + resets l2)%nat.
Proof. unfold resets. by rewrite filter_app, length_app. Qed.

(** Along a path that does not enter [sgeneration], the resets visited
    are the difference of the pending resets at its ends. *)
Lemma resets_telescope (l : list config) (c d : config) :
  chain linked (c :: l ++ [d]) →
  Forall (λ x : config, x.1 ≠ WellMixedTank.sgeneration) (l ++ [d]) →
  (resets (c :: l) + pending_reset d.1 = pending_reset c.1)%nat.
Proof.
  revert c. induction l as [|x l IH]; intros c Hc Hno.
  - cbn in Hc, Hno. inversion Hc; subst. apply Forall_inv in Hno.
    rewrite resets_cons. unfold resets at 1. cbn.
    rewrite Nat.add_0_r. by apply edge_pending.
  - cbn in Hc, Hno. inversion Hc; subst.
    rewrite resets_cons. rewrite <- Nat.add_assoc.
    rewrite (IH x); [|assumption|by eapply Forall_inv_tail].
    apply edge_pending; [assumption|by apply Forall_inv in Hno].
Qed.

Lemma before_sampling_path (l : list config) (c : config) :
  chain linked (c :: l) → before_sampling c.1 →
  Forall (λ x : config, x.1 ≠ WellMixedTank.ssample) l →
  Forall (λ x : config, before_sampling x.1) (c :: l).
Proof.
  revert c. induction l as [|x l IH]; intros c Hc Hb Hno.
  - by constructor.
  - inversion Hc; subst. constructor; [assumption|].
    apply IH; [assumption| |by eapply Forall_inv_tail].
    eapply edge_before_sampling; [eassumption|assumption|].
    by apply Forall_inv in Hno.
Qed.

Lemma visit_VGen_monotone w self o n s s' k :
  WellMixedTank.visit w self o n s = Ok (s', k) →
  n ≠ WellMixedTank.oreset →
  StackEnvironment.value (WellMixedTank.VGen s)
    ≤ StackEnvironment.value (WellMixedTank.VGen s').
Proof.
  destruct n; cbn [WellMixedTank.visit]; try congruence.
  - destruct (LoadSampler.visit _ _ _) as [e|[l tank]]; [discriminate|].
    intros [= <- <-] _. reflexivity.
  - intros [= <- <-] _. reflexivity.
  - destruct (SimpleSampler.visit _ _ _ _) as [e|[tank composite]];
      [discriminate|].
    intros [= <- <-] _. reflexivity.
  - destruct (SampleObserver.visit _ _ _) as [e|[so bond]]; [discriminate|].
    intros [= <- <-] _. reflexivity.
  - destruct (WellMixedTank.failure o); [discriminate|].
    intros [= <- <-] _. reflexivity.
  - destruct (ReturnObserver.visit _ _ _ _) as [e|[[ro bond] reaction]];
      [discriminate|].
    intros [= <- <-] _. reflexivity.
  - intros [= <- <-] _. reflexivity.
  - intros [= <- <-] _. cbn. lia.
  - intros [= <- <-] _. reflexivity.
  - intros [= <- <-] _. reflexivity.
  - intros [= <- <-] _. reflexivity.
  - intros [= <- <-] _. reflexivity.
  - intros [= <- <-] _. reflexivity.
Qed.

Lemma VGen_monotone_path w self (l : list config) (c d : config) :
  chain (step w self) (c :: l ++ [d]) →
  Forall (λ x : config, x.1 ≠ WellMixedTank.oreset) (c :: l) →
  StackEnvironment.value (WellMixedTank.VGen c.2)
    ≤ StackEnvironment.value (WellMixedTank.VGen d.2).
Proof.
  revert c. induction l as [|x l IH]; intros c Hc Hno.
  - inversion Hc as [| |? ? ? (o & k & Hv & _)]; subst.
    eapply visit_VGen_monotone; [eassumption|]. by apply Forall_inv in Hno.
  - cbn in Hc. inversion Hc as [| |? ? ? (o & k & Hv & _) Hrest]; subst.
    transitivity (StackEnvironment.value (WellMixedTank.VGen x.2)).
    + eapply visit_VGen_monotone; [eassumption|]. by apply Forall_inv in Hno.
    + apply IH; [assumption|by eapply Forall_inv_tail].
Qed.

Lemma run_graph_linked w self os n s :
  chain linked (WellMixedTank.run_graph w self os n s).
Proof.
  eapply chain_impl; [|apply run_graph_chain].
  intros x y H. by eapply step_edge.
Qed.

(** C7. In every run of an assembled tank the per-generation counter starts
    at 0; the reset node is visited exactly once before the first visit of the
    sampler, and exactly once between two consecutive arrivals at the
    generation-advance branch; a visit of the reset node leaves the counter at
    0; and from one point of the run to a later one with no visit of the reset
    node in between, the counter does not decrease. *)
Theorem generation_counter_discipline (bond : WellMixedTank.Subgraph)
    (sample_size reactions generations tank_size : Z)
    (load_type : LoadSampler.mode) (load_file : option string)
    (self : WellMixedTank.t) (s0 : WellMixedTank.state)
    (w : world) (os : list WellMixedTank.oracle) :
  WellMixedTank.init bond sample_size reactions generations tank_size
    load_type load_file = Ok (self, s0) →
  let run := WellMixedTank.run_graph w self os WellMixedTank.sload s0 in
  StackEnvironment.value (WellMixedTank.VGen s0) = 0 ∧
  (∀ pre c post,
     run = pre ++ c :: post → c.1 = WellMixedTank.ssample →
     Forall (λ x : config, x.1 ≠ WellMixedTank.ssample) pre →
     resets pre = 1%nat) ∧
  (∀ pre c1 mid c2 post,
     run = pre ++ c1 :: mid ++ c2 :: post →
     c1.1 = WellMixedTank.sgeneration → c2.1 = WellMixedTank.sgeneration →
     Forall (λ x : config, x.1 ≠ WellMixedTank.sgeneration) mid →
     resets mid = 1%nat) ∧
  (∀ pre c c' post,
     run = pre ++ c :: c' :: post → c.1 = WellMixedTank.oreset →
     StackEnvironment.value (WellMixedTank.VGen c'.2) = 0) ∧
  (∀ pre c mid c' post,
     run = pre ++ c :: mid ++ c' :: post →
     Forall (λ x : config, x.1 ≠ WellMixedTank.oreset) (c :: mid) →
     StackEnvironment.value (WellMixedTank.VGen c.2)
       ≤ StackEnvironment.value (WellMixedTank.VGen c'.2)).
Proof.
  intros Hinit run.
  assert (s0 = WellMixedTank.initial_state) as ->.
  { destruct (init_shape_cases bond sample_size reactions generations
      tank_size load_type load_file) as [[_ [self' Hok]]|[_ Hbad]];
      rewrite Hinit in *; [by injection Hok | discriminate Hbad]. }
  pose proof (run_graph_linked w self os WellMixedTank.sload
                WellMixedTank.initial_state) as Hlinked.
  pose proof (run_graph_chain w self os WellMixedTank.sload
                WellMixedTank.initial_state) as Hsteps.
  destruct (run_graph_head w self os WellMixedTank.sload
              WellMixedTank.initial_state) as [l0 Hhead].
  fold run in Hlinked, Hsteps, Hhead.
  split; [reflexivity|]. split; [|split; [|split]].
  - intros pre c post Hrun Hc Hpre.
    destruct pre as [|c0 pre].
    { rewrite Hrun in Hhead. injection Hhead as -> _. discriminate Hc. }
    assert (c0 = (WellMixedTank.sload, WellMixedTank.initial_state)) as Hc0.
    { rewrite Hrun in Hhead. by injection Hhead. }
    rewrite Hrun in Hlinked.
    assert (chain linked (c0 :: pre ++ [c])) as Hpath.
    { apply chain_app_l with (l2 := post).
      cbn. rewrite <- app_assoc. exact Hlinked. }
    assert (Forall (λ x : config, before_sampling x.1) (c0 :: pre)) as Hbefore.
    { apply before_sampling_path.
      - change (c0 :: pre ++ [c]) with ((c0 :: pre) ++ [c]) in Hpath.
        by apply chain_app_l in Hpath.
      - rewrite Hc0. by left.
      - by eapply Forall_inv_tail. }
    pose proof (resets_telescope pre c0 c Hpath) as Htele.
    rewrite Hc, Hc0 in Htele. cbn [fst pending_reset] in Htele.
    rewrite Hc0. rewrite Nat.add_0_r in Htele. apply Htele.
    apply Forall_app. split.
    + apply Forall_inv_tail in Hbefore.
      eapply Forall_impl; [exact Hbefore|].
      intros x [Hx|[Hx|Hx]]; rewrite Hx; discriminate.
    + constructor; [|constructor]. rewrite Hc. discriminate.
  - intros pre c1 mid c2 post Hrun Hc1 Hc2 Hmid.
    rewrite Hrun in Hlinked. apply chain_app_r in Hlinked.
    change (c1 :: mid ++ c2 :: post) with ((c1 :: mid) ++ [c2] ++ post)
      in Hlinked.
    rewrite app_assoc in Hlinked. apply chain_app_l in Hlinked.
    destruct mid as [|d mid _] using rev_ind.
    { inversion Hlinked as [| |? ? ? He]; subst.
      unfold linked in He. rewrite Hc1, Hc2 in He.
      apply edge_into_sgeneration in He. discriminate He. }
    assert (d.1 = WellMixedTank.dgen) as Hd.
    { change ((c1 :: mid ++ [d]) ++ [c2]) with
        (c1 :: (mid ++ [d]) ++ [c2]) in Hlinked.
      rewrite <- app_assoc in Hlinked.
      change (c1 :: mid ++ [d] ++ [c2]) with ((c1 :: mid) ++ [d; c2])
        in Hlinked.
      apply chain_app_r in Hlinked.
      inversion Hlinked as [| |? ? ? He]; subst.
      unfold linked in He. rewrite Hc2 in He.
      by apply edge_into_sgeneration in He. }
    apply chain_app_l in Hlinked.
    pose proof (resets_telescope mid c1 d Hlinked Hmid) as Htele.
    rewrite resets_cons, Hc1, Hd in Htele.
    rewrite resets_app, (resets_cons d []), Hd.
    change (resets []) with 0%nat.
    change (is_reset WellMixedTank.dgen) with 0%nat.
    change (is_reset WellMixedTank.sgeneration) with 0%nat in Htele.
    change (pending_reset WellMixedTank.dgen) with 0%nat in Htele.
    change (pending_reset WellMixedTank.sgeneration) with 1%nat in Htele.
    lia.
  - intros pre c c' post Hrun Hc.
    rewrite Hrun in Hsteps. apply chain_app_r in Hsteps.
    inversion Hsteps as [| |? ? ? (o & k & Hv & _)]; subst.
    rewrite Hc in Hv. cbn in Hv. injection Hv as <- _. reflexivity.
  - intros pre c mid c' post Hrun Hno.
    rewrite Hrun in Hsteps. apply chain_app_r in Hsteps.
    change (c :: mid ++ c' :: post) with ((c :: mid) ++ [c'] ++ post)
      in Hsteps.
    rewrite app_assoc in Hsteps. apply chain_app_l in Hsteps.
    by eapply VGen_monotone_path.
Qed.

(** Cutting a list at a position it has. *)
Lemma cut_at {A} (d : A) (l : list A) (i : nat) :
  (i < length l)%nat →
  l = take i l ++ default d (l !! i) :: drop (S i) l.
Proof.
  intros Hi. destruct (lookup_lt_is_Some_2 l i Hi) as [x Hx].
  rewrite Hx. cbn. by rewrite take_drop_middle.
Qed.

Lemma Forall_nodes (P : WellMixedTank.node → Prop) (l : list config) :
  Forall P (map fst l) → Forall (λ c : config, P c.1) l.
Proof. induction l; inversion 1; subst; constructor; auto. Qed.

Lemma generation_counter_discipline_witness :
  resets (take 3 small_run) = 1%nat ∧
  resets (take 17 (drop 18 long_run)) = 1%nat.
Proof.
  pose (d := (WellMixedTank.sload, WellMixedTank.initial_state)).
  split.
  - pose proof (generation_counter_discipline well_shaped 2 1 1 5
      (LoadSampler.ModeStr "int") None small_tank WellMixedTank.initial_state
      bare_world (replicate 20 identity_oracle) eq_refl) as (_ & Hfirst & _).
    apply (Hfirst (take 3 small_run) (default d (small_run !! 3%nat))
             (drop 4 small_run)).
    + apply cut_at. vm_compute. lia.
    + vm_compute. reflexivity.
    + apply (Forall_nodes (λ n, n ≠ WellMixedTank.ssample)).
      vm_compute. repeat constructor; discriminate.
  - pose proof (generation_counter_discipline well_shaped 2 2 3 5
      (LoadSampler.ModeStr "int") None three_generations
      WellMixedTank.initial_state bare_world (replicate 80 identity_oracle)
      eq_refl) as (_ & _ & Hbetween & _).
    apply (Hbetween (take 17 long_run) (default d (long_run !! 17%nat))
             (take 17 (drop 18 long_run))
             (default d (drop 18 long_run !! 17%nat))
             (drop 18 (drop 18 long_run))).
    + rewrite <- (cut_at d (drop 18 long_run) 17) by (vm_compute; lia).
      apply cut_at. vm_compute. lia.
    + vm_compute. reflexivity.
    + vm_compute. reflexivity.
    + apply (Forall_nodes (λ n, n ≠ WellMixedTank.sgeneration)).
      vm_compute. repeat constructor; discriminate.
Defined.

(** ** Conservation of the population *)

Lemma draw_length (n : nat) (picks : list nat) (src got rest : list pyval) :
  SimpleSampler.draw n picks src = (got, rest) →
  (length got + length rest = length src)%nat.
Proof.
  revert picks src got rest.
  induction n as [|n IH]; intros picks src got rest; cbn [SimpleSampler.draw].
  - intros [= <- <-]. reflexivity.
  - destruct (src !! _) as [x|] eqn:Hx; [|intros [= <- <-]; reflexivity].
    destruct (SimpleSampler.draw n (tl picks) (delete _ src))
      as [got' rest'] eqn:Hd.
    intros [= <- <-]. apply IH in Hd. cbn [length].
    rewrite length_delete in Hd by eauto.
    apply lookup_lt_Some in Hx. lia.
Qed.

Lemma draw_exact (n : nat) (picks : list nat) (src got rest : list pyval) :
  SimpleSampler.draw n picks src = (got, rest) →
  (n ≤ length src)%nat → length got = n.
Proof.
  revert picks src got rest.
  induction n as [|n IH]; intros picks src got rest; cbn [SimpleSampler.draw].
  - intros [= <- <-] _. reflexivity.
  - intros H Hn.
    assert (hd 0 picks `mod` length src < length src)%nat as Hlt
      by (apply Nat.mod_upper_bound; lia).
    destruct (lookup_lt_is_Some_2 src _ Hlt) as [x Hx].
    rewrite Hx in H.
    destruct (SimpleSampler.draw n (tl picks) (delete _ src))
      as [got' rest'] eqn:Hd.
    injection H as <- <-. cbn [length]. f_equal.
    eapply IH; [exact Hd|]. rewrite length_delete by eauto. lia.
Qed.

Lemma visit_conservation w self o n s s' k :
  WellMixedTank.visit w self o n s = Ok (s', k) →
  held s = population s → held s' = population s'.
Proof.
  unfold held, population.
  destruct n; cbn [WellMixedTank.visit].
  - destruct (LoadSampler.visit _ _ _) as [e|[l tank]] eqn:Hl; [discriminate|].
    intros [= <- <-]. cbn.
    unfold LoadSampler.visit in Hl.
    destruct (LoadSampler.read _ _) as [e|l1]; [discriminate|].
    cbn in Hl. injection Hl as <- <-.
    unfold LoadSampler.push. rewrite length_app. lia.
  - intros [= <- <-]. cbn. lia.
  - intros [= <- <-]. cbn. lia.
  - unfold SimpleSampler.visit.
    destruct (_ <? _); [discriminate|].
    destruct (SimpleSampler.draw _ _ _) as [got rest] eqn:Hd.
    intros [= <- <-]. cbn. apply draw_length in Hd.
    rewrite length_app. lia.
  - destruct (SampleObserver.visit _ _ _) as [e|[so bond]]; [discriminate|].
    intros [= <- <-]. cbn. lia.
  - destruct (WellMixedTank.failure o); [discriminate|].
    intros [= <- <-]. cbn. lia.
  - destruct (ReturnObserver.visit _ _ _ _) as [e|[[ro bond] reaction]];
      [discriminate|].
    intros [= <- <-]. cbn. lia.
  - intros [= <- <-]. cbn. rewrite length_app. lia.
  - intros [= <- <-]. cbn. lia.
  - intros [= <- <-]. cbn. lia.
  - intros [= <- <-]. cbn. rewrite length_app. lia.
  - intros [= <- <-]. cbn. lia.
  - intros [= <- <-]. cbn. rewrite length_app. lia.
  - intros [= <- <-]. cbn. lia.
Qed.


















(** ** Export of the ledger *)

Lemma string_length_app (s t : string) :
  String.length (s +:+ t) = (String.length s + String.length t)%nat.
Proof.
  induction s as [|a s IH]; [reflexivity|].
  change (S (String.length (s +:+ t))
          = S (String.length s + String.length t)).
  by rewrite IH.
Qed.

Lemma string_app_inj_r (s1 s2 t : string) :
  s1 +:+ t = s2 +:+ t → s1 = s2.
Proof.
  revert s2. induction s1 as [|a s1 IH]; intros [|b s2] H.
  - reflexivity.
  - apply (f_equal String.length) in H.
    rewrite !string_length_app in H. cbn in H. lia.
  - apply (f_equal String.length) in H.
    rewrite !string_length_app in H. cbn in H. lia.
  - change (String a (s1 +:+ t) = String b (s2 +:+ t)) in H.
    injection H as -> H. f_equal. by apply IH.
Qed.

Lemma file_path_pos (n : nat) :
  n ≠ 0%nat →
  WellMixedTank.file_path n = "Outputs/output_" +:+ pretty n +:+ ".csv".
Proof.
  intros Hn. unfold WellMixedTank.file_path.
  rewrite bool_decide_eq_false_2 by assumption. reflexivity.
Qed.

Lemma file_path_inj (n m : nat) :
  WellMixedTank.file_path n = WellMixedTank.file_path m → n = m.
Proof.
  destruct (decide (n = 0%nat)) as [->|Hn], (decide (m = 0%nat)) as [->|Hm];
    [reflexivity|..].
  - rewrite (file_path_pos m Hm). discriminate.
  - rewrite (file_path_pos n Hn). discriminate.
  - rewrite (file_path_pos n Hn), (file_path_pos m Hm).
    intros H%(inj (String.app _))%string_app_inj_r.
    by apply (inj pretty).
Qed.

Lemma path_exists_names (fs : filesystem) (path : string) :
  path_exists fs path = true ↔ path ∈ WellMixedTank.names fs.
Proof.
  unfold path_exists, WellMixedTank.names.
  rewrite orb_true_iff, !bool_decide_eq_true, elem_of_union, elem_of_dom.
  reflexivity.
Qed.

(** What the loop returns: the candidate of the first suffix, from the
    one it starts with, whose path does not exist. *)
Lemma choose_path_Some (fuel : nat) (fs : filesystem) (k : nat) (p : string) :
  WellMixedTank.choose_path fuel fs k = Some p →
  ∃ n, (k ≤ n)%nat ∧ p = WellMixedTank.file_path n ∧
       path_exists fs (WellMixedTank.file_path n) = false ∧
       ∀ m, (k ≤ m < n)%nat →
            path_exists fs (WellMixedTank.file_path m) = true.
Proof.
  revert k. induction fuel as [|fuel IH]; intros k; cbn; [discriminate|].
  destruct (path_exists fs (WellMixedTank.file_path k)) eqn:Hk; cbn.
  - intros (n & Hn & -> & Hfree & Hbelow)%IH.
    exists n. split; [lia|]. split; [reflexivity|]. split; [assumption|].
    intros m Hm. destruct (decide (m = k)) as [->|]; [assumption|].
    apply Hbelow. lia.
  - intros [= <-]. exists k. split; [lia|]. split; [reflexivity|].
    split; [assumption|]. intros m Hm. lia.
Qed.

Lemma choose_path_None (fuel : nat) (fs : filesystem) (k : nat) :
  WellMixedTank.choose_path fuel fs k = None →
  ∀ i, (i < fuel)%nat →
       path_exists fs (WellMixedTank.file_path (k + i)) = true.
Proof.
  revert k. induction fuel as [|fuel IH]; intros k; cbn; [intros; lia|].
  destruct (path_exists fs (WellMixedTank.file_path k)) eqn:Hk; cbn;
    [|discriminate].
  intros H i Hi. destruct i as [|i].
  - by rewrite Nat.add_0_r.
  - replace (k + S i)%nat with (S k + i)%nat by lia. apply IH; [assumption|lia].
Qed.

(** The loop ends: the candidates are pairwise distinct, so they cannot
    all be among the names of the file system. *)
Lemma choose_path_total (fs : filesystem) :
  is_Some (WellMixedTank.choose_path (S (size (WellMixedTank.names fs))) fs 0).
Proof.
  destruct (WellMixedTank.choose_path _ fs 0) as [p|] eqn:H; [by eexists|].
  exfalso.
  pose proof (choose_path_None _ _ _ H) as Hall.
  set (N := size (WellMixedTank.names fs)) in *.
  set (l := WellMixedTank.file_path <$> seq 0 (S N)).
  assert (NoDup l) as Hnodup.
  { apply NoDup_fmap_2; [|apply NoDup_seq].
    intros n m. apply file_path_inj. }
  assert (list_to_set l ⊆ WellMixedTank.names fs) as Hsub.
  { intros p. rewrite elem_of_list_to_set. unfold l.
    intros (i & -> & Hi)%list_elem_of_fmap.
    apply elem_of_seq in Hi. apply path_exists_names.
    apply (Hall i). lia. }
  apply subseteq_size in Hsub.
  rewrite size_list_to_set in Hsub by assumption.
  unfold l in Hsub. rewrite length_fmap, length_seq in Hsub.
  fold N in Hsub. lia.
Qed.

(** The export always ends, at the candidate of the first suffix whose
    path does not exist. *)
Lemma results_to_csv_chosen (reactions : DataFrameEnvironment.t)
    (fs : filesystem) :
  ∃ n,
    path_exists fs (WellMixedTank.file_path n) = false ∧
    (∀ m, (m < n)%nat → path_exists fs (WellMixedTank.file_path m) = true) ∧
    WellMixedTank.results_to_csv reactions fs
      = Some (try! fs' := WellMixedTank.open_w fs (WellMixedTank.file_path n)
                            (WellMixedTank.to_csv reactions) in
              Ok (fs', WellMixedTank.file_path n)).
Proof.
  unfold WellMixedTank.results_to_csv, WellMixedTank.results_to_csv_within.
  destruct (choose_path_total fs) as [p Hp]. rewrite Hp.
  apply choose_path_Some in Hp as (n & _ & -> & Hfree & Hbelow).
  exists n. split; [assumption|]. split; [intros; apply Hbelow; lia|].
  reflexivity.
Qed.

(** C9. The export takes no path from its caller: for every ledger and
    file system the loop ends, and the path it opens is the default
    "Outputs/output.csv" or, when that exists, the default with the first
    suffix 1, 2, ... whose path does not exist; nothing but the file system
    decides it. *)
Theorem results_to_csv_path_fixed (reactions : DataFrameEnvironment.t)
    (fs : filesystem) :
  ∃ n,
    path_exists fs (WellMixedTank.file_path n) = false ∧
    (∀ m, (m < n)%nat → path_exists fs (WellMixedTank.file_path m) = true) ∧
    WellMixedTank.results_to_csv reactions fs
      = Some (try! fs' := WellMixedTank.open_w fs (WellMixedTank.file_path n)
                            (WellMixedTank.to_csv reactions) in
              Ok (fs', WellMixedTank.file_path n)) ∧
    WellMixedTank.file_path n
      = (if decide (n = 0%nat) then "Outputs/output.csv"
         else "Outputs/output_" +:+ pretty n +:+ ".csv").
Proof.
  destruct (results_to_csv_chosen reactions fs) as (n & Hfree & Hbelow & Hres).
  exists n. repeat (split; [assumption|]).
  destruct (decide (n = 0%nat)) as [->|Hn]; [reflexivity|].
  by apply file_path_pos.
Qed.

Lemma slashless_app (s t : string) :
  slashless s → slashless t → slashless (s +:+ t).
Proof.
  induction s as [|a s IH]; [done|].
  intros [Ha Hs] Ht. split; [assumption|]. by apply IH.
Qed.

Lemma slashless_pretty_N_go (x : N) (s : string) :
  slashless s → slashless (pretty_N_go x s).
Proof.
  revert s. induction (N.lt_wf_0 x) as [x _ IH]; intros s Hs.
  destruct (decide (x = 0%N)) as [->|Hx]; [by rewrite pretty_N_go_0|].
  rewrite pretty_N_go_step by lia.
  apply IH; [apply N.div_lt; lia|].
  split; [|assumption].
  unfold pretty_N_char. by repeat case_match.
Qed.

Lemma slashless_pretty (n : nat) : slashless (pretty n).
Proof.
  unfold pretty, pretty_nat, pretty, pretty_N.
  case_decide; [by split|]. by apply slashless_pretty_N_go.
Qed.

Lemma rfind_from_slashless (s : string) (i last : Z) :
  slashless s → ospath.rfind_from "/" s i last = last.
Proof.
  revert i. induction s as [|a s IH]; intros i; [done|].
  intros [Ha Hs]. cbn. rewrite bool_decide_eq_false_2 by assumption.
  by apply IH.
Qed.

Lemma dirname_file_path (n : nat) :
  ospath.dirname (WellMixedTank.file_path n) = "Outputs".
Proof.
  destruct (decide (n = 0%nat)) as [->|Hn]; [reflexivity|].
  rewrite (file_path_pos n Hn). unfold ospath.dirname, ospath.rfind.
  change ("Outputs/output_" +:+ pretty n +:+ ".csv")
    with (String "O" (String "u" (String "t" (String "p" (String "u"
          (String "t" (String "s" (String "/" (String "o" (String "u"
          (String "t" (String "p" (String "u" (String "t" (String "_"
          (pretty n +:+ ".csv")))))))))))))))).
  cbn [ospath.rfind_from]. cbn [bool_decide decide_rel].
  repeat (first [rewrite bool_decide_eq_true_2 by reflexivity
                | rewrite bool_decide_eq_false_2 by discriminate]).
  cbn [Z.add Pos.add Pos.succ]. rewrite rfind_from_slashless.
  - reflexivity.
  - apply slashless_app; [apply slashless_pretty|].
    repeat split; discriminate.
Qed.

Lemma file_path_rest (n : nat) :
  ∃ rest, WellMixedTank.file_path n = "Outputs/" +:+ rest ∧ slashless rest.
Proof.
  destruct (decide (n = 0%nat)) as [->|Hn].
  - exists "output.csv". split; [reflexivity|]. repeat split; discriminate.
  - exists ("output_" +:+ pretty n +:+ ".csv").
    split; [by rewrite (file_path_pos n Hn)|].
    apply (slashless_app "output_"); [repeat split; discriminate|].
    apply slashless_app; [apply slashless_pretty|].
    repeat split; discriminate.
Qed.

Lemma ancestors_from_slashless (pre s : string) :
  slashless s → ancestors_from pre s = [].
Proof.
  revert pre. induction s as [|a s IH]; intros pre; [done|].
  intros [Ha Hs]. cbn [ancestors_from].
  rewrite bool_decide_eq_false_2 by assumption. by apply IH.
Qed.

(** A candidate goes through the directory Outputs only. *)
Lemma ancestors_file_path (n : nat) :
  ancestors (WellMixedTank.file_path n) = ["Outputs"].
Proof.
  destruct (file_path_rest n) as (rest & -> & Hrest).
  unfold ancestors.
  change ("Outputs/" +:+ rest)
    with (String "O" (String "u" (String "t" (String "p" (String "u"
          (String "t" (String "s" (String "/" rest)))))))).
  cbn [ancestors_from].
  repeat (first [rewrite bool_decide_eq_true_2 by reflexivity
                | rewrite bool_decide_eq_false_2 by discriminate]).
  rewrite ancestors_from_slashless by assumption. reflexivity.
Qed.

Lemma has_nul_app (s t : string) :
  has_nul (s +:+ t) = has_nul s || has_nul t.
Proof.
  induction s as [|a s IH]; [reflexivity|].
  change (has_nul (String a (s +:+ t)) = has_nul (String a s) || has_nul t).
  cbn [has_nul]. by rewrite IH, orb_assoc.
Qed.

Lemma has_nul_pretty_N_go (x : N) (s : string) :
  has_nul s = false → has_nul (pretty_N_go x s) = false.
Proof.
  revert s. induction (N.lt_wf_0 x) as [x _ IH]; intros s Hs.
  destruct (decide (x = 0%N)) as [->|Hx]; [by rewrite pretty_N_go_0|].
  rewrite pretty_N_go_step by lia.
  apply IH; [apply N.div_lt; lia|].
  cbn [has_nul]. rewrite Hs, orb_false_r.
  apply bool_decide_eq_false.
  unfold pretty_N_char. by repeat case_match.
Qed.

Lemma has_nul_pretty (n : nat) : has_nul (pretty n) = false.
Proof.
  unfold pretty, pretty_nat, pretty, pretty_N.
  case_decide; [reflexivity|]. by apply has_nul_pretty_N_go.
Qed.

(** A candidate holds no NUL. *)
Lemma has_nul_file_path (n : nat) :
  has_nul (WellMixedTank.file_path n) = false.
Proof.
  destruct (decide (n = 0%nat)) as [->|Hn]; [reflexivity|].
  rewrite (file_path_pos n Hn), !has_nul_app, has_nul_pretty. reflexivity.
Qed.

Lemma path_exists_false (fs : filesystem) (path : string) :
  path_exists fs path = false → files fs !! path = None ∧ path ∉ dirs fs.
Proof.
  unfold path_exists. intros [Hf Hd]%orb_false_iff.
  apply bool_decide_eq_false in Hf, Hd.
  split; [by apply eq_None_not_Some | assumption].
Qed.

(** What [open] does with a candidate at which nothing exists: it writes
    the file when Outputs is a directory, and raises otherwise, with the
    error for a path that goes through a regular file when Outputs is one
    and the error for a path that leads nowhere when nothing is named
    Outputs. *)
Lemma open_w_candidate (fs : filesystem) (n : nat)
    (table : list (list pyval)) :
  path_exists fs (WellMixedTank.file_path n) = false →
  WellMixedTank.open_w fs (WellMixedTank.file_path n) table
  = if bool_decide ("Outputs" ∈ dirs fs)
    then Ok {| files := <[WellMixedTank.file_path n := table]> (files fs);
               dirs := dirs fs |}
    else if bool_decide (is_Some (files fs !! "Outputs"))
         then Raise (NotADirectoryError (WellMixedTank.file_path n))
         else Raise (FileNotFoundError (WellMixedTank.file_path n)).
Proof.
  intros [_ Hnd]%path_exists_false.
  unfold WellMixedTank.open_w, open_error, under_file.
  rewrite has_nul_file_path, dirname_file_path, ancestors_file_path.
  rewrite (bool_decide_eq_false_2 (WellMixedTank.file_path n ∈ dirs fs))
    by assumption.
  cbn [negb andb existsb]. rewrite orb_false_r.
  destruct (bool_decide ("Outputs" ∈ dirs fs)); [reflexivity|].
  by destruct (bool_decide (is_Some (files fs !! "Outputs"))).
Qed.

(** A successful export creates a new file and leaves every other file as
    it was; the file holds the header row with the columns of the ledger and
    one row per row of the ledger. *)
Lemma results_to_csv_no_overwrite (reactions : DataFrameEnvironment.t)
    (fs fs' : filesystem) (path : string) :
  WellMixedTank.results_to_csv reactions fs = Some (Ok (fs', path)) →
  files fs !! path = None ∧
  (∀ q, q ≠ path → files fs' !! q = files fs !! q) ∧
  dirs fs' = dirs fs ∧
  ∃ data,
    files fs' !! path
      = Some (map VStr (DataFrameEnvironment.columns reactions) :: data) ∧
    length data = length (DataFrameEnvironment.rows reactions).
Proof.
  destruct (results_to_csv_chosen reactions fs) as (n & Hfree & _ & ->).
  rewrite (open_w_candidate _ _ _ Hfree).
  case_bool_decide; [|case_bool_decide; discriminate].
  cbn. intros [= <- <-]. cbn.
  split; [by apply path_exists_false in Hfree as [Hf _]|].
  split; [intros q Hq; by rewrite lookup_insert_ne|].
  split; [reflexivity|].
  eexists. rewrite lookup_insert_eq. split; [reflexivity|].
  by rewrite length_map.
Qed.

(** The export succeeds when Outputs is a directory; when it is not, the
    [open] of the chosen path fails, as for a path that goes through a
    regular file when Outputs is one, and as for a path that leads nowhere
    when nothing is named Outputs. *)
Lemma results_to_csv_outcome (reactions : DataFrameEnvironment.t)
    (fs : filesystem) :
  ("Outputs" ∈ dirs fs →
   ∃ fs' path, WellMixedTank.results_to_csv reactions fs
               = Some (Ok (fs', path))) ∧
  ("Outputs" ∉ dirs fs → is_Some (files fs !! "Outputs") →
   ∃ path, WellMixedTank.results_to_csv reactions fs
           = Some (Raise (NotADirectoryError path))) ∧
  ("Outputs" ∉ dirs fs → files fs !! "Outputs" = None →
   ∃ path, WellMixedTank.results_to_csv reactions fs
           = Some (Raise (FileNotFoundError path))).
Proof.
  destruct (results_to_csv_chosen reactions fs) as (n & Hfree & _ & ->).
  rewrite (open_w_candidate _ _ _ Hfree).
  split; [|split].
  - intros Hdir. rewrite bool_decide_eq_true_2 by assumption.
    eexists _, _. reflexivity.
  - intros Hdir Hfile. rewrite bool_decide_eq_false_2 by assumption.
    rewrite bool_decide_eq_true_2 by assumption. eexists. reflexivity.
  - intros Hdir Hfile. rewrite bool_decide_eq_false_2 by assumption.
    rewrite bool_decide_eq_false_2 by (rewrite Hfile; by intros [? ?]).
    eexists. reflexivity.
Qed.

Example results_to_csv_first_export :
  ∃ fs', WellMixedTank.results_to_csv
           (WellMixedTank.VReaction WellMixedTank.initial_state)
           (fs bare_world)
         = Some (Ok (fs', "Outputs/output.csv")).
Proof. eexists. vm_compute. reflexivity. Qed.

Example results_to_csv_second_export :
  ∃ fs', WellMixedTank.results_to_csv
           (WellMixedTank.VReaction WellMixedTank.initial_state) exported_once
         = Some (Ok (fs', "Outputs/output_1.csv")) ∧
         files fs' !! "Outputs/output.csv" = Some [[VStr "id1"]].
Proof. eexists. split; vm_compute; reflexivity. Qed.

(** * Further properties *)

(** ** The pre-reaction observer beyond one or two items *)

(** X1. The pre-reaction observer's [process] raises, an IndexError,
    exactly when the sample is empty; of a sample of more than two items it
    records the first two and nothing of the others. *)
Theorem SampleObserver_process_empty_or_long (self : SampleObserver.t) :
  (SampleObserver.sample self = [] ↔
   ∃ e, SampleObserver.process self = Raise e) ∧
  (∀ e, SampleObserver.process self = Raise e →
        e = IndexError "list index out of range") ∧
  (∀ x y rest, SampleObserver.sample self = x :: y :: rest →
     ∃ d,
       SampleObserver.process self
         = Ok {| SampleObserver.sample := x :: y :: rest;
                 SampleObserver.dict := d |} ∧
       SampleObserver.process
         {| SampleObserver.sample := [x; y];
            SampleObserver.dict := SampleObserver.dict self |}
         = Ok {| SampleObserver.sample := [x; y];
                 SampleObserver.dict := d |}).
Proof.
  unfold SampleObserver.process.
  destruct (SampleObserver.sample self) as [|x [|y rest]] eqn:Hs; cbn.
  - split; [|split].
    + split; [intros _; eexists; reflexivity | reflexivity].
    + intros e [= <-]. reflexivity.
    + intros; discriminate.
  - split; [|split].
    + split; [discriminate | intros [e He]; discriminate He].
    + intros e He; discriminate He.
    + intros; discriminate.
  - split; [|split].
    + split; [discriminate | intros [e He]; discriminate He].
    + intros e He; discriminate He.
    + intros x' y' rest' [= <- <- <-]. eexists. split; reflexivity.
Qed.

(** X2. The record staged by the pre-reaction observer tells which items
    were sampled: two samples of one or two items with the same record are
    the same sample.  The pair "None", "None" in the second slot cannot come
    from a second item, whose id would be recorded as "n/a" or as its own. *)
Theorem SampleObserver_record_determines_sample
    (self1 self2 r1 r2 : SampleObserver.t) :
  (1 ≤ length (SampleObserver.sample self1) ≤ 2)%nat →
  (1 ≤ length (SampleObserver.sample self2) ≤ 2)%nat →
  SampleObserver.process self1 = Ok r1 →
  SampleObserver.process self2 = Ok r2 →
  SampleObserver.dict r1 = SampleObserver.dict r2 →
  SampleObserver.sample self1 = SampleObserver.sample self2.
Proof.
  unfold SampleObserver.process.
  destruct (SampleObserver.sample self1) as [|x1 [|y1 [|z1 l1]]];
    cbn; try lia; intros _;
  destruct (SampleObserver.sample self2) as [|x2 [|y2 [|z2 l2]]];
    cbn; try lia; intros _;
  intros [= <-] [= <-]; cbn; intros Hd.
  - assert (Some x1 = Some x2) as [= ->]
      by exact (f_equal (λ d : gmap string pyval, d !! "obj1") Hd).
    reflexivity.
  - assert (Some (VStr "None") = Some y2) as [= <-]
      by exact (f_equal (λ d : gmap string pyval, d !! "obj2") Hd).
    assert (Some (VStr "None") = Some (VStr "n/a")) as [=]
      by exact (f_equal (λ d : gmap string pyval, d !! "id2") Hd).
  - assert (Some y1 = Some (VStr "None")) as [= ->]
      by exact (f_equal (λ d : gmap string pyval, d !! "obj2") Hd).
    assert (Some (VStr "n/a") = Some (VStr "None")) as [=]
      by exact (f_equal (λ d : gmap string pyval, d !! "id2") Hd).
  - assert (Some x1 = Some x2) as [= ->]
      by exact (f_equal (λ d : gmap string pyval, d !! "obj1") Hd).
    assert (Some y1 = Some y2) as [= ->]
      by exact (f_equal (λ d : gmap string pyval, d !! "obj2") Hd).
    reflexivity.
Qed.

Lemma SampleObserver_record_determines_sample_witness :
  SampleObserver.sample
    {| SampleObserver.sample := [VInt 1; VStr "None"];
       SampleObserver.dict := ∅ |}
  = SampleObserver.sample
      {| SampleObserver.sample := [VInt 1; VStr "None"];
         SampleObserver.dict := {["stale" := VInt 0]} |}.
Proof.
  eapply (SampleObserver_record_determines_sample
            {| SampleObserver.sample := [VInt 1; VStr "None"];
               SampleObserver.dict := ∅ |}
            {| SampleObserver.sample := [VInt 1; VStr "None"];
               SampleObserver.dict := {["stale" := VInt 0]} |}).
  - cbn. lia.
  - cbn. lia.
  - reflexivity.
  - reflexivity.
  - reflexivity.
Defined.

(** ** The post-reaction observer on any sample *)

(** X3. The post-reaction observer's [process] never raises: the
    attributes of a product are read only when every product is an
    RBNParticle.  In either branch each of Prods, Open_Spikes, Bonded_Spikes
    and Intensity is a list with exactly one entry per product. *)
Theorem ReturnObserver_process_one_entry_per_product
    (self : ReturnObserver.t) (VGen : StackEnvironment.t) :
  ∃ self',
    ReturnObserver.process self VGen = Ok self' ∧
    ReturnObserver.sample self' = ReturnObserver.sample self ∧
    ∀ k, k ∈ derived_keys →
      ∃ l, ReturnObserver.dict self' !! k = Some (VList l) ∧
           length l = length (ReturnObserver.sample self).
Proof.
  unfold ReturnObserver.process, StackEnvironment.read0.
  destruct (forallb isinstance_RBNParticle (ReturnObserver.sample self))
    eqn:Hall.
  - destruct (all_RBN_inv _ Hall) as (ps & ds & Hs & Hexp).
    unfold ReturnObserver.process_rbn.
    rewrite Hs, (loop_all_RBN ps ds _ Hexp). cbn [bind Ok].
    eexists. split; [reflexivity|]. split; [reflexivity|].
    cbn [ReturnObserver.dict ReturnObserver.extended_prods
         ReturnObserver.open_spikes_info ReturnObserver.bonded_spikes_info
         ReturnObserver.intensities app].
    pose proof (Forall2_length _ _ _ Hexp) as Hlen.
    intros k Hk. unfold derived_keys in Hk. rewrite length_map.
    repeat (apply elem_of_cons in Hk as [->|Hk]).
    + eexists. split; [by simplify_map_eq|].
      rewrite length_map, length_zip_with. lia.
    + eexists. split; [by simplify_map_eq|]. rewrite length_map. lia.
    + eexists. split; [by simplify_map_eq|]. rewrite length_map. lia.
    + eexists. split; [by simplify_map_eq|]. rewrite length_map. lia.
    + by apply elem_of_nil in Hk.
  - unfold ReturnObserver.process_na, ReturnObserver.na_list.
    eexists. split; [reflexivity|]. split; [reflexivity|].
    cbn [ReturnObserver.dict].
    intros k Hk. unfold derived_keys in Hk.
    repeat (apply elem_of_cons in Hk as [->|Hk]);
      [eexists; split; [by simplify_map_eq | by rewrite length_replicate]..|].
    by apply elem_of_nil in Hk.
Qed.

(** ** The loader's modes *)

Lemma is_mode_same (s : string) :
  LoadSampler.is_mode (LoadSampler.ModeStr s) s = true.
Proof. cbn. by apply bool_decide_eq_true. Qed.

(** X4. In mode "int" the loader's [pull] makes a sample of [tank_size]
    integers (none for a negative size), each between 0 and 100; in mode
    "scc" a sample of [tank_size] one-character strings, each an uppercase
    letter.  Whatever the node held before is replaced. *)
Theorem LoadSampler_pull_generates (w : world) (self : LoadSampler.t) :
  (LoadSampler.load_type self = LoadSampler.ModeStr "int" →
   length (LoadSampler.sample (LoadSampler.pull w self))
     = Z.to_nat (LoadSampler.tank_size self) ∧
   Forall is_percent (LoadSampler.sample (LoadSampler.pull w self))) ∧
  (LoadSampler.load_type self = LoadSampler.ModeStr "scc" →
   length (LoadSampler.sample (LoadSampler.pull w self))
     = Z.to_nat (LoadSampler.tank_size self) ∧
   Forall is_uppercase_letter (LoadSampler.sample (LoadSampler.pull w self))).
Proof.
  split; intros Hmode; unfold LoadSampler.pull; rewrite Hmode.
  - rewrite is_mode_other by discriminate. rewrite is_mode_same.
    cbn [LoadSampler.sample LoadSampler.set_sample]. split.
    + unfold LoadSampler.range. by rewrite length_map, length_seq.
    + apply Forall_map, Forall_forall. intros i _. eexists. split; [reflexivity|].
      pose proof (Nat.mod_upper_bound (rand w i) 101). lia.
  - rewrite is_mode_same.
    cbn [LoadSampler.sample LoadSampler.set_sample]. split.
    + unfold LoadSampler.range. by rewrite length_map, length_seq.
    + apply Forall_map, Forall_forall. intros i _.
      unfold LoadSampler.ascii_uppercase. eexists. split; [reflexivity|].
      pose proof (Nat.mod_upper_bound (rand w i) 26).
      rewrite nat_ascii_embedding by lia. lia.
Qed.

Lemma LoadSampler_pull_generates_witness :
  (length (LoadSampler.sample (LoadSampler.pull bare_world int_loader))
     = 3%nat ∧
   Forall is_percent (LoadSampler.sample (LoadSampler.pull bare_world int_loader)))
  ∧
  (length (LoadSampler.sample (LoadSampler.pull bare_world scc_loader))
     = 3%nat ∧
   Forall is_uppercase_letter
     (LoadSampler.sample (LoadSampler.pull bare_world scc_loader))).
Proof.
  split.
  - exact (proj1 (LoadSampler_pull_generates bare_world int_loader) eq_refl).
  - exact (proj2 (LoadSampler_pull_generates bare_world scc_loader) eq_refl).
Defined.

(** X5. In mode "csv" the loader's visit puts the first row of the file
    into the pool, after what the pool held, whatever [tank_size] says and
    whatever rows follow; on a file without rows it raises IndexError. *)
Theorem LoadSampler_csv_first_row (w : world) (self : LoadSampler.t)
    (path : string) (table : list (list pyval)) (TTank : list pyval) :
  LoadSampler.load_type self = LoadSampler.ModeStr "csv" →
  LoadSampler.load_file self = Some path →
  files (fs w) !! path = Some table →
  (∀ row rest, table = row :: rest →
     LoadSampler.visit w self TTank
       = Ok (LoadSampler.set_sample self row, TTank ++ row)) ∧
  (table = [] →
     LoadSampler.visit w self TTank
       = Raise (IndexError "list index out of range")).
Proof.
  intros Hmode Hfile Htable.
  unfold LoadSampler.visit, LoadSampler.read, LoadSampler.open_r.
  rewrite Hmode, is_mode_same, Hfile, Htable. cbn [bind Ok].
  split.
  - intros row rest ->. cbn [getitem lookup list_lookup bind Ok].
    unfold LoadSampler.pull. cbn [LoadSampler.load_type LoadSampler.set_sample].
    rewrite Hmode, !is_mode_other by discriminate. reflexivity.
  - intros ->. reflexivity.
Qed.

Lemma LoadSampler_csv_first_row_witness :
  LoadSampler.visit csv_world csv_loader [VInt 7]
    = Ok (LoadSampler.set_sample csv_loader [VStr "a"; VStr "b"],
          [VInt 7; VStr "a"; VStr "b"]).
Proof.
  exact (proj1 (LoadSampler_csv_first_row csv_world csv_loader "tank.csv"
                  [[VStr "a"; VStr "b"]; [VStr "c"]] [VInt 7]
                  eq_refl eq_refl eq_refl)
               [VStr "a"; VStr "b"] [[VStr "c"]] eq_refl).
Defined.

(** X6. With [load_type] None, the default of [WellMixedTank], the loader
    generates nothing: [read] and [pull] leave the node as it is and the
    visit adds only the sample the node already held.  With a factory object
    the sample is what [createParticles(tank_size)] returns. *)
Theorem LoadSampler_none_and_factory (w : world) (self : LoadSampler.t) :
  (LoadSampler.load_type self = LoadSampler.ModeNone →
   LoadSampler.read w self = Ok self ∧
   LoadSampler.pull w self = self ∧
   ∀ TTank, LoadSampler.visit w self TTank
            = Ok (self, TTank ++ LoadSampler.sample self)) ∧
  (∀ f, LoadSampler.load_type self = LoadSampler.ModeFactory f →
   ∀ TTank, LoadSampler.visit w self TTank
            = Ok (LoadSampler.set_sample self
                    (createParticles f (LoadSampler.tank_size self)),
                  TTank ++ createParticles f (LoadSampler.tank_size self))).
Proof.
  split.
  - intros Hmode.
    assert (LoadSampler.read w self = Ok self) as Hread
      by (unfold LoadSampler.read; by rewrite Hmode).
    assert (LoadSampler.pull w self = self) as Hpull
      by (unfold LoadSampler.pull; by rewrite Hmode).
    split; [exact Hread|]. split; [exact Hpull|].
    intros TTank. unfold LoadSampler.visit. rewrite Hread. cbn [bind Ok].
    by rewrite Hpull.
  - intros f Hmode TTank.
    unfold LoadSampler.visit, LoadSampler.read. rewrite Hmode. cbn [LoadSampler.is_mode bind Ok].
    unfold LoadSampler.pull. rewrite Hmode. reflexivity.
Qed.

Lemma LoadSampler_none_and_factory_witness :
  LoadSampler.visit bare_world (LoadSampler.init 1000 LoadSampler.ModeNone None)
    [] = Ok (LoadSampler.init 1000 LoadSampler.ModeNone None, []).
Proof.
  exact (proj2 (proj2 (proj1 (LoadSampler_none_and_factory bare_world
           (LoadSampler.init 1000 LoadSampler.ModeNone None)) eq_refl)) []).
Defined.

(** ** print_tank *)

Lemma ids_of_particles (ps : list Particle) :
  WellMixedTank.ids_of (map VObj ps)
    = Ok (map (λ p, of_ident (id p)) ps).
Proof.
  induction ps as [|p ps IH]; [reflexivity|].
  cbn. rewrite IH. reflexivity.
Qed.

Lemma ids_of_other (stuff : list pyval) :
  Exists (λ x, isinstance_Particle x = false) stuff →
  WellMixedTank.ids_of stuff = Raise (AttributeError "id").
Proof.
  induction stuff as [|x stuff IH]; intros H; [by apply Exists_nil in H|].
  destruct x as [| |p| |]; try reflexivity.
  apply Exists_cons in H as [H|H]; [discriminate H|].
  cbn. rewrite (IH H). reflexivity.
Qed.

(** X7. [print_tank] looks at the first item only to choose what to
    print.  On an empty tank it raises IndexError.  When the first item is a
    particle it prints the ids of all items, and raises AttributeError if
    some later item is not a particle; when the first item is not a particle
    it prints the tank as it is. *)
Theorem print_tank_cases (stuff : list pyval) :
  (stuff = [] →
   WellMixedTank.print_tank stuff
     = Raise (IndexError "list index out of range")) ∧
  (∀ ps, stuff = map VObj ps → ps ≠ [] →
   WellMixedTank.print_tank stuff
     = Ok (VList (map (λ p, of_ident (id p)) ps))) ∧
  (∀ p rest, stuff = VObj p :: rest →
   Exists (λ x, isinstance_Particle x = false) rest →
   WellMixedTank.print_tank stuff = Raise (AttributeError "id")) ∧
  (∀ x rest, stuff = x :: rest → isinstance_Particle x = false →
   WellMixedTank.print_tank stuff = Ok (VList stuff)).
Proof.
  unfold WellMixedTank.print_tank. repeat split.
  - intros ->. reflexivity.
  - intros [|p ps] -> Hne; [done|].
    cbn [map getitem lookup list_lookup bind Ok isinstance_Particle].
    change (VObj p :: map VObj ps) with (map VObj (p :: ps)).
    rewrite ids_of_particles. reflexivity.
  - intros p rest -> Hex.
    cbn [getitem lookup list_lookup bind Ok isinstance_Particle].
    rewrite ids_of_other; [reflexivity|]. by apply Exists_cons_tl.
  - intros x rest -> Hx.
    cbn [getitem lookup list_lookup bind Ok]. rewrite Hx. reflexivity.
Qed.

Lemma print_tank_cases_witness :
  WellMixedTank.print_tank [plain_particle 1; plain_particle 2]
    = Ok (VList [VInt 1; VInt 2]) ∧
  WellMixedTank.print_tank [plain_particle 1; VInt 5]
    = Raise (AttributeError "id") ∧
  WellMixedTank.print_tank [VInt 5; plain_particle 1]
    = Ok (VList [VInt 5; plain_particle 1]).
Proof.
  split; [|split].
  - apply (proj1 (proj2 (print_tank_cases [plain_particle 1; plain_particle 2]))
             [{| id := IdInt 1; rbn := None |}; {| id := IdInt 2; rbn := None |}]);
      [reflexivity | discriminate].
  - apply (proj1 (proj2 (proj2 (print_tank_cases [plain_particle 1; VInt 5])))
             {| id := IdInt 1; rbn := None |} [VInt 5]); [reflexivity|].
    constructor. reflexivity.
  - apply (proj2 (proj2 (proj2 (print_tank_cases [VInt 5; plain_particle 1])))
             (VInt 5) [plain_particle 1]); reflexivity.
Defined.

(** ** Exports in a row *)

Lemma results_to_csv_ok (reactions : DataFrameEnvironment.t)
    (fs : filesystem) :
  "Outputs" ∈ dirs fs →
  ∃ n, path_exists fs (WellMixedTank.file_path n) = false ∧
       WellMixedTank.results_to_csv reactions fs
         = Some (Ok ({| files := <[WellMixedTank.file_path n
                                   := WellMixedTank.to_csv reactions]> (files fs);
                        dirs := dirs fs |},
                     WellMixedTank.file_path n)).
Proof.
  intros Hdir.
  destruct (results_to_csv_chosen reactions fs) as (n & Hfree & _ & ->).
  exists n. split; [assumption|].
  rewrite (open_w_candidate _ _ _ Hfree).
  by rewrite bool_decide_eq_true_2.
Qed.

(** X8. An export that succeeds writes at a path at which nothing existed,
    file or directory: the new file system is the old one with that one file
    added, so every file present before is still there with its content.
    The file starts with the header row of the ledger's columns, followed by
    as many rows as the ledger has. *)
Theorem results_to_csv_writes_new_file (reactions : DataFrameEnvironment.t)
    (fs fs' : filesystem) (path : string) :
  WellMixedTank.results_to_csv reactions fs = Some (Ok (fs', path)) →
  path_exists fs path = false ∧
  fs' = {| files := <[path := WellMixedTank.to_csv reactions]> (files fs);
           dirs := dirs fs |} ∧
  (∀ q t, files fs !! q = Some t → files fs' !! q = Some t) ∧
  ∃ data,
    files fs' !! path
      = Some (map VStr (DataFrameEnvironment.columns reactions) :: data) ∧
    length data = length (DataFrameEnvironment.rows reactions).
Proof.
  intros H.
  destruct (results_to_csv_chosen reactions fs) as (n & Hfree & _ & Hres).
  rewrite Hres, (open_w_candidate _ _ _ Hfree) in H.
  case_bool_decide; [|case_bool_decide; discriminate H].
  cbn in H. injection H as <- <-.
  split; [assumption|]. split; [reflexivity|].
  apply path_exists_false in Hfree as [Hnone _].
  split.
  - intros q t Hq. cbn. rewrite lookup_insert_ne; [assumption|].
    intros <-. congruence.
  - eexists. cbn. rewrite lookup_insert_eq. split; [reflexivity|].
    by rewrite length_map.
Qed.

Lemma results_to_csv_writes_new_file_witness :
  ∃ fs', WellMixedTank.results_to_csv one_row_ledger exported_once
           = Some (Ok (fs', "Outputs/output_1.csv")) ∧
         files fs' !! "Outputs/output.csv" = Some [[VStr "id1"]].
Proof.
  assert (WellMixedTank.results_to_csv one_row_ledger exported_once
          = Some (Ok ({| files := <["Outputs/output_1.csv"
                           := WellMixedTank.to_csv one_row_ledger]>
                           (files exported_once);
                         dirs := dirs exported_once |},
                      "Outputs/output_1.csv"))) as Hone
    by (vm_compute; reflexivity).
  eexists. split; [exact Hone|].
  apply (proj1 (proj2 (proj2 (results_to_csv_writes_new_file _ _ _ _ Hone)))).
  reflexivity.
Defined.

(** X9. The export succeeds exactly when Outputs is a directory.  When
    Outputs is a regular file the [open] of the chosen path raises
    NotADirectoryError; when nothing is named Outputs it raises
    FileNotFoundError.  In both cases no file is written, and an export
    that succeeds leaves the directories as they were: the export never
    creates the directory. *)
Theorem results_to_csv_needs_directory (reactions : DataFrameEnvironment.t)
    (fs : filesystem) :
  ("Outputs" ∈ dirs fs ↔
   ∃ fs' path, WellMixedTank.results_to_csv reactions fs
               = Some (Ok (fs', path))) ∧
  ("Outputs" ∉ dirs fs → is_Some (files fs !! "Outputs") →
   ∃ path, WellMixedTank.results_to_csv reactions fs
           = Some (Raise (NotADirectoryError path))) ∧
  ("Outputs" ∉ dirs fs → files fs !! "Outputs" = None →
   ∃ path, WellMixedTank.results_to_csv reactions fs
           = Some (Raise (FileNotFoundError path))) ∧
  (∀ fs' path,
     WellMixedTank.results_to_csv reactions fs = Some (Ok (fs', path)) →
     dirs fs' = dirs fs).
Proof.
  destruct (results_to_csv_outcome reactions fs) as (Hyes & Hfile & Hnone).
  split; [|split; [exact Hfile|split; [exact Hnone|]]].
  - split; [exact Hyes|].
    intros (fs' & path & Hp).
    destruct (decide ("Outputs" ∈ dirs fs)) as [Hdir|Hdir]; [exact Hdir|].
    destruct (files fs !! "Outputs") as [t|] eqn:Ht.
    + destruct (Hfile Hdir) as (path' & Hbad); [by eexists|].
      rewrite Hbad in Hp. discriminate Hp.
    + destruct (Hnone Hdir eq_refl) as (path' & Hbad).
      rewrite Hbad in Hp. discriminate Hp.
  - intros fs' path Hp.
    by apply results_to_csv_no_overwrite in Hp as (_ & _ & Hd & _).
Qed.

(** A file system in which Outputs is a regular file, and one in which
    nothing is named Outputs. *)
Lemma results_to_csv_needs_directory_witness :
  (∃ path, WellMixedTank.results_to_csv one_row_ledger
             {| files := {["Outputs" := []]}; dirs := ∅ |}
           = Some (Raise (NotADirectoryError path))) ∧
  (∃ path, WellMixedTank.results_to_csv one_row_ledger
             {| files := ∅; dirs := ∅ |}
           = Some (Raise (FileNotFoundError path))).
Proof.
  split.
  - apply (proj1 (proj2 (results_to_csv_needs_directory one_row_ledger
             {| files := {["Outputs" := []]}; dirs := ∅ |}))).
    + cbn. set_solver.
    + cbn. by eexists.
  - apply (proj1 (proj2 (proj2 (results_to_csv_needs_directory one_row_ledger
             {| files := ∅; dirs := ∅ |})))).
    + cbn. set_solver.
    + reflexivity.
Defined.

(** X10. Exports made one after the other, with the directory Outputs in
    place, all succeed; they write at pairwise distinct paths, none of which
    existed at the start; every file present at the start is kept, and at
    the end each path written holds the table of its own ledger: a later
    export never overwrites an earlier one. *)
Theorem exports_never_overwrite (ledgers : list DataFrameEnvironment.t)
    (fs : filesystem) :
  "Outputs" ∈ dirs fs →
  ∃ fs' paths,
    exports ledgers fs = Some (fs', paths) ∧
    NoDup paths ∧
    Forall (λ p, files fs !! p = None) paths ∧
    (∀ q t, files fs !! q = Some t → files fs' !! q = Some t) ∧
    Forall2 (λ reactions p,
               files fs' !! p = Some (WellMixedTank.to_csv reactions))
            ledgers paths.
Proof.
  revert fs. induction ledgers as [|r ledgers IH]; intros fs Hdir.
  - exists fs, []. cbn. repeat split; auto; constructor.
  - destruct (results_to_csv_ok r fs Hdir) as (n & Hfree & Hres).
    apply path_exists_false in Hfree as [Hnone _].
    set (p := WellMixedTank.file_path n) in *.
    set (fs1 := {| files := <[p := WellMixedTank.to_csv r]> (files fs);
                   dirs := dirs fs |}) in *.
    destruct (IH fs1 Hdir) as (fs' & paths & Hex & Hnodup & Hnew & Hkeep & Hhold).
    exists fs', (p :: paths). cbn [exports]. rewrite Hres. cbn. rewrite Hex.
    assert (files fs1 !! p = Some (WellMixedTank.to_csv r)) as Hp
      by apply lookup_insert_eq.
    assert (∀ q t, files fs !! q = Some t → files fs1 !! q = Some t) as Hup.
    { intros q t Hq. cbn. rewrite lookup_insert_ne; [assumption|].
      intros <-. congruence. }
    split; [reflexivity|]. split; [|split; [|split]].
    + constructor; [|assumption].
      intros Hin. rewrite Forall_forall in Hnew.
      specialize (Hnew p Hin). congruence.
    + constructor; [assumption|].
      eapply Forall_impl; [exact Hnew|]. intros q Hq.
      destruct (files fs !! q) as [t|] eqn:Hfq; [|reflexivity].
      apply Hup in Hfq. congruence.
    + intros q t Hq. by apply Hkeep, Hup.
    + constructor; [by apply Hkeep | assumption].
Qed.

Lemma exports_never_overwrite_witness :
  ∃ fs' paths,
    exports [one_row_ledger; one_row_ledger] exported_once
      = Some (fs', paths) ∧
    NoDup paths ∧
    (∀ q t, files exported_once !! q = Some t → files fs' !! q = Some t).
Proof.
  destruct (exports_never_overwrite [one_row_ledger; one_row_ledger]
              exported_once)
    as (fs' & paths & Hex & Hnodup & _ & Hkeep & _);
    [vm_compute; reflexivity|].
  exists fs', paths. auto.
Defined.

(** ** The decision and the edges of the graph *)

Lemma follow_dgen (k : Z) (n' : WellMixedTank.node) :
  WellMixedTank.follow WellMixedTank.dgen k = Some n' →
  (k = 0 ∧ n' = WellMixedTank.ssample) ∨
  (k = 1 ∧ n' = WellMixedTank.sgeneration) ∨
  (k = 2 ∧ n' = WellMixedTank.ssimulation).
Proof.
  unfold WellMixedTank.follow.
  destruct (Z.ltb_spec k 0) as [|Hk]; [discriminate|].
  change (WellMixedTank.out_edges WellMixedTank.dgen)
    with [WellMixedTank.ssample; WellMixedTank.sgeneration;
          WellMixedTank.ssimulation].
  destruct (Z.to_nat k) as [|[|[|m]]] eqn:Hn; cbn; intros [= <-].
  - left. split; [lia | reflexivity].
  - right. left. split; [lia | reflexivity].
  - right. right. split; [lia | reflexivity].
Qed.

Lemma follow_decided (d : TimingsDecision.t) :
  WellMixedTank.follow WellMixedTank.dgen (TimingsDecision.process d)
    = Some (decided d).
Proof.
  rewrite TimingsDecision_process_cases. unfold decided.
  repeat case_decide; reflexivity.
Qed.

Lemma process_decided (d : TimingsDecision.t) :
  (TimingsDecision.process d = 0 ↔ decided d = WellMixedTank.ssample) ∧
  (TimingsDecision.process d = 1 ↔ decided d = WellMixedTank.sgeneration) ∧
  (TimingsDecision.process d = 2 ↔ decided d = WellMixedTank.ssimulation).
Proof.
  rewrite TimingsDecision_process_cases. unfold decided.
  repeat case_decide; repeat split; intros; congruence.
Qed.

(** What each result of the decision says about the values it read. *)
Lemma process_inv (d : TimingsDecision.t) :
  (TimingsDecision.process d = 0 →
   TimingsDecision.gen d < TimingsDecision.gen_thresh d ∧
   TimingsDecision.sample_size d ≤ TimingsDecision.tank_size d) ∧
  (TimingsDecision.process d = 1 →
   TimingsDecision.time d < TimingsDecision.time_thresh d) ∧
  (TimingsDecision.process d = 2 →
   TimingsDecision.time_thresh d ≤ TimingsDecision.time d).
Proof.
  rewrite TimingsDecision_process_cases.
  repeat case_decide; repeat split; intros; try discriminate; lia.
Qed.

(** X11. Whatever the counters and the pool, the result of the decision
    node is the index of one of its three out-edges, in the order in which
    [__init__] adds them: 0 leads back to the sampler, 1 to the drain of the
    generation advance, 2 to the drain before the terminal node. *)
Theorem decision_selects_an_edge (self : TimingsDecision.t)
    (VGen VTime : StackEnvironment.t) (TTank : list pyval) :
  let d := TimingsDecision.read self VGen VTime TTank in
  WellMixedTank.follow WellMixedTank.dgen
    (TimingsDecision.visit self VGen VTime TTank).2 = Some (decided d) ∧
  (TimingsDecision.process d = 0 ↔ decided d = WellMixedTank.ssample) ∧
  (TimingsDecision.process d = 1 ↔ decided d = WellMixedTank.sgeneration) ∧
  (TimingsDecision.process d = 2 ↔ decided d = WellMixedTank.ssimulation).
Proof.
  cbn zeta. split; [apply follow_decided | apply process_decided].
Qed.

Lemma step_effect_of_step (w : world) (self : WellMixedTank.t)
    (c c' : config) :
  step w self c c' → step_effect w self c.1 c.2 c'.1 c'.2.
Proof.
  destruct c as [n s], c' as [n' s']. cbn [fst snd].
  intros (o & k & Hv & Hf). cbn [fst snd] in Hv, Hf.
  revert Hv. destruct n; cbn [WellMixedTank.visit]; cbn [step_effect].
  - destruct (LoadSampler.visit _ _ _) as [e|[l tank]] eqn:Hl; [discriminate|].
    intros [= <- <-]. vm_compute in Hf. revert Hf. intros [= <-].
    split; [reflexivity|]. by exists l, tank.
  - intros [= <- <-]. vm_compute in Hf. revert Hf. intros [= <-].
    by split.
  - intros [= <- <-]. vm_compute in Hf. revert Hf. intros [= <-].
    by split.
  - unfold SimpleSampler.visit.
    destruct (Z.ltb_spec (Z.of_nat (length (WellMixedTank.TTank s)))
                (WellMixedTank.sample_size self)); [discriminate|].
    destruct (SimpleSampler.draw _ _ _) as [got rest] eqn:Hd.
    intros [= <- <-]. vm_compute in Hf. revert Hf. intros [= <-].
    split; [reflexivity|]. by exists (WellMixedTank.picks o), got, rest.
  - unfold SampleObserver.visit.
    destruct (SampleObserver.process _) as [e|so] eqn:Hp; [discriminate|].
    intros [= <- <-]. vm_compute in Hf. revert Hf. intros [= <-].
    split; [reflexivity|]. by exists so.
  - destruct (WellMixedTank.failure o); [discriminate|].
    intros [= <- <-]. vm_compute in Hf. revert Hf. intros [= <-].
    split; [reflexivity|]. by exists (WellMixedTank.products o).
  - unfold ReturnObserver.visit.
    destruct (ReturnObserver.process _ _) as [e|ro] eqn:Hp; [discriminate|].
    intros [= <- <-]. vm_compute in Hf. revert Hf. intros [= <-].
    split; [reflexivity|]. by exists ro.
  - intros [= <- <-]. vm_compute in Hf. revert Hf. intros [= <-].
    by split.
  - intros [= <- <-]. vm_compute in Hf. revert Hf. intros [= <-].
    by split.
  - intros [= <- <-]. split; [reflexivity|].
    apply follow_dgen in Hf. cbn zeta. unfold TimingsDecision.visit in Hf.
    cbn [snd] in Hf. tauto.
  - intros [= <- <-]. vm_compute in Hf. revert Hf. intros [= <-].
    by split.
  - intros [= <- <-]. vm_compute in Hf. revert Hf. intros [= <-].
    by split.
  - intros [= <- <-]. vm_compute in Hf. revert Hf. intros [= <-].
    by split.
  - intros [= <- <-]. vm_compute in Hf. discriminate Hf.
Qed.

(** A property of the first configuration that every step keeps holds all
    along the run. *)
Lemma run_invariant (I : config → Prop) (w : world) (self : WellMixedTank.t)
    (os : list WellMixedTank.oracle) (n : WellMixedTank.node)
    (s : WellMixedTank.state) :
  I (n, s) →
  (∀ c c', I c → step_effect w self c.1 c.2 c'.1 c'.2 → I c') →
  Forall I (WellMixedTank.run_graph w self os n s).
Proof.
  intros Hstart Hkeep.
  destruct (run_graph_head w self os n s) as [l Hl].
  pose proof (run_graph_chain w self os n s) as Hchain.
  rewrite Hl in *.
  apply (chain_Forall (step w self)); [|assumption..].
  intros a b Ha Hab. apply (Hkeep a b Ha). by apply step_effect_of_step.
Qed.

Lemma init_Ok_inv (bond : WellMixedTank.Subgraph)
    (sample_size reactions generations tank_size : Z)
    (load_type : LoadSampler.mode) (load_file : option string)
    (self : WellMixedTank.t) (s0 : WellMixedTank.state) :
  WellMixedTank.init bond sample_size reactions generations tank_size
    load_type load_file = Ok (self, s0) →
  s0 = WellMixedTank.initial_state ∧
  WellMixedTank.sample_size self = sample_size ∧
  WellMixedTank.decision self
    = TimingsDecision.init generations reactions sample_size ∧
  WellMixedTank.load self = LoadSampler.init tank_size load_type load_file.
Proof.
  unfold WellMixedTank.init. destruct (negb _); [discriminate|].
  intros [= <- <-]. repeat split.
Qed.

(** ** Where a run stops *)




(** ** The two counters along a run *)

Lemma run_reactions_bounded (w : world) (self : WellMixedTank.t)
    (os : list WellMixedTank.oracle) :
  Forall (reactions_bounded
            (Z.max 1 (TimingsDecision.gen_thresh (WellMixedTank.decision self))))
    (WellMixedTank.run_graph w self os WellMixedTank.sload
       WellMixedTank.initial_state).
Proof.
  apply run_invariant.
  - unfold reactions_bounded. cbn. lia.
  - intros [n s] [n' s']. unfold reactions_bounded. cbn [fst snd].
    destruct n; cbn [step_effect]; intros Hb He.
    + destruct He as (-> & l & tank & _ & ->). cbn. lia.
    + destruct He as (-> & ->). cbn. lia.
    + destruct He as (-> & ->). cbn. lia.
    + destruct He as (-> & picks & got & rest & _ & _ & ->). cbn. lia.
    + destruct He as (-> & so & _ & ->). cbn. lia.
    + destruct He as (-> & products & ->). cbn. lia.
    + destruct He as (-> & ro & _ & ->). cbn. lia.
    + destruct He as (-> & ->). cbn. lia.
    + destruct He as (-> & ->). cbn. lia.
    + destruct He as (-> & He). cbn zeta in He.
      destruct He as [[Hp ->]|[[Hp ->]|[Hp ->]]]; [|lia..].
      apply (proj1 (process_inv _)) in Hp as [Hp _]. cbn in Hp.
      unfold StackEnvironment.read0 in Hp. lia.
    + destruct He as (-> & ->). cbn. lia.
    + destruct He as (-> & ->). lia.
    + destruct He as (-> & ->). cbn. lia.
    + contradiction.
Qed.

(** X13. In every run the per-generation counter stays between 0 and
    max(1, reactions): it is below that bound whenever a reaction is being
    recorded, and at least 1 at every decision, since the decision comes
    after the first reaction of a generation.  So [reactions] caps the
    reactions of a generation, but a tank asked for 0 reactions still
    attempts one in each generation. *)
Theorem reactions_per_generation_bounded (bond : WellMixedTank.Subgraph)
    (sample_size reactions generations tank_size : Z)
    (load_type : LoadSampler.mode) (load_file : option string)
    (self : WellMixedTank.t) (s0 : WellMixedTank.state)
    (w : world) (os : list WellMixedTank.oracle) (c : config) :
  WellMixedTank.init bond sample_size reactions generations tank_size
    load_type load_file = Ok (self, s0) →
  c ∈ WellMixedTank.run_graph w self os WellMixedTank.sload s0 →
  0 ≤ StackEnvironment.value (WellMixedTank.VGen c.2) ≤ Z.max 1 reactions ∧
  (c.1 = WellMixedTank.oreturn →
   StackEnvironment.value (WellMixedTank.VGen c.2) < Z.max 1 reactions) ∧
  (c.1 = WellMixedTank.dgen →
   1 ≤ StackEnvironment.value (WellMixedTank.VGen c.2)).
Proof.
  intros (-> & _ & Hdec & _)%init_Ok_inv Hc.
  pose proof (run_reactions_bounded w self os) as Hall.
  rewrite Hdec in Hall. cbn [TimingsDecision.gen_thresh TimingsDecision.init] in Hall.
  rewrite Forall_forall in Hall. specialize (Hall c Hc).
  unfold reactions_bounded in Hall. cbn zeta in Hall.
  destruct c as [n s]. cbn [fst snd] in *.
  destruct n; repeat split; intros; try discriminate; lia.
Qed.

Lemma reactions_per_generation_bounded_witness :
  Forall (λ c : config,
            0 ≤ StackEnvironment.value (WellMixedTank.VGen c.2) ≤ 1 ∧
            (c.1 = WellMixedTank.dgen →
             1 ≤ StackEnvironment.value (WellMixedTank.VGen c.2)))
         zero_run.
Proof.
  apply Forall_forall. intros c Hc.
  destruct (reactions_per_generation_bounded well_shaped 2 0 0 5
    (LoadSampler.ModeStr "int") None zero_tank WellMixedTank.initial_state
    bare_world (replicate 20 identity_oracle) c eq_refl Hc) as (Hb & _ & Hd).
  split; [exact Hb | exact Hd].
Defined.

Lemma run_generations_gate (w : world) (self : WellMixedTank.t)
    (os : list WellMixedTank.oracle) :
  Forall (generations_gate
            (TimingsDecision.time_thresh (WellMixedTank.decision self)))
    (WellMixedTank.run_graph w self os WellMixedTank.sload
       WellMixedTank.initial_state).
Proof.
  apply run_invariant.
  - reflexivity.
  - intros [n s] [n' s']. unfold generations_gate. cbn [fst snd].
    destruct n; cbn [step_effect]; intros Hb He.
    + destruct He as (-> & l & tank & _ & ->). cbn. lia.
    + destruct He as (-> & ->). cbn. lia.
    + destruct He as (-> & ->). cbn. lia.
    + destruct He as (-> & picks & got & rest & _ & _ & ->). cbn. lia.
    + destruct He as (-> & so & _ & ->). cbn. lia.
    + destruct He as (-> & products & ->). cbn. lia.
    + destruct He as (-> & ro & _ & ->). cbn. lia.
    + destruct He as (-> & ->). cbn. lia.
    + destruct He as (-> & ->). cbn. lia.
    + destruct He as (-> & He). cbn zeta in He.
      destruct He as [[Hp ->]|[[Hp ->]|[Hp ->]]].
      * lia.
      * apply (proj1 (proj2 (process_inv _))) in Hp. cbn in Hp.
        unfold StackEnvironment.read0 in Hp. lia.
      * apply (proj2 (proj2 (process_inv _))) in Hp. cbn in Hp.
        unfold StackEnvironment.read0 in Hp. lia.
    + destruct He as (-> & ->). cbn. lia.
    + destruct He as (-> & ->). lia.
    + destruct He as (-> & ->). cbn. lia.
    + contradiction.
Qed.

(** X14. In every run the elapsed-time counter never exceeds
    max(1, generations); the run takes the generation advance only while the
    counter is below [generations], and it reaches the terminal node only
    with the counter equal to max(1, generations): a tank asked for 0
    generations still runs one. *)
Theorem generations_run_exactly (bond : WellMixedTank.Subgraph)
    (sample_size reactions generations tank_size : Z)
    (load_type : LoadSampler.mode) (load_file : option string)
    (self : WellMixedTank.t) (s0 : WellMixedTank.state)
    (w : world) (os : list WellMixedTank.oracle) (c : config) :
  WellMixedTank.init bond sample_size reactions generations tank_size
    load_type load_file = Ok (self, s0) →
  c ∈ WellMixedTank.run_graph w self os WellMixedTank.sload s0 →
  0 ≤ StackEnvironment.value (WellMixedTank.VTime c.2) ≤ Z.max 1 generations ∧
  (c.1 = WellMixedTank.sgeneration →
   StackEnvironment.value (WellMixedTank.VTime c.2) < generations) ∧
  (c.1 = WellMixedTank.tterm →
   StackEnvironment.value (WellMixedTank.VTime c.2) = Z.max 1 generations).
Proof.
  intros (-> & _ & Hdec & _)%init_Ok_inv Hc.
  pose proof (run_generations_gate w self os) as Hall.
  rewrite Hdec in Hall. cbn [TimingsDecision.time_thresh TimingsDecision.init] in Hall.
  rewrite Forall_forall in Hall. specialize (Hall c Hc).
  unfold generations_gate in Hall. cbn zeta in Hall.
  destruct c as [n s]. cbn [fst snd] in *.
  destruct n; repeat split; intros; try discriminate; lia.
Qed.

Lemma generations_run_exactly_witness :
  Forall (λ c : config,
            c.1 = WellMixedTank.tterm →
            StackEnvironment.value (WellMixedTank.VTime c.2) = 1)
         zero_run.
Proof.
  apply Forall_forall. intros c Hc.
  exact (proj2 (proj2 (generations_run_exactly well_shaped 2 0 0 5
    (LoadSampler.ModeStr "int") None zero_tank WellMixedTank.initial_state
    bare_world (replicate 20 identity_oracle) c eq_refl Hc))).
Defined.

(** ** The buffers along a run *)

Lemma run_buffers_by_node (w : world) (self : WellMixedTank.t)
    (os : list WellMixedTank.oracle) :
  Forall (buffers_by_node (WellMixedTank.sample_size self))
    (WellMixedTank.run_graph w self os WellMixedTank.sload
       WellMixedTank.initial_state).
Proof.
  apply run_invariant.
  - by split.
  - intros [n s] [n' s']. unfold buffers_by_node. cbn [fst snd].
    destruct n; cbn [step_effect]; intros Hb He.
    + destruct He as (-> & l & tank & _ & ->). exact Hb.
    + destruct He as (-> & ->). exact Hb.
    + destruct He as (-> & ->). by destruct Hb.
    + destruct He as (-> & picks & got & rest & Hsize & Hdraw & ->). cbn.
      rewrite Hb. cbn. eapply draw_exact; [exact Hdraw | lia].
    + destruct He as (-> & so & _ & ->). done.
    + destruct He as (-> & products & ->). done.
    + destruct He as (-> & ro & _ & ->). done.
    + destruct He as (-> & ->). reflexivity.
    + destruct He as (-> & ->). exact Hb.
    + destruct He as (-> & He). cbn zeta in He.
      destruct He as [[_ ->]|[[_ ->]|[_ ->]]]; exact Hb.
    + destruct He as (-> & ->). by split.
    + destruct He as (-> & ->). exact Hb.
    + destruct He as (-> & ->). by split.
    + contradiction.
Qed.

Lemma run_conserved (w : world) (self : WellMixedTank.t)
    (os : list WellMixedTank.oracle) :
  Forall (λ c : config, held c.2 = population c.2)
    (WellMixedTank.run_graph w self os WellMixedTank.sload
       WellMixedTank.initial_state).
Proof.
  destruct (run_graph_head w self os WellMixedTank.sload
              WellMixedTank.initial_state) as [l Hl].
  pose proof (run_graph_chain w self os WellMixedTank.sload
                WellMixedTank.initial_state) as Hchain.
  rewrite Hl in *.
  apply (chain_Forall (step w self)); [|assumption|reflexivity].
  intros a b Ha (o & k & Hv & _). by eapply visit_conservation.
Qed.

(** X15. When a run reaches the terminal node, the sample buffer and the
    holding tank are empty and the pool holds every particle accounted for:
    those loaded, plus the products of the reactions, minus their
    participants. *)
Theorem pool_complete_at_termination (bond : WellMixedTank.Subgraph)
    (sample_size reactions generations tank_size : Z)
    (load_type : LoadSampler.mode) (load_file : option string)
    (self : WellMixedTank.t) (s0 : WellMixedTank.state)
    (w : world) (os : list WellMixedTank.oracle) (c : config) :
  WellMixedTank.init bond sample_size reactions generations tank_size
    load_type load_file = Ok (self, s0) →
  c ∈ WellMixedTank.run_graph w self os WellMixedTank.sload s0 →
  c.1 = WellMixedTank.tterm →
  WellMixedTank.SComposite c.2 = [] ∧
  WellMixedTank.TNew c.2 = [] ∧
  Z.of_nat (length (WellMixedTank.TTank c.2)) = population c.2.
Proof.
  intros (-> & _)%init_Ok_inv Hc Hn.
  pose proof (run_buffers_by_node w self os) as Hb.
  pose proof (run_conserved w self os) as Hcons.
  rewrite Forall_forall in Hb, Hcons.
  specialize (Hb c Hc). specialize (Hcons c Hc).
  unfold buffers_by_node in Hb. rewrite Hn in Hb. destruct Hb as [Hs Hnew].
  split; [assumption|]. split; [assumption|].
  rewrite <- Hcons. unfold held. rewrite Hs, Hnew. cbn. lia.
Qed.

Lemma pool_complete_at_termination_witness :
  Forall (λ c : config,
            c.1 = WellMixedTank.tterm →
            Z.of_nat (length (WellMixedTank.TTank c.2)) = population c.2)
         small_run.
Proof.
  apply Forall_forall. intros c Hc Hn.
  exact (proj2 (proj2 (pool_complete_at_termination well_shaped 2 1 1 5
    (LoadSampler.ModeStr "int") None small_tank WellMixedTank.initial_state
    bare_world (replicate 20 identity_oracle) c eq_refl Hc Hn))).
Defined.

(** X16. Whenever a run arrives at the pre-reaction observer, the sample
    buffer holds exactly [sample_size] items (none for a size of 0 or less):
    the buffer was empty when the sampler filled it.  So in a run the
    observer returns normally when [sample_size] is at least 1 and raises
    IndexError when it is 0 or less. *)
Theorem sample_has_sample_size (bond : WellMixedTank.Subgraph)
    (sample_size reactions generations tank_size : Z)
    (load_type : LoadSampler.mode) (load_file : option string)
    (self : WellMixedTank.t) (s0 : WellMixedTank.state)
    (w : world) (os : list WellMixedTank.oracle) (c : config) :
  WellMixedTank.init bond sample_size reactions generations tank_size
    load_type load_file = Ok (self, s0) →
  c ∈ WellMixedTank.run_graph w self os WellMixedTank.sload s0 →
  c.1 = WellMixedTank.osample →
  length (WellMixedTank.SComposite c.2) = Z.to_nat sample_size ∧
  (1 ≤ sample_size →
   ∃ so, SampleObserver.process
           (SampleObserver.read SampleObserver.init
              (WellMixedTank.SComposite c.2)) = Ok so) ∧
  (sample_size ≤ 0 →
   SampleObserver.process
     (SampleObserver.read SampleObserver.init (WellMixedTank.SComposite c.2))
     = Raise (IndexError "list index out of range")).
Proof.
  intros (-> & Hsize & _)%init_Ok_inv Hc Hn.
  pose proof (run_buffers_by_node w self os) as Hb.
  rewrite Forall_forall in Hb. specialize (Hb c Hc).
  unfold buffers_by_node in Hb. rewrite Hn, Hsize in Hb.
  split; [assumption|].
  unfold SampleObserver.process, SampleObserver.read.
  cbn [SampleObserver.sample].
  destruct (WellMixedTank.SComposite c.2) as [|x [|y rest]]; cbn in *.
  - split; [intros; lia | reflexivity].
  - split; [intros _; eexists; reflexivity | intros; lia].
  - split; [intros _; eexists; reflexivity | intros; lia].
Qed.

Lemma sample_has_sample_size_witness :
  Forall (λ c : config,
            c.1 = WellMixedTank.osample →
            length (WellMixedTank.SComposite c.2) = 2%nat)
         small_run.
Proof.
  apply Forall_forall. intros c Hc Hn.
  exact (proj1 (sample_has_sample_size well_shaped 2 1 1 5
    (LoadSampler.ModeStr "int") None small_tank WellMixedTank.initial_state
    bare_world (replicate 20 identity_oracle) c eq_refl Hc Hn)).
Defined.

(** ** The rows of the ledger along a run *)

Lemma step_effect_rows (w : world) (self : WellMixedTank.t)
    (n n' : WellMixedTank.node) (s s' : WellMixedTank.state) :
  step_effect w self n s n' s' →
  length (DataFrameEnvironment.rows (WellMixedTank.VReaction s'))
  = (length (DataFrameEnvironment.rows (WellMixedTank.VReaction s))
     + reactions_recorded [(n, s)])%nat.
Proof.
  unfold reactions_recorded. rewrite filter_cons, filter_nil. cbn [fst].
  destruct n; cbn [step_effect]; intros He;
    (destruct (decide _) as [Hd|Hd]; [try discriminate Hd | try congruence]);
    cbn [length].
  - destruct He as (-> & l & tank & _ & ->). cbn. lia.
  - destruct He as (-> & ->). cbn. lia.
  - destruct He as (-> & ->). cbn. lia.
  - destruct He as (-> & picks & got & rest & _ & _ & ->). cbn. lia.
  - destruct He as (-> & so & _ & ->). cbn. lia.
  - destruct He as (-> & products & ->). cbn. lia.
  - destruct He as (-> & ro & _ & ->). cbn. rewrite length_app. cbn. lia.
  - destruct He as (-> & ->). cbn. lia.
  - destruct He as (-> & ->). cbn. lia.
  - destruct He as (-> & _). lia.
  - destruct He as (-> & ->). cbn. lia.
  - destruct He as (-> & ->). lia.
  - destruct He as (-> & ->). cbn. lia.
  - contradiction.
Qed.

Lemma reactions_recorded_cons (c : config) (l : list config) :
  reactions_recorded (c :: l)
  = (reactions_recorded [c] + reactions_recorded l)%nat.
Proof.
  unfold reactions_recorded. rewrite !filter_cons, filter_nil.
  destruct (decide (c.1 = WellMixedTank.oreturn)); reflexivity.
Qed.

Lemma chain_rows (w : world) (self : WellMixedTank.t)
    (pre post : list config) (c0 c : config) :
  chain (step w self) (pre ++ c :: post) →
  head (pre ++ [c]) = Some c0 →
  length (DataFrameEnvironment.rows (WellMixedTank.VReaction c.2))
  = (length (DataFrameEnvironment.rows (WellMixedTank.VReaction c0.2))
     + reactions_recorded pre)%nat.
Proof.
  revert c0. induction pre as [|p pre IH]; intros c0 Hchain Hhead.
  - cbn in Hhead. injection Hhead as <-. unfold reactions_recorded. cbn. lia.
  - cbn in Hhead. injection Hhead as <-.
    rewrite reactions_recorded_cons.
    destruct (pre ++ [c]) as [|x l] eqn:Hx; [by destruct pre|].
    assert (∃ l', pre ++ c :: post = x :: l') as [l' Hl'].
    { destruct pre as [|y pre]; cbn in *.
      - injection Hx as <- <-. by eexists.
      - injection Hx as <- <-. by eexists. }
    cbn in Hchain. rewrite Hl' in Hchain. inversion Hchain as [| |? ? ? Hstep Hrest]; subst.
    rewrite <- Hl' in Hrest.
    rewrite (IH x Hrest eq_refl).
    apply step_effect_of_step in Hstep.
    destruct p as [n s], x as [n' s']. cbn [fst snd] in *.
    rewrite (step_effect_rows _ _ _ _ _ _ Hstep). lia.
Qed.

(** X17. At every point of a run the ledger has exactly one row for each
    visit of the post-reaction observer completed so far: every reaction
    attempt is recorded once, whatever the kind of the products. *)
Theorem one_row_per_reaction (bond : WellMixedTank.Subgraph)
    (sample_size reactions generations tank_size : Z)
    (load_type : LoadSampler.mode) (load_file : option string)
    (self : WellMixedTank.t) (s0 : WellMixedTank.state)
    (w : world) (os : list WellMixedTank.oracle)
    (pre post : list config) (c : config) :
  WellMixedTank.init bond sample_size reactions generations tank_size
    load_type load_file = Ok (self, s0) →
  WellMixedTank.run_graph w self os WellMixedTank.sload s0
    = pre ++ c :: post →
  length (DataFrameEnvironment.rows (WellMixedTank.VReaction c.2))
  = reactions_recorded pre.
Proof.
  intros (-> & _)%init_Ok_inv Hrun.
  pose proof (run_graph_chain w self os WellMixedTank.sload
                WellMixedTank.initial_state) as Hchain.
  destruct (run_graph_head w self os WellMixedTank.sload
              WellMixedTank.initial_state) as [l Hl].
  rewrite Hrun in Hchain.
  rewrite (chain_rows w self pre post
             (WellMixedTank.sload, WellMixedTank.initial_state) c Hchain).
  - reflexivity.
  - rewrite Hrun in Hl. destruct pre as [|p pre]; cbn in *.
    + by injection Hl as ->.
    + by injection Hl as ->.
Qed.

Lemma one_row_per_reaction_witness :
  length (DataFrameEnvironment.rows (WellMixedTank.VReaction
            (default (WellMixedTank.sload, WellMixedTank.initial_state)
                     (long_run !! 30%nat)).2))
  = reactions_recorded (take 30 long_run).
Proof.
  apply (one_row_per_reaction well_shaped 2 2 3 5
    (LoadSampler.ModeStr "int") None three_generations
    WellMixedTank.initial_state bare_world (replicate 80 identity_oracle)
    (take 30 long_run) (drop 31 long_run)); [reflexivity|].
  apply cut_at. vm_compute. lia.
Defined.

#[local] Set Warnings "-clear-no-such-hyp".

Lemma SampleObserver_process_dom (self so : SampleObserver.t) :
  SampleObserver.process self = Ok so →
  dom (SampleObserver.dict so) = staged_keys.
Proof.
  unfold SampleObserver.process.
  destruct (SampleObserver.sample self) as [|x [|y rest]]; cbn;
    [discriminate|..]; intros [= <-]; cbn;
    rewrite !dom_insert_L; unfold staged_keys; set_solver.
Qed.

Lemma ReturnObserver_process_dom (self ro : ReturnObserver.t)
    (VGen : StackEnvironment.t) :
  ReturnObserver.process self VGen = Ok ro →
  dom (ReturnObserver.dict ro)
  = {["Prods"; "Open_Spikes"; "Bonded_Spikes"; "Intensity"; "Generation"]}
    ∪ dom (ReturnObserver.dict self).
Proof.
  unfold ReturnObserver.process.
  destruct (forallb _ _).
  - unfold ReturnObserver.process_rbn.
    destruct (ReturnObserver.loop _ _) as [e|acc]; [discriminate|].
    cbn. intros [= <-]. cbn. rewrite !dom_insert_L. set_solver.
  - unfold ReturnObserver.process_na. intros [= <-]. cbn.
    rewrite !dom_insert_L. set_solver.
Qed.

Lemma pull_dom (VBond : gmap string pyval) :
  dom (SampleObserver.pull VBond) = dom VBond ∖ staged_keys.
Proof.
  unfold SampleObserver.pull, DictionaryEnvironment.remove. cbn.
  rewrite !dom_delete_L. unfold staged_keys. set_solver.
Qed.

Lemma column_keys_split :
  column_keys
  = {["Prods"; "Open_Spikes"; "Bonded_Spikes"; "Intensity"; "Generation"]}
    ∪ staged_keys.
Proof. apply (bool_decide_unpack _). by vm_compute. Qed.

Lemma fill_keys (A B D : gset string) :
  B ⊆ D → D ⊆ A ∪ B → A ∪ D = A ∪ B.
Proof. set_solver. Qed.

Lemma run_keys_by_node (w : world) (self : WellMixedTank.t)
    (os : list WellMixedTank.oracle) :
  Forall keys_by_node
    (WellMixedTank.run_graph w self os WellMixedTank.sload
       WellMixedTank.initial_state).
Proof.
  assert (staged_keys ⊆ column_keys) as Hsub
    by (unfold staged_keys, column_keys; cbn; set_solver).
  apply run_invariant.
  - unfold keys_by_node. cbn. split; [set_solver|]. split; [constructor|done].
  - intros [n s] [n' s']. unfold keys_by_node. cbn [fst snd].
    destruct n; cbn [step_effect]; intros (Hdom & Hrows & Hn) He.
    + destruct He as (-> & l & tank & _ & ->). done.
    + destruct He as (-> & ->). done.
    + destruct He as (-> & ->). done.
    + destruct He as (-> & picks & got & rest & _ & _ & ->). done.
    + destruct He as (-> & so & Hp & ->).
      cbn [WellMixedTank.VBond WellMixedTank.VReaction
           WellMixedTank.set_records].
      apply SampleObserver_process_dom in Hp.
      unfold SampleObserver.push, DictionaryEnvironment.add.
      rewrite dom_union_L, Hp, pull_dom.
      split; [set_solver|]. split; [assumption|set_solver].
    + destruct He as (-> & products & ->). done.
    + destruct He as (-> & ro & Hp & ->). cbn.
      apply ReturnObserver_process_dom in Hp. cbn in Hp.
      assert (dom (ReturnObserver.dict ro) = column_keys) as Hfull.
      { rewrite Hp, column_keys_split. apply fill_keys; [assumption|].
        by rewrite <- column_keys_split. }
      split; [by rewrite Hfull|]. split; [|done].
      apply Forall_app. split; [assumption|]. by constructor.
    + destruct He as (-> & ->). done.
    + destruct He as (-> & ->). done.
    + destruct He as (-> & He). cbn zeta in He.
      destruct He as [[_ ->]|[[_ ->]|[_ ->]]]; done.
    + destruct He as (-> & ->). done.
    + destruct He as (-> & ->). done.
    + destruct He as (-> & ->). done.
    + contradiction.
Qed.

Lemma ledger_columns_kept (bond : WellMixedTank.Subgraph)
    (sample_size reactions generations tank_size : Z)
    (load_type : LoadSampler.mode) (load_file : option string)
    (self : WellMixedTank.t) (s0 : WellMixedTank.state)
    (w : world) (os : list WellMixedTank.oracle) (c : config) :
  WellMixedTank.init bond sample_size reactions generations tank_size
    load_type load_file = Ok (self, s0) →
  c ∈ WellMixedTank.run_graph w self os WellMixedTank.sload s0 →
  DataFrameEnvironment.columns (WellMixedTank.VReaction c.2)
  = WellMixedTank.ledger_columns.
Proof.
  intros (-> & _)%init_Ok_inv Hc.
  assert (Forall (λ x : config,
            DataFrameEnvironment.columns (WellMixedTank.VReaction x.2)
            = WellMixedTank.ledger_columns)
          (WellMixedTank.run_graph w self os WellMixedTank.sload
             WellMixedTank.initial_state)) as Hall.
  { destruct (run_graph_head w self os WellMixedTank.sload
                WellMixedTank.initial_state) as [l Hl].
    pose proof (run_graph_chain w self os WellMixedTank.sload
                  WellMixedTank.initial_state) as Hchain.
    rewrite Hl in *.
    apply (chain_Forall (step w self)); [|assumption|reflexivity].
    intros a b Ha (o & k & Hv & _).
    destruct (visit_ledger _ _ _ _ _ _ _ Hv) as [[H _]|[r [H _]]]; congruence. }
  rewrite Forall_forall in Hall. by apply Hall.
Qed.

(** X18. Every row of the ledger, at every point of every run, has a
    value for each of the nine columns the ledger was created with, and for
    nothing else: the four keys staged by the pre-reaction observer and the
    five written by the post-reaction observer are exactly the columns. *)
Theorem rows_have_the_columns (bond : WellMixedTank.Subgraph)
    (sample_size reactions generations tank_size : Z)
    (load_type : LoadSampler.mode) (load_file : option string)
    (self : WellMixedTank.t) (s0 : WellMixedTank.state)
    (w : world) (os : list WellMixedTank.oracle) (c : config)
    (row : gmap string pyval) :
  WellMixedTank.init bond sample_size reactions generations tank_size
    load_type load_file = Ok (self, s0) →
  c ∈ WellMixedTank.run_graph w self os WellMixedTank.sload s0 →
  row ∈ DataFrameEnvironment.rows (WellMixedTank.VReaction c.2) →
  ∀ k, is_Some (row !! k)
       ↔ k ∈ DataFrameEnvironment.columns (WellMixedTank.VReaction c.2).
Proof.
  intros Hinit Hc Hrow.
  assert (DataFrameEnvironment.columns (WellMixedTank.VReaction c.2)
          = WellMixedTank.ledger_columns) as ->.
  { pose proof (ledger_columns_kept bond sample_size reactions generations
                  tank_size load_type load_file self s0 w os c Hinit Hc).
    assumption. }
  apply init_Ok_inv in Hinit as (-> & _).
  pose proof (run_keys_by_node w self os) as Hall.
  rewrite Forall_forall in Hall. destruct (Hall c Hc) as (_ & Hrows & _).
  rewrite Forall_forall in Hrows. specialize (Hrows row Hrow).
  intros k. rewrite <- elem_of_dom, Hrows. unfold column_keys.
  by rewrite elem_of_list_to_set.
Qed.

Lemma rows_have_the_columns_witness :
  Forall (λ c : config,
            Forall (λ row : gmap string pyval,
                      ∀ k, is_Some (row !! k)
                           ↔ k ∈ DataFrameEnvironment.columns
                                   (WellMixedTank.VReaction c.2))
                   (DataFrameEnvironment.rows (WellMixedTank.VReaction c.2)))
         small_run.
Proof.
  apply Forall_forall. intros c Hc. apply Forall_forall. intros row Hrow.
  exact (rows_have_the_columns well_shaped 2 1 1 5
    (LoadSampler.ModeStr "int") None small_tank WellMixedTank.initial_state
    bare_world (replicate 20 identity_oracle) c row eq_refl Hc Hrow).
Defined.

(** ** The progress line of the logger *)

Lemma spaceless_pretty_N_go (x : N) (s : string) :
  spaceless s → spaceless (pretty_N_go x s).
Proof.
  revert s. induction (N.lt_wf_0 x) as [x _ IH]; intros s Hs.
  destruct (decide (x = 0%N)) as [->|Hx]; [by rewrite pretty_N_go_0|].
  rewrite pretty_N_go_step by lia.
  apply IH; [apply N.div_lt; lia|].
  split; [|assumption].
  unfold pretty_N_char. by repeat case_match.
Qed.

Lemma spaceless_pretty_N (x : N) : spaceless (pretty x).
Proof.
  unfold pretty, pretty_N.
  case_decide; [by split|]. by apply spaceless_pretty_N_go.
Qed.

Lemma spaceless_pretty_Z (z : Z) : spaceless (pretty z).
Proof.
  destruct z as [|p|p].
  - by split.
  - exact (spaceless_pretty_N (N.pos p)).
  - split; [discriminate|]. exact (spaceless_pretty_N (N.pos p)).
Qed.

(** Two strings cut at their first space. *)
Lemma split_at_first_space (s1 s2 t1 t2 : string) :
  spaceless s1 → spaceless s2 →
  s1 +:+ String " " t1 = s2 +:+ String " " t2 →
  s1 = s2 ∧ t1 = t2.
Proof.
  revert s2. induction s1 as [|a s1 IH]; intros [|b s2] H1 H2 H.
  - injection H as ->. by split.
  - change (String " " t1 = String b (s2 +:+ String " " t2)) in H.
    injection H as <- _. by destruct H2.
  - change (String a (s1 +:+ String " " t1) = String " " t2) in H.
    injection H as -> _. by destruct H1.
  - change (String a (s1 +:+ String " " t1)
            = String b (s2 +:+ String " " t2)) in H.
    injection H as -> H. destruct H1 as [_ H1], H2 as [_ H2].
    destruct (IH s2 H1 H2 H) as [-> ->]. by split.
Qed.

(** X19. The progress line of the default logger tells both counters:
    two visits that print the same line read the same generation number and
    the same number of reactions. *)
Theorem TimeLoggerObserver_line_determines_counters
    (self1 self2 : TimeLoggerObserver.t) :
  TimeLoggerObserver.process self1 = TimeLoggerObserver.process self2 →
  TimeLoggerObserver.clock self1 = TimeLoggerObserver.clock self2 ∧
  TimeLoggerObserver.reactions self1 = TimeLoggerObserver.reactions self2.
Proof.
  unfold TimeLoggerObserver.process.
  intros H%(inj (String.app _)).
  change (" and completed " +:+ pretty (TimeLoggerObserver.reactions self1)
          +:+ " reactions.")
    with (String " " ("and completed "
            +:+ pretty (TimeLoggerObserver.reactions self1) +:+ " reactions."))
    in H.
  change (" and completed " +:+ pretty (TimeLoggerObserver.reactions self2)
          +:+ " reactions.")
    with (String " " ("and completed "
            +:+ pretty (TimeLoggerObserver.reactions self2) +:+ " reactions."))
    in H.
  apply split_at_first_space in H as [Hc H]; [|apply spaceless_pretty_Z..].
  apply (inj (String.app _)) in H.
  change (" reactions.") with (String " " "reactions.") in H.
  apply split_at_first_space in H as [Hr _]; [|apply spaceless_pretty_Z..].
  split; by apply (inj pretty).
Qed.

Lemma TimeLoggerObserver_line_determines_counters_witness :
  TimeLoggerObserver.clock
    {| TimeLoggerObserver.rewrite := true; TimeLoggerObserver.clock := 12;
       TimeLoggerObserver.reactions := 3 |}
  = TimeLoggerObserver.clock
      {| TimeLoggerObserver.rewrite := false; TimeLoggerObserver.clock := 12;
         TimeLoggerObserver.reactions := 3 |}.
Proof.
  apply (TimeLoggerObserver_line_determines_counters
           {| TimeLoggerObserver.rewrite := true; TimeLoggerObserver.clock := 12;
              TimeLoggerObserver.reactions := 3 |}
           {| TimeLoggerObserver.rewrite := false; TimeLoggerObserver.clock := 12;
              TimeLoggerObserver.reactions := 3 |}).
  reflexivity.
Defined.

(** X20. Whenever a run arrives at the logger, the line it prints reports
    a generation number from 1 to [generations] - 1 and a number of reactions
    from 1 to max(1, reactions): the logger runs between generations only,
    never after the last one. *)
Theorem logger_reports_finished_generation (bond : WellMixedTank.Subgraph)
    (sample_size reactions generations tank_size : Z)
    (load_type : LoadSampler.mode) (load_file : option string)
    (self : WellMixedTank.t) (s0 : WellMixedTank.state)
    (w : world) (os : list WellMixedTank.oracle) (c : config) :
  WellMixedTank.init bond sample_size reactions generations tank_size
    load_type load_file = Ok (self, s0) →
  c ∈ WellMixedTank.run_graph w self os WellMixedTank.sload s0 →
  c.1 = WellMixedTank.olog →
  ∃ t r,
    TimeLoggerObserver.visit c.2
      = "Currently in generation: " +:+ pretty t +:+
        " and completed " +:+ pretty r +:+ " reactions." ∧
    1 ≤ t < generations ∧ 1 ≤ r ≤ Z.max 1 reactions.
Proof.
  intros (-> & _ & Hdec & _)%init_Ok_inv Hc Hn.
  pose proof (run_reactions_bounded w self os) as Hr.
  pose proof (run_generations_gate w self os) as Ht.
  rewrite Hdec in Hr, Ht.
  cbn [TimingsDecision.gen_thresh TimingsDecision.time_thresh
       TimingsDecision.init] in Hr, Ht.
  rewrite Forall_forall in Hr, Ht.
  specialize (Hr c Hc). specialize (Ht c Hc).
  unfold reactions_bounded in Hr. unfold generations_gate in Ht.
  rewrite Hn in Hr, Ht. cbn zeta in Hr, Ht.
  exists (StackEnvironment.value (WellMixedTank.VTime c.2)),
         (StackEnvironment.value (WellMixedTank.VGen c.2)).
  split; [reflexivity|]. split; assumption.
Qed.

Lemma logger_reports_finished_generation_witness :
  ∃ t r,
    TimeLoggerObserver.visit
      (default (WellMixedTank.sload, WellMixedTank.initial_state)
               (long_run !! 18%nat)).2
      = "Currently in generation: " +:+ pretty t +:+
        " and completed " +:+ pretty r +:+ " reactions." ∧
    1 ≤ t < 3 ∧ 1 ≤ r ≤ Z.max 1 2.
Proof.
  apply (logger_reports_finished_generation well_shaped 2 2 3 5
    (LoadSampler.ModeStr "int") None three_generations
    WellMixedTank.initial_state bare_world (replicate 80 identity_oracle)
    (default (WellMixedTank.sload, WellMixedTank.initial_state)
             (long_run !! 18%nat))); [reflexivity| |].
  - destruct (lookup_lt_is_Some_2 long_run 18) as [x Hx]; [vm_compute; lia|].
    fold long_run. rewrite Hx. cbn. by eapply list_elem_of_lookup_2.
  - vm_compute. reflexivity.
Defined.
